(** * caret_report: report/analyze_path/analyze_path.py

    A shallow embedding of the path analysis script and the properties of
    its statistics record, duration estimate, boundary-callback check,
    path configuration and orchestration.

    Conventions of the embedding.
    - A Python [dict] keyed by strings is a [gmap string _].
    - The records table ([RecordsInterface.to_dataframe()], a pandas
      DataFrame of timestamps) is a list of column labels, a list of rows
      and a dtype per column; a row lacking a label has a missing cell
      there, so every column has as many entries as the frame has rows.
      A nullable [Int64] column holds 64-bit integers, which wrap around
      when subtracted, and [<NA>]; a [float64] or [object] column holds
      floats and [nan].
    - A float64 is idealised as an exact rational ([Q]) or [nan]: [Nan]
      among the durations, where a column without a timestamp brings it
      in, and [PyNaN] among the values of a [Stats] field, where the
      average of an empty sequence does.
    - Calls into caret_analyze, bokeh and the file system are effects: they
      are appended to an event trace, and a Python exception or
      [sys.exit] stops the computation. The exceptions followed are the
      ones the script raises or handles itself: an index or key out of
      range, [sys.exit], and the failure of a stacked-bar plot. *)

From Stdlib Require Import ZArith QArith Qminmax Qround Lqa Lia.
From Stdlib Require Import List Sorted String Ascii Bool.
From stdpp Require Import gmap strings list fin_maps.

Open Scope string_scope.
Open Scope list_scope.

(** ** Python strings: the [in] operator *)

(** [target in key] for two [str]: does [target] occur in [key] as a
    contiguous substring. *)
Fixpoint str_in (target key : string) : bool :=
  String.prefix target key ||
  match key with
  | EmptyString => false
  | String _ rest => str_in target rest
  end.

(** ** Values stored in a [Stats] field *)

(** A statistics field holds either the string it was initialised with or
    a Python float. *)
Inductive pyval : Type :=
  | PyStr (s : string)
  | PyFloat (x : Q)
  | PyNaN.

Definition is_number (v : pyval) : bool :=
  match v with
  | PyStr _ => false
  | PyFloat _ | PyNaN => true
  end.

(** ** numpy and the builtin [round] on exact rationals *)

Module Np.

(** [round(x, 3)]: the nearest multiple of 1/1000, a tie going to the
    even one. *)
Definition round_half_even (x : Q) : Z :=
  let f := Qfloor x in
  match (x - inject_Z f) ?= (1 # 2) with
  | Lt => f
  | Gt => (f + 1)%Z
  | Eq => if Z.even f then f else (f + 1)%Z
  end%Q.

Definition round3 (x : Q) : Q :=
  (inject_Z (round_half_even (x * 1000)) / 1000)%Q.

Definition sum (l : list Q) : Q := fold_right Qplus 0%Q l.

(** [np.average] of an empty array is [nan] (with a warning only). *)
Definition average (l : list Q) : pyval :=
  match l with
  | [] => PyNaN
  | _ => PyFloat (sum l / inject_Z (Z.of_nat (length l)))%Q
  end.

(** [np.min] and [np.max] raise [ValueError] on an empty array; the
    script calls them under [len(df) > 1] only, and the value given
    here for [[]] is never looked at. *)
Definition min (l : list Q) : Q :=
  match l with
  | [] => 0%Q
  | x :: r => fold_left Qmin r x
  end.

Definition max (l : list Q) : Q :=
  match l with
  | [] => 0%Q
  | x :: r => fold_left Qmax r x
  end.

Fixpoint insert_sorted (x : Q) (l : list Q) : list Q :=
  match l with
  | [] => [x]
  | y :: r => if Qle_bool x y then x :: l else y :: insert_sorted x r
  end.

Definition sort (l : list Q) : list Q := fold_right insert_sorted [] l.

(** [np.quantile(a, q)] with the default method, "linear": the virtual
    index [(n - 1) * q] is split into its floor [i] and the rest
    [gamma], and the result interpolates between the [i]-th and the
    next order statistic. *)
Definition quantile (l : list Q) (q : Q) : Q :=
  let s := sort l in
  let n := length s in
  let virtual_index := (inject_Z (Z.of_nat (n - 1)) * q)%Q in
  let previous_index := Z.to_nat (Qfloor virtual_index) in
  let next_index := Nat.min (previous_index + 1) (n - 1) in
  let gamma := (virtual_index - inject_Z (Qfloor virtual_index))%Q in
  let previous := nth previous_index s 0%Q in
  let next := nth next_index s 0%Q in
  (previous + (next - previous) * gamma)%Q.

End Np.

(** [round(float(v), 3)] for a value that may be [nan]. *)
Definition py_round3 (v : pyval) : pyval :=
  match v with
  | PyFloat x => PyFloat (Np.round3 x)
  | other => other
  end.

(** ** The [Stats] class *)

Record Stats : Type := mkStats {
  target_path_name : string;
  node_names : list string;
  best_avg : pyval;
  best_std : pyval;
  best_min : pyval;
  best_max : pyval;
  best_p50 : pyval;
  best_p95 : pyval;
  best_p99 : pyval;
  worst_avg : pyval;
  worst_std : pyval;
  worst_min : pyval;
  worst_max : pyval;
  worst_p50 : pyval;
  worst_p95 : pyval;
  worst_p99 : pyval;
  filename_messageflow : string;
  filename_messageflow_short : string;
  filename_hist_total : string;
  filename_hist_best : string;
  filename_timeseries_best : string;
  filename_stacked_bar_best : string;
  filename_hist_worst : string;
  filename_timeseries_worst : string;
  filename_stacked_bar_worst : string
}.

Definition placeholder : pyval := PyStr "---".

(** [Stats.__init__] *)
Definition Stats_init (target_path_name : string) (node_names : list string)
  : Stats :=
  {| target_path_name := target_path_name;
     node_names := node_names;
     best_avg := placeholder;
     best_std := placeholder;
     best_min := placeholder;
     best_max := placeholder;
     best_p50 := placeholder;
     best_p95 := placeholder;
     best_p99 := placeholder;
     worst_avg := placeholder;
     worst_std := placeholder;
     worst_min := placeholder;
     worst_max := placeholder;
     worst_p50 := placeholder;
     worst_p95 := placeholder;
     worst_p99 := placeholder;
     filename_messageflow := "";
     filename_messageflow_short := "";
     filename_hist_total := "";
     filename_hist_best := "";
     filename_timeseries_best := "";
     filename_stacked_bar_best := "";
     filename_hist_worst := "";
     filename_timeseries_worst := "";
     filename_stacked_bar_worst := "" |}.

(** The attribute assignments of [calc_stats], one setter per group. *)
Definition set_best_avg (v : pyval) (s : Stats) : Stats :=
  mkStats s.(target_path_name) s.(node_names)
    v s.(best_std) s.(best_min) s.(best_max)
    s.(best_p50) s.(best_p95) s.(best_p99)
    s.(worst_avg) s.(worst_std) s.(worst_min) s.(worst_max)
    s.(worst_p50) s.(worst_p95) s.(worst_p99)
    s.(filename_messageflow) s.(filename_messageflow_short)
    s.(filename_hist_total) s.(filename_hist_best)
    s.(filename_timeseries_best) s.(filename_stacked_bar_best)
    s.(filename_hist_worst) s.(filename_timeseries_worst)
    s.(filename_stacked_bar_worst).

Definition set_best_spread (vmin vmax vstd p50 p95 p99 : pyval) (s : Stats)
  : Stats :=
  mkStats s.(target_path_name) s.(node_names)
    s.(best_avg) vstd vmin vmax p50 p95 p99
    s.(worst_avg) s.(worst_std) s.(worst_min) s.(worst_max)
    s.(worst_p50) s.(worst_p95) s.(worst_p99)
    s.(filename_messageflow) s.(filename_messageflow_short)
    s.(filename_hist_total) s.(filename_hist_best)
    s.(filename_timeseries_best) s.(filename_stacked_bar_best)
    s.(filename_hist_worst) s.(filename_timeseries_worst)
    s.(filename_stacked_bar_worst).

Definition set_worst_avg (v : pyval) (s : Stats) : Stats :=
  mkStats s.(target_path_name) s.(node_names)
    s.(best_avg) s.(best_std) s.(best_min) s.(best_max)
    s.(best_p50) s.(best_p95) s.(best_p99)
    v s.(worst_std) s.(worst_min) s.(worst_max)
    s.(worst_p50) s.(worst_p95) s.(worst_p99)
    s.(filename_messageflow) s.(filename_messageflow_short)
    s.(filename_hist_total) s.(filename_hist_best)
    s.(filename_timeseries_best) s.(filename_stacked_bar_best)
    s.(filename_hist_worst) s.(filename_timeseries_worst)
    s.(filename_stacked_bar_worst).

Definition set_worst_spread (vmin vstd vmax p50 p95 p99 : pyval) (s : Stats)
  : Stats :=
  mkStats s.(target_path_name) s.(node_names)
    s.(best_avg) s.(best_std) s.(best_min) s.(best_max)
    s.(best_p50) s.(best_p95) s.(best_p99)
    s.(worst_avg) vstd vmin vmax p50 p95 p99
    s.(filename_messageflow) s.(filename_messageflow_short)
    s.(filename_hist_total) s.(filename_hist_best)
    s.(filename_timeseries_best) s.(filename_stacked_bar_best)
    s.(filename_hist_worst) s.(filename_timeseries_worst)
    s.(filename_stacked_bar_worst).

Section Statistics.

(** [np.std] takes a square root, which the rationals do not have: the
    population standard deviation stays a parameter. *)
Variable np_std : list Q -> Q.

Definition rounded (x : Q) : pyval := PyFloat (Np.round3 x).

(** [Stats.calc_stats] *)
Definition calc_stats (self : Stats) (df_best df_worst : list Q) : Stats :=
  let self := set_best_avg (py_round3 (Np.average df_best)) self in
  let self :=
    if (1 <? length df_best)%nat then
      set_best_spread
        (rounded (Np.min df_best))
        (rounded (Np.max df_best))
        (rounded (np_std df_best))
        (rounded (Np.quantile df_best (1 # 2)))
        (rounded (Np.quantile df_best (95 # 100)))
        (rounded (Np.quantile df_best (99 # 100)))
        self
    else self in
  let self := set_worst_avg (py_round3 (Np.average df_worst)) self in
  if (1 <? length df_worst)%nat then
    set_worst_spread
      (rounded (Np.min df_worst))
      (rounded (np_std df_worst))
      (rounded (Np.max df_worst))
      (rounded (Np.quantile df_worst (1 # 2)))
      (rounded (Np.quantile df_worst (95 # 100)))
      (rounded (Np.quantile df_worst (99 # 100)))
      self
  else self.

End Statistics.

(** [Stats.store_filename] *)
Definition store_filename (self : Stats) (path_name : string)
    (save_long_graph : bool) : Stats :=
  mkStats self.(target_path_name) self.(node_names)
    self.(best_avg) self.(best_std) self.(best_min) self.(best_max)
    self.(best_p50) self.(best_p95) self.(best_p99)
    self.(worst_avg) self.(worst_std) self.(worst_min) self.(worst_max)
    self.(worst_p50) self.(worst_p95) self.(worst_p99)
    (if save_long_graph then path_name +:+ "_messageflow"
     else self.(filename_messageflow))
    (path_name +:+ "_messageflow_short")
    self.(filename_hist_total)
    (path_name +:+ "_hist_best")
    (path_name +:+ "_timeseries_best")
    (path_name +:+ "_stacked_bar_best")
    (path_name +:+ "_hist_worst")
    (path_name +:+ "_timeseries_worst")
    (path_name +:+ "_stacked_bar_worst").

(** ** The records table *)

(** A Python float: a number or [nan]. *)
Inductive pyfloat : Type :=
  | Fin (x : Q)
  | Nan.

(** The dtype of a column: pandas' nullable [Int64], whose missing cell
    is [<NA>] and whose values are 64-bit integers, or [float64] (and
    [object]), whose missing cell is [nan] and whose values are floats. *)
Inductive Dtype : Type := Int64 | Float64.

(** [records.to_dataframe()]: the column labels, per row the timestamps
    (nanoseconds) by label, a label absent from a row being a missing
    cell, and the dtype of each column. *)
Record DataFrame : Type := Frame {
  columns : list string;
  rows : list (gmap string Z);
  dtype : string -> Dtype
}.

(** A frame whose columns are all nullable [Int64]. *)
Definition mkDataFrame (columns : list string) (rows : list (gmap string Z))
  : DataFrame :=
  Frame columns rows (λ _, Int64).

(** Python exceptions the script can meet, and [sys.exit]. *)
Inductive Exn : Type :=
  | IndexError
  | KeyError (key : string)
  | SystemExit (code : Z)
  | Exception (msg : string).

(** What [df[label]] selects: a Series when the label is unique among the
    columns, a sub-frame of all the columns of that label otherwise. *)
Inductive Selection : Type :=
  | Series (kind : Dtype) (cells : list (option Z))
  | SubFrame (nrows ncols : nat).

(** What a reduction and the arithmetic after it produce: a numpy
    [int64], a float, [<NA>], or one value per column. *)
Inductive Scalar : Type :=
  | SInt (z : Z)
  | SFloat (x : pyfloat)
  | SNA
  | SPerColumn.

(** Signed 64-bit wrap-around. *)
Definition wrap64 (z : Z) : Z :=
  ((z + 2 ^ 63) mod 2 ^ 64 - 2 ^ 63)%Z.

(** Float arithmetic: [nan] absorbs. *)
Definition of_int (z : Z) : pyfloat := Fin (inject_Z z).

Definition fsub (a b : pyfloat) : pyfloat :=
  match a, b with
  | Fin x, Fin y => Fin (x - y)
  | _, _ => Nan
  end.

Definition fmul (a b : pyfloat) : pyfloat :=
  match a, b with
  | Fin x, Fin y => Fin (x * y)
  | _, _ => Nan
  end.

(** [a / 2] *)
Definition fhalf (a : pyfloat) : pyfloat :=
  match a with
  | Fin x => Fin (x / 2)
  | Nan => Nan
  end.

(** [max(a, 0)]: the builtin keeps its first argument unless the second
    is greater, so it keeps [nan]. *)
Definition fmax0 (a : pyfloat) : pyfloat :=
  match a with
  | Fin x => Fin (Qmax x 0)
  | Nan => Nan
  end.

Definition column_cells (df : DataFrame) (label : string) : list (option Z) :=
  map (λ row : gmap string Z, row !! label) df.(rows).

Definition occurrences (label : string) (labels : list string) : nat :=
  length (filter (λ c, c = label) labels).

(** [df[label]] *)
Definition getitem (df : DataFrame) (label : string) : Exn + Selection :=
  match occurrences label df.(columns) with
  | O => inl (KeyError label)
  | 1%nat => inr (Series (df.(dtype) label) (column_cells df label))
  | n => inr (SubFrame (length df.(rows)) n)
  end.

(** [len(df[label])]: the number of rows of the frame either way. *)
Definition len (sel : Selection) : nat :=
  match sel with
  | Series _ cells => length cells
  | SubFrame nrows _ => nrows
  end.

(** [Series.min()] and [Series.max()] skip the missing cells. When
    nothing is left they give [<NA>] on an [Int64] column and [nan] on a
    [float64] or [object] column; otherwise an [int64] or a float. On a
    sub-frame they give one value per column. *)
Definition reduce (op : Z -> Z -> Z) (sel : Selection) : Scalar :=
  match sel with
  | Series kind cells =>
      match omap id cells, kind with
      | [], Int64 => SNA
      | [], Float64 => SFloat Nan
      | z :: zs, Int64 => SInt (fold_left op zs z)
      | z :: zs, Float64 => SFloat (of_int (fold_left op zs z))
      end
  | SubFrame _ _ => SPerColumn
  end.

Definition sel_min : Selection -> Scalar := reduce Z.min.
Definition sel_max : Selection -> Scalar := reduce Z.max.

(** The float a value is, when it is one. *)
Definition to_float (v : Scalar) : option pyfloat :=
  match v with
  | SFloat x => Some x
  | _ => None
  end.

(** [a - b]: a per-column operand gives a per-column result, [<NA>]
    absorbs a number and [nan]; two [int64] give an [int64], wrapped
    around on overflow; a float and an [int64] give a float. *)
Definition py_sub (a b : Scalar) : Scalar :=
  match a, b with
  | SPerColumn, _ | _, SPerColumn => SPerColumn
  | SNA, _ | _, SNA => SNA
  | SInt x, SInt y => SInt (wrap64 (x - y))
  | SInt x, SFloat y => SFloat (fsub (of_int x) y)
  | SFloat x, SInt y => SFloat (fsub x (of_int y))
  | SFloat x, SFloat y => SFloat (fsub x y)
  end.

(** [a * 1e-9] *)
Definition times_1e_9 (a : Scalar) : Scalar :=
  match a with
  | SInt x => SFloat (fmul (of_int x) (Fin (1 # 1000000000)))
  | SFloat x => SFloat (fmul x (Fin (1 # 1000000000)))
  | other => other
  end.

(** [isinstance(v, (int, float))]: true of every float, [nan] included;
    a numpy [int64] is no [int], [<NA>] and a Series are neither. *)
Definition is_int_or_float (v : Scalar) : bool :=
  match v with
  | SFloat _ => true
  | _ => false
  end.

(** [df.columns[0]] and [df.columns[-1]] *)
Definition first_label (df : DataFrame) : Exn + string :=
  match head df.(columns) with
  | Some c => inr c
  | None => inl IndexError
  end.

Definition last_label (df : DataFrame) : Exn + string :=
  match last df.(columns) with
  | Some c => inr c
  | None => inl IndexError
  end.

(** Sequencing of code that may raise. *)
Definition try_bind {A B : Type} (m : Exn + A) (k : A -> Exn + B) : Exn + B :=
  match m with
  | inl e => inl e
  | inr a => k a
  end.

(** The body of the [try] block of [get_messageflow_durationtime]. *)
Definition duration_expr (df : DataFrame) (check_by_input : bool)
  : Exn + Scalar :=
  try_bind (first_label df) (λ input_column,
  try_bind (getitem df input_column) (λ input_series,
  let input_time_min := sel_min input_series in
  if check_by_input then
    let input_time_max := sel_max input_series in
    inr (times_1e_9 (py_sub input_time_max input_time_min))
  else
    try_bind (last_label df) (λ output_column,
    try_bind (getitem df output_column) (λ output_series,
    let output_time_max := sel_max output_series in
    inr (times_1e_9 (py_sub output_time_max input_time_min)))))).

(** [get_messageflow_durationtime]: [None] is Python's [None]. *)
Definition get_messageflow_durationtime (records : DataFrame)
    (check_by_input : bool) : option pyfloat :=
  let duration :=
    match duration_expr records check_by_input with
    | inl _ => None
    | inr v => Some v
    end in
  match duration with
  | Some v => if is_int_or_float v then to_float v else None
  | None => None
  end.

(** ** Effects *)

Inductive LogLevel : Type := DEBUG | INFO | WARNING.

(** A figure handed to [export_graph], as far as the script shapes it. *)
Inductive Figure : Type :=
  | MessageFlow (path : string) (lstrip_s rstrip_s : option pyfloat)
      (frame_height : nat)
  | Timeseries (path case xaxis_type : string)
  | Histogram (path case xaxis_type : string).

(** What the script does to the outer world, in order. *)
Inductive Event : Type :=
  | Log (level : LogLevel) (msg : string)
  | LogVars (level : LogLevel) (stats : Stats)
  | ToRecords (path : string) (include_first include_last : bool)
  | ExportGraph (fig : Figure) (dest_dir file_name title : string)
  | ToCsv (path case xaxis_type : string) (file : string)
  | SaveStackedBar (path case xaxis_type : string) (export_path : string)
  | MakeDestinationDir (dest_dir : string) (force : bool)
  | ShutilCopy (src dst : string)
  | Verify (path : string) (ret_verify : bool)
  | SafeDump (file : string) (stats_list : list Stats)
  | RoundYaml (file : string).

(** A computation: the events so far and either the exception that
    stopped it or its value. *)
Definition M (A : Type) : Type := (list Event * (Exn + A))%type.

#[global] Instance M_ret : MRet M := λ A a, ([], inr a).

#[global] Instance M_bind : MBind M := λ A B k m,
  match m with
  | (t, inl e) => (t, inl e)
  | (t, inr a) => let '(t', r) := k a in (t ++ t', r)
  end.

Definition emit (e : Event) : M unit := ([e], inr tt).
Definition raise {A : Type} (e : Exn) : M A := ([], inl e).
Definition lift {A : Type} (r : Exn + A) : M A := ([], r).
Definition trace {A : Type} (m : M A) : list Event := m.1.
Definition outcome {A : Type} (m : M A) : Exn + A := m.2.

(** [for x in xs: body(x)] *)
Fixpoint for_each {A : Type} (xs : list A) (body : A -> M unit) : M unit :=
  match xs with
  | [] => mret tt
  | x :: rest => body x ;; for_each rest body
  end.

(** [for x in xs: acc.append(body(x))] *)
Fixpoint for_collect {A B : Type} (xs : list A) (body : A -> M B)
  : M (list B) :=
  match xs with
  | [] => mret []
  | x :: rest => y ← body x; ys ← for_collect rest body; mret (y :: ys)
  end.

(** [check_the_first_last_callback_is_valid] *)
Definition check_the_first_last_callback_is_valid (records : DataFrame)
  : M (bool * bool) :=
  let df_records := records in
  let is_first_valid := true in
  let is_last_valid := true in
  c0 ← lift (first_label df_records);
  first ← lift (getitem df_records c0);
  is_first_valid ←
    (if (len first =? 0)%nat then
       emit (Log WARNING "  The first callback is invalid") ;; mret false
     else mret is_first_valid);
  c1 ← lift (last_label df_records);
  last ← lift (getitem df_records c1);
  is_last_valid ←
    (if (len last =? 0)%nat then
       emit (Log WARNING "  The last callback is invalid") ;; mret false
     else mret is_last_valid);
  mret (is_first_valid, is_last_valid).

(** ** The configuration file *)

(** An element of ["target_path_list"]; the two flags are optional keys. *)
Record TargetPath : Type := mkTargetPath {
  name : string;
  include_first_callback : option bool;
  include_last_callback : option bool
}.

(** The nested [modify_dictionary]: every key of the dictionary is
    visited, and the value of a key containing [target_string] is
    replaced. *)
Definition modify_dictionary (dictionary : gmap string (bool * bool))
    (target_string : string) (new_value : bool * bool)
  : gmap string (bool * bool) :=
  foldl (λ d key, if str_in target_string key then <[key := new_value]> d
                  else d)
    dictionary (elements (dom dictionary)).

(** [get_include_first_last_callback], on the decoded content of
    [args.target_path_json]. *)
Definition get_include_first_last_callback
    (target_path_list : list TargetPath) (arch_paths : list string)
  : gmap string (bool * bool) :=
  let include_first_last_callback :=
    foldl (λ d target_path_name, <[target_path_name := (true, true)]> d)
      (∅ : gmap string (bool * bool)) arch_paths in
  foldl (λ d target_path,
           let target_path_name := target_path.(name) in
           let include_first_callback :=
             default true target_path.(include_first_callback) in
           let include_last_callback :=
             default true target_path.(include_last_callback) in
           modify_dictionary d target_path_name
             (include_first_callback, include_last_callback))
    include_first_last_callback target_path_list.

(** ** The architecture, the application and the plots *)

(** What caret_analyze, bokeh and the file system answer during one run. *)
Record Env : Type := mkEnv {
  (** [target_path.path_name for target_path in arch.paths] *)
  arch_paths : list string;
  (** [arch.get_path(path_name).verify()] *)
  path_verify : string -> bool;
  (** [arch.get_path(path_name).node_names] *)
  path_node_names : string -> list string;
  (** [app.get_path(path_name).child_names] *)
  path_child_names : string -> list string;
  (** [to_records().to_dataframe()] of the path under the two inclusion
      flags *)
  path_to_records : string -> bool -> bool -> DataFrame;
  (** [.iloc[:, 1]] of the response-time time series of a path and case *)
  response_time : string -> string -> string -> list Q;
  (** [str(e)] when rendering and saving the stacked bar of a path and
      case raises [e] *)
  stacked_bar_error : string -> string -> string -> option string;
  (** [json.load(f_json)['target_path_list']] of a file *)
  json_load : string -> list TargetPath;
  (** [np.std] *)
  np_std : list Q -> Q
}.

(** The parsed command line. *)
Record Args : Type := mkArgs {
  target_path_json : string;
  architecture_file_path : string;
  message_flow : bool;
  sim_time : bool;
  force : bool;
  verbose : bool
}.

Section Run.

Variable env : Env.

(** [target_path.to_records()] with the flags set just before *)
Definition to_records (path : string) (include_first include_last : bool)
  : M DataFrame :=
  emit (ToRecords path include_first include_last) ;;
  mret (env.(path_to_records) path include_first include_last).

(** [export_graph(fig, dest_dir, file_name, title, with_png=False)] *)
Definition export_graph (fig : Figure) (dest_dir file_name title : string)
  : M unit :=
  emit (ExportGraph fig dest_dir file_name title).

(** [Plot.create_response_time_stacked_bar_plot(...).save(...)] inside its
    [try]: a failure leaves two warnings and nothing else. *)
Definition stacked_bar (dest_dir path case_str xaxis_type : string) : M unit :=
  match env.(stacked_bar_error) path case_str xaxis_type with
  | None =>
      emit (SaveStackedBar path case_str xaxis_type
              (dest_dir +:+ "/" +:+ path +:+ "_stacked_bar_" +:+ case_str
               +:+ ".html"))
  | Some str_e =>
      emit (Log WARNING ("    Failed to create stacked bar graph: " +:+ path
                         +:+ ", " +:+ case_str)) ;;
      emit (Log WARNING str_e)
  end.

(** The body of [for case_str in ['best', 'worst', 'all']]. *)
Definition response_time_case (dest_dir path xaxis_type case_str : string)
  : M unit :=
  emit (ToCsv path case_str xaxis_type
          (dest_dir +:+ "/" +:+ path +:+ "_response_time_" +:+ case_str
           +:+ ".csv")) ;;
  export_graph (Timeseries path case_str xaxis_type) dest_dir
    (path +:+ "_timeseries_" +:+ case_str) path ;;
  export_graph (Histogram path case_str xaxis_type) dest_dir
    (path +:+ "_hist_" +:+ case_str) path ;;
  stacked_bar dest_dir path case_str xaxis_type.

(** [include_first_last_callback[target_path_name]] *)
Definition dict_get (d : gmap string (bool * bool)) (key : string)
  : M (bool * bool) :=
  match d !! key with
  | Some v => mret v
  | None => raise (KeyError key)
  end.

(** [analyze_path] *)
Definition analyze_path (args : Args) (dest_dir path : string)
    (include_first_last_callback : gmap string (bool * bool))
    (xaxis_type : string) : M Stats :=
  emit (Log INFO ("Processing: " +:+ path)) ;;
  configured ← dict_get include_first_last_callback path;
  records ← to_records path configured.1 configured.2;
  valid ← check_the_first_last_callback_is_valid records;
  let '(is_first_valid, is_last_valid) := valid in
  records ←
    (if negb is_first_valid || negb is_last_valid then
       to_records path is_first_valid is_last_valid
     else mret records);
  let stats := Stats_init path (env.(path_node_names) path) in
  emit (Log INFO "  message flow") ;;
  match get_messageflow_durationtime records true with
  | None =>
      emit (Log WARNING
              ("    No-traffic and No-input in the path: " +:+ path)) ;;
      mret stats
  | Some duration =>
      let message_flow_height :=
        (18 * length (env.(path_child_names) path) + 50)%nat in
      export_graph
        (MessageFlow path (Some (fhalf duration))
           (Some (fmax0 (fsub (fhalf duration) (Fin (31 # 10)))))
           message_flow_height)
        dest_dir (path +:+ "_messageflow_short") path ;;
      (if args.(message_flow) then
         export_graph (MessageFlow path None None message_flow_height)
           dest_dir (path +:+ "_messageflow") path
       else mret tt) ;;
      emit (Log INFO "  response time") ;;
      stats ←
        match get_messageflow_durationtime records false with
        | None =>
            emit (Log WARNING ("    No-traffic in the path: " +:+ path)) ;;
            mret stats
        | Some _ =>
            for_each ["best"; "worst"; "all"]
              (response_time_case dest_dir path xaxis_type) ;;
            mret (calc_stats env.(np_std) stats
                    (env.(response_time) path "best" xaxis_type)
                    (env.(response_time) path "worst" xaxis_type))
        end;
      let stats := store_filename stats path args.(message_flow) in
      emit (Log INFO ("---" +:+ path +:+ "---")) ;;
      emit (LogVars DEBUG stats) ;;
      mret stats
  end.

Definition bool_str (b : bool) : string := if b then "True" else "False".

(** The body of the loop "Verify each path". *)
Definition verify_path (path : string) : M unit :=
  let ret_verify := env.(path_verify) path in
  emit (Verify path ret_verify) ;;
  emit (Log INFO ("path.verify " +:+ path +:+ ": " +:+ bool_str ret_verify)) ;;
  if negb ret_verify then raise (SystemExit (-1)) else mret tt.

(** [analyze] *)
Definition analyze (args : Args) (dest_dir : string) : M unit :=
  emit (Log INFO "<<< Analyze Paths: Start >>>") ;;
  let xaxis_type := if args.(sim_time) then "sim_time" else "system_time" in
  emit (MakeDestinationDir dest_dir args.(force)) ;;
  emit (ShutilCopy args.(architecture_file_path) dest_dir) ;;
  let include_first_last_callback :=
    get_include_first_last_callback
      (env.(json_load) args.(target_path_json)) env.(arch_paths) in
  for_each env.(arch_paths) verify_path ;;
  stats_list ←
    for_collect env.(arch_paths)
      (λ target_path_name,
         analyze_path args dest_dir target_path_name
           include_first_last_callback xaxis_type);
  let stat_file_path := dest_dir +:+ "/stats_path.yaml" in
  emit (SafeDump stat_file_path stats_list) ;;
  emit (RoundYaml stat_file_path) ;;
  emit (Log INFO "<<< Analyze Paths: Finish >>>").

End Run.

(** ** Vocabulary of the properties *)

(** The interpolation step of [Np.quantile] at a virtual index. *)
Definition interpolate (s : list Q) (v : Q) : Q :=
  let i := Z.to_nat (Qfloor v) in
  let j := Nat.min (i + 1) (length s - 1) in
  (nth i s 0 + (nth j s 0 - nth i s 0) * (v - inject_Z (Qfloor v)))%Q.

(** A percentile by linear interpolation between ranks, in samples [s]
    put in order: the rank of [q] among [n] samples is [(n - 1) * q], and
    the percentile lies between the sample just below that rank and the
    next, in proportion to what the rank has beyond the one below. *)
Definition percentile (s : list Q) (q : Q) : Q :=
  let rank := (inject_Z (Z.of_nat (length s - 1)) * q)%Q in
  let below := Z.to_nat (Qfloor rank) in
  let beyond := (rank - inject_Z (Qfloor rank))%Q in
  (nth below s 0 + (nth (below + 1) s 0 - nth below s 0) * beyond)%Q.

(** [stored] is [exact] rounded to three decimals: a multiple of 0.001 at
    most 0.0005 away. *)
Definition rounds_to (exact stored : Q) : Prop :=
  (exists k : Z, stored == inject_Z k / 1000)%Q
  /\ (stored - exact <= 1 # 2000)%Q /\ (exact - stored <= 1 # 2000)%Q.

(** Five stored fields summarise [sample]: they are numbers, each the
    rounding of what it is named after in the samples put in order (the
    least, the three percentiles, the greatest), and they are in order. *)
Definition stored_percentiles (sample : list Q)
    (vmin p50 p95 p99 vmax : pyval) : Prop :=
  exists (s : list Q) (a b c d e : Q),
    Permutation sample s /\ StronglySorted Qle s
    /\ vmin = PyFloat a /\ p50 = PyFloat b /\ p95 = PyFloat c
    /\ p99 = PyFloat d /\ vmax = PyFloat e
    /\ rounds_to (nth 0 s 0%Q) a
    /\ rounds_to (percentile s (1 # 2)) b
    /\ rounds_to (percentile s (95 # 100)) c
    /\ rounds_to (percentile s (99 # 100)) d
    /\ rounds_to (nth (length s - 1) s 0%Q) e
    /\ (a <= b /\ b <= c /\ c <= d /\ d <= e)%Q.

Definition best_spread : list (Stats -> pyval) :=
  [best_std; best_min; best_max; best_p50; best_p95; best_p99].

Definition worst_spread : list (Stats -> pyval) :=
  [worst_std; worst_min; worst_max; worst_p50; worst_p95; worst_p99].

Definition statistics_fields : list (Stats -> pyval) :=
  best_avg :: best_spread ++ worst_avg :: worst_spread.

Definition filename_fields : list (Stats -> string) :=
  [filename_messageflow; filename_messageflow_short; filename_hist_total;
   filename_hist_best; filename_timeseries_best; filename_stacked_bar_best;
   filename_hist_worst; filename_timeseries_worst;
   filename_stacked_bar_worst].

(** The warnings of the boundary check and its pair of flags, spelled
    out. *)
Definition boundary_warnings (df : DataFrame) : list Event :=
  if (length df.(rows) =? 0)%nat then
    [Log WARNING "  The first callback is invalid";
     Log WARNING "  The last callback is invalid"]
  else [].

Definition has_rows (df : DataFrame) : bool :=
  negb (length df.(rows) =? 0)%nat.

(** The override of one entry, and the pair a path name ends with after
    the entries were applied in file order. *)
Definition override (e : TargetPath) : bool * bool :=
  (default true e.(include_first_callback),
   default true e.(include_last_callback)).

Definition resolve (entries : list TargetPath) (path : string)
    (start : bool * bool) : bool * bool :=
  foldl (λ pair e, if str_in e.(name) path then override e else pair)
    start entries.

(** [key] contains [target] as a substring. *)
Definition contains (target key : string) : Prop :=
  exists pre post, key = pre +:+ target +:+ post.

Definition is_to_records (e : Event) : bool :=
  match e with
  | ToRecords _ _ _ => true
  | _ => false
  end.

(** A small environment. The table of the path "silent" has its columns
    and no rows whatever the flags; the table of any other path has no
    rows while the first callback is included, and two rows once it is
    left out. *)
Definition sample_env (paths : list string) (verified : string -> bool)
    (stacked_bar_fails : string -> option string) : Env :=
  {| arch_paths := paths;
     path_verify := verified;
     path_node_names := λ _, ["/sensor"; "/filter"];
     path_child_names := λ _, ["callback_0"; "callback_1"];
     path_to_records := λ path include_first _,
       if String.eqb path "silent" then mkDataFrame ["start"; "end"] []
       else if include_first then mkDataFrame ["start"; "end"] []
       else mkDataFrame ["start"; "end"]
              [{["start" := 5%Z; "end" := 9%Z]}; {["start" := 7%Z]}];
     response_time := λ _ _ _, [3%Q; 1%Q; 2%Q];
     stacked_bar_error := λ _ case_str _, stacked_bar_fails case_str;
     json_load := λ _, [];
     np_std := λ _, 0%Q |}.

Definition sample_args : Args :=
  {| target_path_json := "target_path.json";
     architecture_file_path := "architecture_path.yaml";
     message_flow := false;
     sim_time := false;
     force := false;
     verbose := false |}.

(** An application with one declared path that never carried traffic:
    its tables have their two columns, of the given dtype, and no row, and
    its response times have no sample. *)
Definition untraced_env (kind : Dtype) : Env :=
  {| arch_paths := ["p"];
     path_verify := λ _, true;
     path_node_names := λ _, ["/sensor"; "/filter"];
     path_child_names := λ _, ["callback_0"; "callback_1"];
     path_to_records := λ _ _ _, Frame ["start"; "end"] [] (λ _, kind);
     response_time := λ _ _ _, [];
     stacked_bar_error := λ _ _ _, None;
     json_load := λ _, [];
     np_std := λ _, 0%Q |}.

(** Events of one path's analysis, and events that analyse or report. *)
Definition is_path_event (e : Event) : bool :=
  match e with
  | Log _ _ | LogVars _ _ | ToRecords _ _ _ | ExportGraph _ _ _ _
  | ToCsv _ _ _ _ | SaveStackedBar _ _ _ _ => true
  | _ => false
  end.

Definition is_analysis_or_report (e : Event) : bool :=
  match e with
  | LogVars _ _ | ToRecords _ _ _ | ExportGraph _ _ _ _ | ToCsv _ _ _ _
  | SaveStackedBar _ _ _ _ | SafeDump _ _ | RoundYaml _ => true
  | _ => false
  end.

(** What the loop "Verify each path" leaves in the trace: it stops after
    the first path that does not verify. *)
Fixpoint verify_events (env : Env) (paths : list string) : list Event :=
  match paths with
  | [] => []
  | p :: rest =>
      Verify p (env.(path_verify) p)
      :: Log INFO ("path.verify " +:+ p +:+ ": "
                   +:+ bool_str (env.(path_verify) p))
      :: (if env.(path_verify) p then verify_events env rest else [])
  end.

(** The same environment with another answer for the stacked bars. *)
Definition with_stacked_bar_error (env : Env)
    (answer : string -> string -> string -> option string) : Env :=
  {| arch_paths := env.(arch_paths);
     path_verify := env.(path_verify);
     path_node_names := env.(path_node_names);
     path_child_names := env.(path_child_names);
     path_to_records := env.(path_to_records);
     response_time := env.(response_time);
     stacked_bar_error := answer;
     json_load := env.(json_load);
     np_std := env.(np_std) |}.

(** [bar_replaced t t']: the trace [t] is the trace [t'] with some saved
    stacked bars replaced, in place, by the two warnings of a failure. *)
Inductive bar_replaced : list Event -> list Event -> Prop :=
  | bar_replaced_nil : bar_replaced [] []
  | bar_replaced_same (e : Event) (t t' : list Event) :
      bar_replaced t t' -> bar_replaced (e :: t) (e :: t')
  | bar_replaced_failed (path case_str xaxis_type export_path : string)
      (msg str_e : string) (t t' : list Event) :
      bar_replaced t t' ->
      bar_replaced (Log WARNING msg :: Log WARNING str_e :: t)
        (SaveStackedBar path case_str xaxis_type export_path :: t').

(** Symbolic evaluation of [analyze_path], and case analysis on what
    decides its branches. *)
Ltac run :=
  cbn -[check_the_first_last_callback_is_valid get_messageflow_durationtime
        calc_stats store_filename Stats_init String.append Nat.mul].

Ltac branch_on_duration :=
  repeat match goal with
         | |- context [get_messageflow_durationtime ?r ?b] =>
             destruct (get_messageflow_durationtime r b); run
         end.

Ltac relate_traces :=
  repeat first [ apply bar_replaced_nil
               | apply bar_replaced_same
               | apply bar_replaced_failed ].

Ltac branch_on_stacked_bar :=
  repeat match goal with
         | |- context [stacked_bar_error ?env ?p ?c ?x] =>
             destruct (stacked_bar_error env p c x); run
         end.

(** ** Vocabulary of further properties *)

(** The timestamps of a column, [<NA>] left out. *)
Definition present (cells : list (option Z)) : list Z := omap id cells.

(** A column without a timestamp, and the least and the greatest
    timestamp of a column. *)
Definition no_timestamp (cells : list (option Z)) : Prop :=
  forall t, Some t ∉ cells.

Definition least (cells : list (option Z)) (lo : Z) : Prop :=
  Some lo ∈ cells /\ forall t, Some t ∈ cells -> (lo <= t)%Z.

Definition greatest (cells : list (option Z)) (hi : Z) : Prop :=
  Some hi ∈ cells /\ forall t, Some t ∈ cells -> (t <= hi)%Z.

(** The records [analyze_path] works on after the boundary check: the
    first extraction when it has rows, the extraction without the two
    boundary callbacks otherwise. *)
Definition settled_records (env : Env) (path : string) (cf cl : bool)
  : DataFrame :=
  if has_rows (env.(path_to_records) path cf cl)
  then env.(path_to_records) path cf cl
  else env.(path_to_records) path false false.

(** What one latency case leaves in the trace. *)
Definition case_events (env : Env) (dest_dir path xaxis_type case_str : string)
  : list Event :=
  [ToCsv path case_str xaxis_type
     (dest_dir +:+ "/" +:+ path +:+ "_response_time_" +:+ case_str
      +:+ ".csv");
   ExportGraph (Timeseries path case_str xaxis_type) dest_dir
     (path +:+ "_timeseries_" +:+ case_str) path;
   ExportGraph (Histogram path case_str xaxis_type) dest_dir
     (path +:+ "_hist_" +:+ case_str) path]
  ++ match env.(stacked_bar_error) path case_str xaxis_type with
     | None =>
         [SaveStackedBar path case_str xaxis_type
            (dest_dir +:+ "/" +:+ path +:+ "_stacked_bar_" +:+ case_str
             +:+ ".html")]
     | Some str_e =>
         [Log WARNING ("    Failed to create stacked bar graph: "
                       +:+ path +:+ ", " +:+ case_str);
          Log WARNING str_e]
     end.

(** The record [analyze_path] returns for the records it settled on. *)
Definition reported_stats (env : Env) (args : Args) (path xaxis_type : string)
    (records : DataFrame) : Stats :=
  let fresh := Stats_init path (env.(path_node_names) path) in
  match get_messageflow_durationtime records true with
  | None => fresh
  | Some _ =>
      store_filename
        (match get_messageflow_durationtime records false with
         | None => fresh
         | Some _ =>
             calc_stats env.(np_std) fresh
               (env.(response_time) path "best" xaxis_type)
               (env.(response_time) path "worst" xaxis_type)
         end)
        path args.(message_flow)
  end.

(** The events of [analyze_path] from "message flow" on. *)
Definition analysis_events (env : Env) (args : Args)
    (dest_dir path xaxis_type : string) (records : DataFrame) : list Event :=
  Log INFO "  message flow"
  :: match get_messageflow_durationtime records true with
     | None =>
         [Log WARNING ("    No-traffic and No-input in the path: " +:+ path)]
     | Some duration =>
         let height := (18 * length (env.(path_child_names) path) + 50)%nat in
         ExportGraph
           (MessageFlow path (Some (fhalf duration))
              (Some (fmax0 (fsub (fhalf duration) (Fin (31 # 10))))) height)
           dest_dir (path +:+ "_messageflow_short") path
         :: (if args.(message_flow) then
               [ExportGraph (MessageFlow path None None height) dest_dir
                  (path +:+ "_messageflow") path]
             else [])
         ++ Log INFO "  response time"
         :: match get_messageflow_durationtime records false with
            | None => [Log WARNING ("    No-traffic in the path: " +:+ path)]
            | Some _ =>
                flat_map (case_events env dest_dir path xaxis_type)
                  ["best"; "worst"; "all"]
            end
         ++ [Log INFO ("---" +:+ path +:+ "---");
             LogVars DEBUG (reported_stats env args path xaxis_type records)]
     end.

(** CSV files and plots of the response time. *)
Definition is_response_time_artifact (e : Event) : bool :=
  match e with
  | ToCsv _ _ _ _ | SaveStackedBar _ _ _ _
  | ExportGraph (Timeseries _ _ _) _ _ _
  | ExportGraph (Histogram _ _ _) _ _ _ => true
  | _ => false
  end.

(** [e] writes nothing outside the directory [dest_dir]. *)
Definition writes_under (dest_dir : string) (e : Event) : Prop :=
  match e with
  | ExportGraph _ dir _ _ | MakeDestinationDir dir _ | ShutilCopy _ dir =>
      dir = dest_dir
  | ToCsv _ _ _ file | SaveStackedBar _ _ _ file | SafeDump file _
  | RoundYaml file =>
      exists name, file = dest_dir +:+ "/" +:+ name
  | _ => True
  end.

(** Every event of a spelled-out trace writes under the directory. *)
Ltac all_under :=
  repeat (apply List.Forall_cons;
          [first [exact I | reflexivity | eexists; reflexivity]|]);
  apply List.Forall_nil.

(** * Properties *)

(** ** Rounding *)

Lemma round_half_even_comp (x y : Q) :
  (x == y)%Q -> Np.round_half_even x = Np.round_half_even y.
Proof.
  intros H. unfold Np.round_half_even.
  rewrite (Qfloor_comp _ _ H).
  assert (Hc : ((x - inject_Z (Qfloor y)) ?= (1 # 2))%Q
               = ((y - inject_Z (Qfloor y)) ?= (1 # 2))%Q).
  { apply Qcompare_comp; [rewrite H|]; reflexivity. }
  rewrite Hc. reflexivity.
Qed.

Lemma round_half_even_near (x : Q) :
  (inject_Z (Np.round_half_even x) - (1 # 2) <= x
   /\ x <= inject_Z (Np.round_half_even x) + (1 # 2))%Q.
Proof.
  unfold Np.round_half_even.
  pose proof (Qfloor_le x) as Hlo.
  pose proof (Qlt_floor x) as Hhi.
  rewrite inject_Z_plus in Hhi. change (inject_Z 1) with 1%Q in Hhi.
  destruct (Qcompare_spec (x - inject_Z (Qfloor x)) (1 # 2)) as [He|Hl|Hg].
  - destruct (Z.even (Qfloor x)).
    + split; lra.
    + rewrite inject_Z_plus. change (inject_Z 1) with 1%Q. split; lra.
  - split; lra.
  - rewrite inject_Z_plus. change (inject_Z 1) with 1%Q. split; lra.
Qed.

Lemma round_half_even_mono (x y : Q) :
  (x <= y)%Q -> (Np.round_half_even x <= Np.round_half_even y)%Z.
Proof.
  intros Hxy.
  destruct (Z_le_gt_dec (Np.round_half_even x) (Np.round_half_even y))
    as [|Hgt]; [assumption|exfalso].
  destruct (round_half_even_near x) as [Hx _].
  destruct (round_half_even_near y) as [_ Hy].
  assert (Hz : (inject_Z (Np.round_half_even y) + 1
                <= inject_Z (Np.round_half_even x))%Q).
  { change 1%Q with (inject_Z 1). rewrite <- inject_Z_plus.
    rewrite <- Zle_Qle. lia. }
  assert (Heq : (x == y)%Q) by (apply Qle_antisym; lra).
  apply round_half_even_comp in Heq. lia.
Qed.


Lemma round3_mono (x y : Q) : (x <= y)%Q -> (Np.round3 x <= Np.round3 y)%Q.
Proof.
  intros H. unfold Np.round3.
  assert (Hm : (Np.round_half_even (x * 1000)
                <= Np.round_half_even (y * 1000))%Z).
  { apply round_half_even_mono. lra. }
  rewrite Zle_Qle in Hm.
  apply Qmult_le_compat_r; [assumption|]. discriminate.
Qed.

(** ** Order statistics *)

Lemma insert_sorted_length (x : Q) (l : list Q) :
  length (Np.insert_sorted x l) = S (length l).
Proof.
  induction l as [|y r IH]; simpl; [reflexivity|].
  destruct (Qle_bool x y); simpl; [reflexivity|]. now rewrite IH.
Qed.

Lemma insert_sorted_In (x y : Q) (l : list Q) :
  In y (Np.insert_sorted x l) <-> y = x \/ In y l.
Proof.
  induction l as [|z r IH]; simpl; [intuition|].
  destruct (Qle_bool x z); simpl; [intuition|].
  rewrite IH. intuition.
Qed.

Lemma insert_sorted_sorted (x : Q) (l : list Q) :
  StronglySorted Qle l -> StronglySorted Qle (Np.insert_sorted x l).
Proof.
  induction 1 as [|z r Hs IH Hall]; simpl.
  - constructor; constructor.
  - destruct (Qle_bool x z) eqn:Hxz.
    + apply Qle_bool_iff in Hxz.
      constructor; [constructor; assumption|].
      constructor; [assumption|].
      rewrite List.Forall_forall in Hall |- *. intros w Hw.
      apply Qle_trans with z; auto.
    + assert (Hzx : (z <= x)%Q).
      { destruct (Qlt_le_dec z x) as [Hlt|Hle]; [apply Qlt_le_weak, Hlt|].
        apply Qle_bool_iff in Hle. congruence. }
      constructor; [assumption|].
      rewrite List.Forall_forall in Hall |- *. intros w Hw.
      apply insert_sorted_In in Hw as [->|Hw]; auto.
Qed.

Lemma sort_length (l : list Q) : length (Np.sort l) = length l.
Proof.
  induction l as [|x r IH]; simpl; [reflexivity|].
  unfold Np.sort in *. now rewrite insert_sorted_length, IH.
Qed.

Lemma sort_In (y : Q) (l : list Q) : In y (Np.sort l) <-> In y l.
Proof.
  induction l as [|x r IH]; simpl; [reflexivity|].
  unfold Np.sort in *. rewrite insert_sorted_In, IH. intuition.
Qed.

Lemma sort_sorted (l : list Q) : StronglySorted Qle (Np.sort l).
Proof.
  induction l as [|x r IH]; simpl; [constructor|].
  now apply insert_sorted_sorted.
Qed.

Lemma sorted_nth_le (s : list Q) (i j : nat) :
  StronglySorted Qle s -> (i <= j)%nat -> (j < length s)%nat ->
  (nth i s 0 <= nth j s 0)%Q.
Proof.
  intros Hs. revert i j.
  induction Hs as [|z r Hs IH Hall]; intros i j Hij Hj; simpl in *; [lia|].
  destruct i as [|i], j as [|j]; try lia.
  - apply Qle_refl.
  - rewrite List.Forall_forall in Hall. apply Hall, nth_In. lia.
  - apply IH; lia.
Qed.

Lemma fold_left_Qmin_le (r : list Q) (a : Q) :
  (fold_left Qmin r a <= a)%Q
  /\ forall y, In y r -> (fold_left Qmin r a <= y)%Q.
Proof.
  revert a. induction r as [|z r IH]; intros a; simpl.
  - split; [apply Qle_refl|tauto].
  - destruct (IH (Qmin a z)) as [H1 H2]. split.
    + eapply Qle_trans; [exact H1|apply Q.le_min_l].
    + intros y [<-|Hy]; [|auto].
      eapply Qle_trans; [exact H1|apply Q.le_min_r].
Qed.

Lemma fold_left_Qmax_ge (r : list Q) (a : Q) :
  (a <= fold_left Qmax r a)%Q
  /\ forall y, In y r -> (y <= fold_left Qmax r a)%Q.
Proof.
  revert a. induction r as [|z r IH]; intros a; simpl.
  - split; [apply Qle_refl|tauto].
  - destruct (IH (Qmax a z)) as [H1 H2]. split.
    + eapply Qle_trans; [apply Q.le_max_l|exact H1].
    + intros y [<-|Hy]; [|auto].
      eapply Qle_trans; [apply Q.le_max_r|exact H1].
Qed.

Lemma np_min_le (l : list Q) (y : Q) : In y l -> (Np.min l <= y)%Q.
Proof.
  destruct l as [|x r]; simpl; [tauto|].
  destruct (fold_left_Qmin_le r x) as [H1 H2].
  intros [<-|Hy]; auto.
Qed.

Lemma np_max_ge (l : list Q) (y : Q) : In y l -> (y <= Np.max l)%Q.
Proof.
  destruct l as [|x r]; simpl; [tauto|].
  destruct (fold_left_Qmax_ge r x) as [H1 H2].
  intros [<-|Hy]; auto.
Qed.

Lemma quantile_interpolate (l : list Q) (q : Q) :
  Np.quantile l q
  = interpolate (Np.sort l)
      (inject_Z (Z.of_nat (length (Np.sort l) - 1)) * q).
Proof. reflexivity. Qed.

Lemma floor_index (n : nat) (v : Q) :
  (0 <= v)%Q -> (v <= inject_Z (Z.of_nat (n - 1)))%Q ->
  (0 <= Qfloor v <= Z.of_nat (n - 1))%Z.
Proof.
  intros H0 H1. split.
  - change 0%Z with (Qfloor 0). now apply Qfloor_resp_le.
  - rewrite <- (Qfloor_Z (Z.of_nat (n - 1))). now apply Qfloor_resp_le.
Qed.

Lemma fraction_range (v : Q) :
  (0 <= v - inject_Z (Qfloor v) /\ v - inject_Z (Qfloor v) <= 1)%Q.
Proof.
  pose proof (Qfloor_le v) as Hlo.
  pose proof (Qlt_floor v) as Hhi.
  rewrite inject_Z_plus in Hhi. change (inject_Z 1) with 1%Q in Hhi.
  split; lra.
Qed.

Lemma interpolate_between (s : list Q) (v : Q) :
  StronglySorted Qle s -> (1 <= length s)%nat ->
  (0 <= v)%Q -> (v <= inject_Z (Z.of_nat (length s - 1)))%Q ->
  let i := Z.to_nat (Qfloor v) in
  let j := Nat.min (i + 1) (length s - 1) in
  (nth i s 0 <= interpolate s v /\ interpolate s v <= nth j s 0)%Q.
Proof.
  intros Hs Hn H0 H1 i j.
  destruct (floor_index (length s) v H0 H1) as [Hf0 Hf1].
  destruct (fraction_range v) as [Hg0 Hg1].
  assert (Hab : (nth i s 0 <= nth j s 0)%Q).
  { apply sorted_nth_le; [assumption|unfold j; lia|unfold j; lia]. }
  unfold interpolate. fold i. fold j.
  set (a := nth i s 0%Q) in *. set (b := nth j s 0%Q) in *.
  set (g := (v - inject_Z (Qfloor v))%Q) in *.
  split; nra.
Qed.

Lemma interpolate_mono (s : list Q) (v w : Q) :
  StronglySorted Qle s -> (1 <= length s)%nat ->
  (0 <= v)%Q -> (v <= w)%Q -> (w <= inject_Z (Z.of_nat (length s - 1)))%Q ->
  (interpolate s v <= interpolate s w)%Q.
Proof.
  intros Hs Hn H0 Hvw H1.
  assert (Hv1 : (v <= inject_Z (Z.of_nat (length s - 1)))%Q) by lra.
  assert (Hw0 : (0 <= w)%Q) by lra.
  destruct (floor_index (length s) v H0 Hv1) as [Hfv0 Hfv1].
  destruct (floor_index (length s) w Hw0 H1) as [Hfw0 Hfw1].
  pose proof (Qfloor_resp_le _ _ Hvw) as Hfl.
  destruct (Z.eq_dec (Qfloor v) (Qfloor w)) as [Heq|Hne].
  - unfold interpolate. rewrite Heq.
    set (i := Z.to_nat (Qfloor w)).
    set (j := Nat.min (i + 1) (length s - 1)).
    assert (Hab : (nth i s 0 <= nth j s 0)%Q).
    { apply sorted_nth_le; [assumption|unfold j; lia|unfold j, i; lia]. }
    set (a := nth i s 0%Q) in *. set (b := nth j s 0%Q) in *.
    set (f := inject_Z (Qfloor w)).
    nra.
  - destruct (interpolate_between s v Hs Hn H0 Hv1) as [_ Hup].
    destruct (interpolate_between s w Hs Hn Hw0 H1) as [Hlo _].
    eapply Qle_trans; [exact Hup|].
    eapply Qle_trans; [|exact Hlo].
    apply sorted_nth_le; [assumption|lia|lia].
Qed.

Lemma quantile_mono (l : list Q) (p q : Q) :
  (1 <= length l)%nat -> (0 <= p)%Q -> (p <= q)%Q -> (q <= 1)%Q ->
  (Np.quantile l p <= Np.quantile l q)%Q.
Proof.
  intros Hn Hp Hpq Hq. rewrite !quantile_interpolate.
  pose proof (sort_length l) as Hlen.
  set (m := inject_Z (Z.of_nat (length (Np.sort l) - 1))).
  assert (Hm : (0 <= m)%Q).
  { unfold m. change 0%Q with (inject_Z 0). rewrite <- Zle_Qle. lia. }
  apply interpolate_mono; [apply sort_sorted|lia|nra|nra|fold m; nra].
Qed.

Lemma quantile_bounds (l : list Q) (q : Q) :
  (1 <= length l)%nat -> (0 <= q)%Q -> (q <= 1)%Q ->
  (Np.min l <= Np.quantile l q /\ Np.quantile l q <= Np.max l)%Q.
Proof.
  intros Hn Hq0 Hq1. rewrite quantile_interpolate.
  pose proof (sort_length l) as Hlen.
  set (s := Np.sort l) in *.
  set (m := inject_Z (Z.of_nat (length s - 1))).
  assert (Hm : (0 <= m)%Q).
  { unfold m. change 0%Q with (inject_Z 0). rewrite <- Zle_Qle. lia. }
  assert (Hv0 : (0 <= m * q)%Q) by nra.
  assert (Hv1 : (m * q <= m)%Q) by nra.
  destruct (floor_index (length s) (m * q) Hv0 Hv1) as [Hf0 Hf1].
  destruct (interpolate_between s (m * q) (sort_sorted l) ltac:(lia) Hv0 Hv1)
    as [Hlo Hup].
  split.
  - eapply Qle_trans; [|exact Hlo].
    apply np_min_le, sort_In. apply nth_In. fold s. lia.
  - eapply Qle_trans; [exact Hup|].
    apply np_max_ge, sort_In. apply nth_In. fold s. lia.
Qed.

(** ** The statistics record *)


Lemma average_is_number (l : list Q) :
  is_number (py_round3 (Np.average l)) = true.
Proof. destruct l; reflexivity. Qed.

Section CalcStats.

Variable np_std : list Q -> Q.
Variables (self : Stats) (df_best df_worst : list Q).

Local Abbreviation after := (calc_stats np_std self df_best df_worst).

Lemma calc_stats_best_avg :
  best_avg after = py_round3 (Np.average df_best).
Proof.
  unfold calc_stats.
  destruct (1 <? length df_best)%nat, (1 <? length df_worst)%nat;
    reflexivity.
Qed.

Lemma calc_stats_worst_avg :
  worst_avg after = py_round3 (Np.average df_worst).
Proof.
  unfold calc_stats.
  destruct (1 <? length df_best)%nat, (1 <? length df_worst)%nat;
    reflexivity.
Qed.

Lemma calc_stats_best_short :
  (length df_best <= 1)%nat ->
  Forall (λ field, field after = field self) best_spread.
Proof.
  intros H. unfold calc_stats.
  replace (1 <? length df_best)%nat with false
    by (symmetry; apply Nat.ltb_ge; lia).
  destruct (1 <? length df_worst)%nat; repeat constructor.
Qed.

Lemma calc_stats_worst_short :
  (length df_worst <= 1)%nat ->
  Forall (λ field, field after = field self) worst_spread.
Proof.
  intros H. unfold calc_stats.
  replace (1 <? length df_worst)%nat with false
    by (symmetry; apply Nat.ltb_ge; lia).
  destruct (1 <? length df_best)%nat; repeat constructor.
Qed.

Lemma calc_stats_best_long :
  (1 < length df_best)%nat ->
  best_std after = rounded (np_std df_best)
  /\ best_min after = rounded (Np.min df_best)
  /\ best_max after = rounded (Np.max df_best)
  /\ best_p50 after = rounded (Np.quantile df_best (1 # 2))
  /\ best_p95 after = rounded (Np.quantile df_best (95 # 100))
  /\ best_p99 after = rounded (Np.quantile df_best (99 # 100)).
Proof.
  intros H. unfold calc_stats.
  replace (1 <? length df_best)%nat with true
    by (symmetry; apply Nat.ltb_lt; lia).
  destruct (1 <? length df_worst)%nat; repeat split.
Qed.

Lemma calc_stats_worst_long :
  (1 < length df_worst)%nat ->
  worst_std after = rounded (np_std df_worst)
  /\ worst_min after = rounded (Np.min df_worst)
  /\ worst_max after = rounded (Np.max df_worst)
  /\ worst_p50 after = rounded (Np.quantile df_worst (1 # 2))
  /\ worst_p95 after = rounded (Np.quantile df_worst (95 # 100))
  /\ worst_p99 after = rounded (Np.quantile df_worst (99 # 100)).
Proof.
  intros H. unfold calc_stats.
  replace (1 <? length df_worst)%nat with true
    by (symmetry; apply Nat.ltb_lt; lia).
  destruct (1 <? length df_best)%nat; repeat split.
Qed.

Lemma calc_stats_frame :
  target_path_name after = target_path_name self
  /\ node_names after = node_names self
  /\ Forall (λ field, field after = field self) filename_fields.
Proof.
  unfold calc_stats.
  destruct (1 <? length df_best)%nat, (1 <? length df_worst)%nat;
    repeat split; repeat constructor.
Qed.

Lemma calc_stats_writes_numbers :
  Forall (λ field, field after = field self \/ is_number (field after) = true)
    statistics_fields.
Proof.
  unfold statistics_fields.
  constructor; [right; rewrite calc_stats_best_avg; apply average_is_number|].
  apply Forall_app. split; [|constructor].
  - destruct (le_lt_dec (length df_best) 1) as [Hs|Hl].
    + eapply List.Forall_impl; [|apply calc_stats_best_short, Hs].
      intros field Hf. now left.
    + destruct (calc_stats_best_long Hl) as (H1 & H2 & H3 & H4 & H5 & H6).
      repeat (apply List.Forall_cons;
              [right; rewrite ?H1, ?H2, ?H3, ?H4, ?H5, ?H6; reflexivity|]).
      apply List.Forall_nil.
  - right. rewrite calc_stats_worst_avg. apply average_is_number.
  - destruct (le_lt_dec (length df_worst) 1) as [Hs|Hl].
    + eapply List.Forall_impl; [|apply calc_stats_worst_short, Hs].
      intros field Hf. now left.
    + destruct (calc_stats_worst_long Hl) as (H1 & H2 & H3 & H4 & H5 & H6).
      repeat (apply List.Forall_cons;
              [right; rewrite ?H1, ?H2, ?H3, ?H4, ?H5, ?H6; reflexivity|]).
      apply List.Forall_nil.
Qed.

End CalcStats.



(** C10. [calc_stats] assigns only among the fourteen statistics fields:
    the path name, the node names and the nine file-name fields are as
    before; for a sequence of at most one sample the six spread fields of
    that case are as before; and whatever it assigns is a float, never the
    string ['---']. *)
Theorem calc_stats_frame_effect
    (np_std : list Q -> Q) (self : Stats) (df_best df_worst : list Q) :
  let after := calc_stats np_std self df_best df_worst in
  target_path_name after = target_path_name self
  /\ node_names after = node_names self
  /\ Forall (λ field, field after = field self) filename_fields
  /\ ((length df_best <= 1)%nat ->
        Forall (λ field, field after = field self) best_spread)
  /\ ((length df_worst <= 1)%nat ->
        Forall (λ field, field after = field self) worst_spread)
  /\ Forall (λ field, field after = field self
                      \/ (is_number (field after) = true
                          /\ field after <> placeholder))
       statistics_fields.
Proof.
  intros after. unfold after.
  destruct (calc_stats_frame np_std self df_best df_worst)
    as (Hn & Hnodes & Hfiles).
  repeat apply conj; try assumption.
  - apply calc_stats_best_short.
  - apply calc_stats_worst_short.
  - eapply List.Forall_impl; [|apply calc_stats_writes_numbers].
    intros field Hf. cbv beta zeta in Hf |- *.
    destruct Hf as [Hkeep|Hnum]; [left; exact Hkeep|right].
    split; [exact Hnum|]. intros Heq. rewrite Heq in Hnum. discriminate.
Qed.

Lemma calc_stats_frame_effect_witness :
  Forall (λ field, field (calc_stats (λ _, 0%Q) (Stats_init "p" ["n"])
                            [2%Q] [])
                   = field (Stats_init "p" ["n"])) best_spread
  /\ Forall (λ field, field (calc_stats (λ _, 0%Q) (Stats_init "p" ["n"])
                               [2%Q] [])
                      = field (Stats_init "p" ["n"])) worst_spread.
Proof.
  destruct (calc_stats_frame_effect (λ _, 0%Q) (Stats_init "p" ["n"])
              [2%Q] []) as (_ & _ & _ & Hb & Hw & _).
  split; [apply Hb|apply Hw]; simpl; lia.
Defined.

(** ** Percentiles *)

Lemma round3_near (x : Q) :
  (Np.round3 x - x <= 1 # 2000 /\ x - Np.round3 x <= 1 # 2000)%Q.
Proof.
  destruct (round_half_even_near (x * 1000)) as [H1 H2].
  unfold Np.round3. set (n := inject_Z (Np.round_half_even (x * 1000))) in *.
  assert (Hn : (n / 1000 == n * (1 # 1000))%Q) by field.
  rewrite Hn. split; lra.
Qed.

Lemma np_min_In (l : list Q) : l <> [] -> In (Np.min l) l.
Proof.
  destruct l as [|x r]; [congruence|]. intros _. simpl.
  revert x. induction r as [|y r IH]; intros x; simpl; [now left|].
  destruct (IH (Qmin x y)) as [H|H]; [|now right; right].
  rewrite <- H. unfold Qmin, GenericMinMax.gmin.
  destruct (x ?= y)%Q; auto.
Qed.

Lemma np_max_In (l : list Q) : l <> [] -> In (Np.max l) l.
Proof.
  destruct l as [|x r]; [congruence|]. intros _. simpl.
  revert x. induction r as [|y r IH]; intros x; simpl; [now left|].
  destruct (IH (Qmax x y)) as [H|H]; [|now right; right].
  rewrite <- H. unfold Qmax, GenericMinMax.gmax.
  destruct (x ?= y)%Q; auto.
Qed.

Lemma insert_sorted_Permutation (x : Q) (l : list Q) :
  Permutation (x :: l) (Np.insert_sorted x l).
Proof.
  induction l as [|y r IH]; simpl; [reflexivity|].
  destruct (Qle_bool x y); [reflexivity|].
  rewrite perm_swap. now apply perm_skip.
Qed.

Lemma sort_Permutation (l : list Q) : Permutation l (Np.sort l).
Proof.
  induction l as [|x l IH]; simpl; [reflexivity|].
  rewrite <- insert_sorted_Permutation. now apply perm_skip.
Qed.

(** [np.min] is the first and [np.max] the last of the samples put in
    order. *)
Lemma np_min_first (l : list Q) :
  l <> [] -> (Np.min l == nth 0 (Np.sort l) 0)%Q.
Proof.
  intros Hl.
  assert (Hn : (0 < length (Np.sort l))%nat).
  { rewrite sort_length. destruct l; [congruence|simpl; lia]. }
  apply Qle_antisym.
  - apply np_min_le, sort_In, nth_In, Hn.
  - pose proof (np_min_In l Hl) as Hin. apply sort_In in Hin.
    destruct (In_nth _ _ 0%Q Hin) as (i & Hi & <-).
    apply sorted_nth_le; [apply sort_sorted|lia|exact Hi].
Qed.

Lemma np_max_last (l : list Q) :
  l <> [] ->
  (Np.max l == nth (length (Np.sort l) - 1) (Np.sort l) 0)%Q.
Proof.
  intros Hl.
  assert (Hn : (0 < length (Np.sort l))%nat).
  { rewrite sort_length. destruct l; [congruence|simpl; lia]. }
  apply Qle_antisym.
  - pose proof (np_max_In l Hl) as Hin. apply sort_In in Hin.
    destruct (In_nth _ _ 0%Q Hin) as (i & Hi & <-).
    apply sorted_nth_le; [apply sort_sorted|lia|lia].
  - apply np_max_ge, sort_In, nth_In. lia.
Qed.

(** Below the last rank, the next sample is the one [np.quantile]
    takes. *)
Lemma percentile_interpolate (s : list Q) (q : Q) :
  (2 <= length s)%nat -> (0 <= q)%Q -> (q < 1)%Q ->
  percentile s q
  = interpolate s (inject_Z (Z.of_nat (length s - 1)) * q).
Proof.
  intros Hn Hq0 Hq1. unfold percentile, interpolate.
  set (m := inject_Z (Z.of_nat (length s - 1))).
  assert (Hm : (1 <= m)%Q).
  { unfold m. change 1%Q with (inject_Z 1). rewrite <- Zle_Qle. lia. }
  assert (Hv0 : (0 <= m * q)%Q) by nra.
  assert (Hv1 : (m * q < m)%Q) by nra.
  assert (Hf0 : (0 <= Qfloor (m * q))%Z).
  { change 0%Z with (Qfloor 0). now apply Qfloor_resp_le. }
  assert (Hf1 : (Qfloor (m * q) < Z.of_nat (length s - 1))%Z).
  { rewrite Zlt_Qlt. fold m. pose proof (Qfloor_le (m * q)). lra. }
  rewrite Nat.min_l by lia. reflexivity.
Qed.

Lemma rounds_to_round3 (exact x : Q) :
  (x == exact)%Q -> rounds_to exact (Np.round3 x).
Proof.
  intros Hx. destruct (round3_near x) as [H1 H2]. split; [|split].
  - exists (Np.round_half_even (x * 1000)). reflexivity.
  - lra.
  - lra.
Qed.

Lemma stored_percentiles_sample (l : list Q) :
  (2 <= length l)%nat ->
  stored_percentiles l (rounded (Np.min l))
    (rounded (Np.quantile l (1 # 2))) (rounded (Np.quantile l (95 # 100)))
    (rounded (Np.quantile l (99 # 100))) (rounded (Np.max l)).
Proof.
  intros Hn.
  assert (Hl : l <> []) by (destruct l; [simpl in Hn; lia|congruence]).
  assert (Hs : (2 <= length (Np.sort l))%nat) by (rewrite sort_length; lia).
  exists (Np.sort l). eexists _, _, _, _, _.
  split; [apply sort_Permutation|]. split; [apply sort_sorted|].
  do 5 (split; [reflexivity|]).
  split; [apply rounds_to_round3, np_min_first, Hl|].
  split.
  { apply rounds_to_round3. rewrite quantile_interpolate.
    rewrite percentile_interpolate; [reflexivity|exact Hs|lra|lra]. }
  split.
  { apply rounds_to_round3. rewrite quantile_interpolate.
    rewrite percentile_interpolate; [reflexivity|exact Hs|lra|lra]. }
  split.
  { apply rounds_to_round3. rewrite quantile_interpolate.
    rewrite percentile_interpolate; [reflexivity|exact Hs|lra|lra]. }
  split; [apply rounds_to_round3, np_max_last, Hl|].
  repeat split; apply round3_mono.
  - apply quantile_bounds; [lia|discriminate|discriminate].
  - apply quantile_mono; [lia|discriminate|discriminate|discriminate].
  - apply quantile_mono; [lia|discriminate|discriminate|discriminate].
  - apply quantile_bounds; [lia|discriminate|discriminate].
Qed.

(** C8. For a sequence of at least two samples the stored minimum, the
    three percentiles and the maximum are numbers in non-decreasing order,
    min <= p50 <= p95 <= p99 <= max, and each is what it is named after,
    rounded to three decimals: the least sample, the percentiles of rank
    0.5, 0.95 and 0.99 by linear interpolation between ranks in the
    samples put in order, and the greatest sample. *)
Theorem calc_stats_percentiles_ordered
    (np_std : list Q -> Q) (self : Stats) (df_best df_worst : list Q) :
  let after := calc_stats np_std self df_best df_worst in
  ((2 <= length df_best)%nat ->
     stored_percentiles df_best (best_min after) (best_p50 after)
       (best_p95 after) (best_p99 after) (best_max after))
  /\ ((2 <= length df_worst)%nat ->
        stored_percentiles df_worst (worst_min after) (worst_p50 after)
          (worst_p95 after) (worst_p99 after) (worst_max after)).
Proof.
  intros after. unfold after. split; intros Hl.
  - destruct (calc_stats_best_long np_std self df_best df_worst Hl)
      as (_ & -> & -> & -> & -> & ->).
    now apply stored_percentiles_sample.
  - destruct (calc_stats_worst_long np_std self df_best df_worst Hl)
      as (_ & -> & -> & -> & -> & ->).
    now apply stored_percentiles_sample.
Qed.

Lemma calc_stats_percentiles_ordered_witness :
  let after :=
    calc_stats (λ _, 0%Q) (Stats_init "p" []) [4%Q; 1%Q; 3%Q] [2%Q; 2%Q] in
  stored_percentiles [4%Q; 1%Q; 3%Q] (best_min after) (best_p50 after)
    (best_p95 after) (best_p99 after) (best_max after).
Proof.
  apply (calc_stats_percentiles_ordered (λ _, 0%Q) (Stats_init "p" [])
           [4%Q; 1%Q; 3%Q] [2%Q; 2%Q]).
  simpl. lia.
Defined.

(** Three samples: the median is the middle one, and the two high
    percentiles lie between the two greatest. *)
Example calc_stats_percentiles_sample :
  let after :=
    calc_stats (λ _, 0%Q) (Stats_init "p" []) [4%Q; 1%Q; 3%Q] [2%Q; 2%Q] in
  best_min after = PyFloat (1000 # 1000)
  /\ best_p50 after = PyFloat (3000 # 1000)
  /\ best_p95 after = PyFloat (3900 # 1000)
  /\ best_p99 after = PyFloat (3980 # 1000)
  /\ best_max after = PyFloat (4000 # 1000).
Proof. repeat split; vm_compute; reflexivity. Qed.

(** ** The records table: every column is as long as the frame *)

Lemma column_cells_length (df : DataFrame) (label : string) :
  length (column_cells df label) = length df.(rows).
Proof. unfold column_cells. apply length_map. Qed.

Lemma occurrences_pos (label : string) (labels : list string) :
  label ∈ labels -> (0 < occurrences label labels)%nat.
Proof.
  unfold occurrences. induction 1 as [c l|c c' l Hin IH].
  - rewrite filter_cons_True by reflexivity. simpl. lia.
  - rewrite filter_cons. destruct (decide (c' = c)); simpl; lia.
Qed.

Lemma getitem_len (df : DataFrame) (label : string) :
  label ∈ df.(columns) ->
  exists sel, getitem df label = inr sel /\ len sel = length df.(rows).
Proof.
  intros Hin. apply occurrences_pos in Hin. unfold getitem.
  destruct (occurrences label (columns df)) as [|[|n]]; [lia| |].
  - eexists. split; [reflexivity|]. apply column_cells_length.
  - eexists. split; reflexivity.
Qed.

Lemma head_elem_of {A : Type} (l : list A) (x : A) : head l = Some x -> x ∈ l.
Proof. destruct l; simpl; [discriminate|]. intros [= ->]. left. Qed.

Lemma last_elem_of {A : Type} (l : list A) (x : A) : last l = Some x -> x ∈ l.
Proof.
  intros H. apply last_Some in H as [l' ->].
  apply elem_of_app. right. left.
Qed.

Lemma check_the_first_last_callback_is_valid_eq (df : DataFrame) :
  check_the_first_last_callback_is_valid df
  = match df.(columns) with
    | [] => ([], inl IndexError)
    | _ => (boundary_warnings df, inr (has_rows df, has_rows df))
    end.
Proof.
  unfold check_the_first_last_callback_is_valid, first_label, last_label.
  destruct (head (columns df)) as [c0|] eqn:H0.
  2:{ destruct (columns df); [reflexivity|discriminate]. }
  destruct (last (columns df)) as [c1|] eqn:H1.
  2:{ apply last_None in H1. rewrite H1 in H0. discriminate. }
  destruct (getitem_len df c0 (head_elem_of _ _ H0)) as (s0 & G0 & L0).
  destruct (getitem_len df c1 (last_elem_of _ _ H1)) as (s1 & G1 & L1).
  unfold boundary_warnings, has_rows.
  destruct (columns df); [discriminate|].
  unfold mbind, M_bind, lift. rewrite G0, L0, G1, L1.
  destruct (length (rows df) =? 0)%nat; reflexivity.
Qed.

(** C5. On a table with columns, the check returns normally;
    [is_first_valid] is false exactly when the first column has zero rows,
    [is_last_valid] is false exactly when the last column has zero rows,
    and when both columns hold at least one sample both flags are true. *)
Theorem check_the_first_last_callback_is_valid_flags
    (records : DataFrame) (c_first c_last : string) :
  head records.(columns) = Some c_first ->
  last records.(columns) = Some c_last ->
  exists is_first_valid is_last_valid : bool,
    outcome (check_the_first_last_callback_is_valid records)
    = inr (is_first_valid, is_last_valid)
    /\ (is_first_valid = false
        <-> length (column_cells records c_first) = 0%nat)
    /\ (is_last_valid = false
        <-> length (column_cells records c_last) = 0%nat)
    /\ ((exists t, Some t ∈ column_cells records c_first) ->
        (exists t, Some t ∈ column_cells records c_last) ->
        is_first_valid = true /\ is_last_valid = true).
Proof.
  intros H0 H1. rewrite check_the_first_last_callback_is_valid_eq.
  destruct (columns records) as [|c cs] eqn:Hc; [discriminate|].
  exists (has_rows records), (has_rows records).
  rewrite !column_cells_length. unfold has_rows.
  split; [reflexivity|].
  destruct (length (rows records)) as [|n] eqn:Hn; simpl.
  - split; [split; intros _; reflexivity|].
    split; [split; intros _; reflexivity|].
    intros [t Ht] _. exfalso. unfold column_cells in Ht.
    apply length_zero_iff_nil in Hn. rewrite Hn in Ht. inversion Ht.
  - split; [split; discriminate|]. split; [split; discriminate|].
    intros _ _. split; reflexivity.
Qed.

Lemma check_the_first_last_callback_is_valid_flags_witness :
  exists is_first_valid is_last_valid : bool,
    outcome (check_the_first_last_callback_is_valid
               (mkDataFrame ["start"; "end"] [{["start" := 5%Z]}]))
    = inr (is_first_valid, is_last_valid)
    /\ (is_first_valid = false
        <-> length (column_cells
                      (mkDataFrame ["start"; "end"] [{["start" := 5%Z]}])
                      "start") = 0%nat)
    /\ (is_last_valid = false
        <-> length (column_cells
                      (mkDataFrame ["start"; "end"] [{["start" := 5%Z]}])
                      "end") = 0%nat)
    /\ ((exists t, Some t ∈ column_cells
                     (mkDataFrame ["start"; "end"] [{["start" := 5%Z]}])
                     "start") ->
        (exists t, Some t ∈ column_cells
                     (mkDataFrame ["start"; "end"] [{["start" := 5%Z]}])
                     "end") ->
        is_first_valid = true /\ is_last_valid = true).
Proof.
  apply (check_the_first_last_callback_is_valid_flags
           (mkDataFrame ["start"; "end"] [{["start" := 5%Z]}])
           "start" "end"); reflexivity.
Defined.

(** ** The duration estimate *)

Lemma duration_no_columns (df : DataFrame) (check_by_input : bool) :
  df.(columns) = [] -> get_messageflow_durationtime df check_by_input = None.
Proof.
  intros Hc. unfold get_messageflow_durationtime, duration_expr, first_label.
  rewrite Hc. reflexivity.
Qed.

Lemma duration_repeated_label (df : DataFrame) (check_by_input : bool)
    (c : string) :
  head df.(columns) = Some c -> (1 < occurrences c df.(columns))%nat ->
  get_messageflow_durationtime df check_by_input = None.
Proof.
  intros H0 Hocc.
  unfold get_messageflow_durationtime, duration_expr, first_label.
  rewrite H0. simpl. unfold getitem at 1.
  destruct (occurrences c (columns df)) as [|[|n]]; [lia|lia|]. simpl.
  destruct check_by_input; [reflexivity|].
  destruct (last_label df) as [e|c1]; [reflexivity|]. simpl.
  destruct (getitem df c1) as [e|s1]; [reflexivity|]. simpl.
  destruct (sel_max s1); reflexivity.
Qed.

(** With traffic the estimate is defined: two inputs 2 ns apart, the last
    output 4 ns after the first input. *)
Example get_messageflow_durationtime_defined :
  let df := mkDataFrame ["start"; "end"]
              [{["start" := 5%Z; "end" := 9%Z]}; {["start" := 7%Z]}] in
  get_messageflow_durationtime df true = Some (Fin (2 # 1000000000))
  /\ get_messageflow_durationtime df false = Some (Fin (4 # 1000000000)).
Proof. split; reflexivity. Qed.

(** On [Int64] columns without rows both windows are undefined. *)
Lemma duration_no_rows_int64 (df : DataFrame) (check_by_input : bool) :
  df.(rows) = [] -> (forall c, df.(dtype) c = Int64) ->
  get_messageflow_durationtime df check_by_input = None.
Proof.
  intros Hrows Hint.
  unfold get_messageflow_durationtime, duration_expr, first_label,
    last_label, getitem, column_cells.
  rewrite Hrows. cbn [map].
  destruct (head (columns df)) as [c_in|]; cbn [try_bind]; [|reflexivity].
  destruct (occurrences c_in (columns df)) as [|[|n]]; cbn [try_bind];
    [reflexivity| |].
  - rewrite Hint. destruct check_by_input; [reflexivity|].
    destruct (last (columns df)) as [c_out|]; cbn [try_bind]; [|reflexivity].
    destruct (occurrences c_out (columns df)) as [|[|m]]; cbn [try_bind];
      [reflexivity| |reflexivity].
    rewrite Hint. reflexivity.
  - destruct check_by_input; [reflexivity|].
    destruct (last (columns df)) as [c_out|]; cbn [try_bind]; [|reflexivity].
    destruct (occurrences c_out (columns df)) as [|[|m]]; cbn [try_bind];
      rewrite ?Hint; reflexivity.
Qed.

(** C1. A records table of dtype [float64] with two columns and no row:
    [min()] and [max()] of a column are [nan], so is their difference times
    1e-9, and [nan] is a [float], which the [isinstance] test lets through.
    In both window modes the function returns [nan] where the same table of
    dtype [Int64] gives [None]. *)
Theorem get_messageflow_durationtime_nan :
  get_messageflow_durationtime
    (Frame ["start"; "end"] [] (λ _, Float64)) true = Some Nan
  /\ get_messageflow_durationtime
       (Frame ["start"; "end"] [] (λ _, Float64)) false = Some Nan
  /\ get_messageflow_durationtime
       (Frame ["start"; "end"] [] (λ _, Int64)) true = None
  /\ get_messageflow_durationtime
       (Frame ["start"; "end"] [] (λ _, Int64)) false = None.
Proof. repeat split; reflexivity. Qed.

(** ** Substrings *)

Lemma prefix_spec (t k : string) :
  String.prefix t k = true <-> exists post, k = t +:+ post.
Proof.
  revert k. induction t as [|a t IH]; intros k; simpl.
  - split; [intros _; exists k; reflexivity|]. intros _. now destruct k.
  - destruct k as [|b k]; simpl.
    + split; [discriminate|intros [post H]; discriminate].
    + destruct (ascii_dec a b) as [->|Hne].
      * rewrite IH. split; intros [post H]; exists post.
        -- now rewrite H.
        -- now injection H.
      * split; [discriminate|]. intros [post H]. injection H. congruence.
Qed.

Lemma str_in_spec (t k : string) :
  str_in t k = true <-> exists pre post, k = pre +:+ t +:+ post.
Proof.
  induction k as [|b k IH].
  - change (str_in t "") with (String.prefix t "" || false).
    rewrite orb_false_r, prefix_spec. split.
    + intros [post H]. exists "", post. exact H.
    + intros (pre & post & H). destruct pre; [now exists post|discriminate].
  - change (str_in t (String b k))
      with (String.prefix t (String b k) || str_in t k).
    rewrite orb_true_iff, prefix_spec, IH. split.
    + intros [[post H]|(pre & post & H)].
      * exists "", post. exact H.
      * exists (String b pre), post. simpl. now rewrite H.
    + intros (pre & post & H). destruct pre as [|c pre]; simpl in H.
      * left. now exists post.
      * right. injection H as _ H. now exists pre, post.
Qed.

(** ** The configuration mapping *)

Lemma modify_keys_lookup (target : string) (new_value : bool * bool)
    (keys : list string) (d : gmap string (bool * bool)) (k : string) :
  foldl (λ d key, if str_in target key then <[key := new_value]> d else d)
    d keys !! k
  = if bool_decide (k ∈ keys) && str_in target k then Some new_value
    else d !! k.
Proof.
  revert d. induction keys as [|x keys IH]; intros d; simpl; [reflexivity|].
  rewrite IH. destruct (decide (k = x)) as [->|Hne].
  - rewrite (bool_decide_eq_true_2 (x ∈ x :: keys)) by left. simpl.
    destruct (str_in target x) eqn:Hx.
    + rewrite andb_true_r, lookup_insert_eq.
      now destruct (bool_decide (x ∈ keys)).
    + now rewrite andb_false_r.
  - assert (Hk : bool_decide (k ∈ x :: keys) = bool_decide (k ∈ keys)).
    { apply bool_decide_ext. rewrite elem_of_cons. tauto. }
    rewrite Hk.
    destruct (bool_decide (k ∈ keys) && str_in target k); [reflexivity|].
    destruct (str_in target x); [|reflexivity].
    now rewrite lookup_insert_ne.
Qed.

Lemma modify_dictionary_lookup (d : gmap string (bool * bool))
    (target : string) (new_value : bool * bool) (k : string) :
  modify_dictionary d target new_value !! k
  = match d !! k with
    | Some old => Some (if str_in target k then new_value else old)
    | None => None
    end.
Proof.
  unfold modify_dictionary. rewrite modify_keys_lookup.
  destruct (d !! k) as [old|] eqn:Hd.
  - rewrite bool_decide_eq_true_2.
    + now destruct (str_in target k).
    + apply elem_of_elements, elem_of_dom. now exists old.
  - rewrite bool_decide_eq_false_2; [reflexivity|].
    rewrite elem_of_elements, elem_of_dom, Hd. now intros [? ?].
Qed.

Lemma default_dictionary_lookup (paths : list string) (k : string)
    (d : gmap string (bool * bool)) :
  foldl (λ d p, <[p := (true, true)]> d) d paths !! k
  = if bool_decide (k ∈ paths) then Some (true, true) else d !! k.
Proof.
  revert d. induction paths as [|x paths IH]; intros d; simpl; [reflexivity|].
  rewrite IH. destruct (decide (k = x)) as [->|Hne].
  - rewrite (bool_decide_eq_true_2 (x ∈ x :: paths)) by left.
    rewrite lookup_insert_eq. now destruct (bool_decide (x ∈ paths)).
  - assert (Hk : bool_decide (k ∈ x :: paths) = bool_decide (k ∈ paths)).
    { apply bool_decide_ext. rewrite elem_of_cons. tauto. }
    rewrite Hk, lookup_insert_ne by congruence. reflexivity.
Qed.

Lemma apply_entries_lookup (entries : list TargetPath)
    (d : gmap string (bool * bool)) (k : string) :
  foldl (λ d target_path,
           modify_dictionary d target_path.(name)
             (default true target_path.(include_first_callback),
              default true target_path.(include_last_callback)))
    d entries !! k
  = resolve entries k <$> d !! k.
Proof.
  revert d. induction entries as [|e entries IH]; intros d; simpl.
  - now destruct (d !! k).
  - rewrite IH, modify_dictionary_lookup. unfold resolve. simpl.
    now destruct (d !! k).
Qed.

Lemma get_include_first_last_callback_lookup (entries : list TargetPath)
    (paths : list string) (k : string) :
  get_include_first_last_callback entries paths !! k
  = if bool_decide (k ∈ paths) then Some (resolve entries k (true, true))
    else None.
Proof.
  unfold get_include_first_last_callback.
  rewrite apply_entries_lookup, default_dictionary_lookup, lookup_empty.
  now destruct (bool_decide (k ∈ paths)).
Qed.

Lemma get_include_first_last_callback_lookup_declared
    (entries : list TargetPath) (paths : list string) (k : string) :
  k ∈ paths -> is_Some (get_include_first_last_callback entries paths !! k).
Proof.
  intros Hin. rewrite get_include_first_last_callback_lookup.
  rewrite bool_decide_eq_true_2 by assumption. now eexists.
Qed.

Lemma resolve_no_match (entries : list TargetPath) (k : string)
    (start : bool * bool) :
  Forall (λ e, str_in e.(name) k = false) entries ->
  resolve entries k start = start.
Proof.
  intros Hall. unfold resolve.
  induction Hall as [|e entries He _ IH]; simpl; [reflexivity|].
  now rewrite He.
Qed.

Lemma resolve_last_match (pre post : list TargetPath) (e : TargetPath)
    (k : string) (start : bool * bool) :
  str_in e.(name) k = true ->
  Forall (λ e', str_in e'.(name) k = false) post ->
  resolve (pre ++ e :: post) k start = override e.
Proof.
  intros He Hpost. unfold resolve. rewrite foldl_app. simpl. rewrite He.
  now apply resolve_no_match.
Qed.

(** C3. The mapping has exactly the declared path names as keys. A declared
    name that contains the name of no entry is mapped to (true, true). A
    declared name that contains the name of an entry, and of no later
    entry, is mapped to that entry's pair, a flag the entry lacks being
    true: among several matching entries the last in file order decides. *)
Theorem get_include_first_last_callback_resolution
    (target_path_list : list TargetPath) (arch_paths : list string)
    (path : string) :
  let mapping := get_include_first_last_callback target_path_list arch_paths in
  (path ∈ arch_paths <-> is_Some (mapping !! path))
  /\ (path ∈ arch_paths ->
      Forall (λ e, ~ contains e.(name) path) target_path_list ->
      mapping !! path = Some (true, true))
  /\ (forall pre e post,
        path ∈ arch_paths ->
        target_path_list = pre ++ e :: post ->
        contains e.(name) path ->
        Forall (λ e', ~ contains e'.(name) path) post ->
        mapping !! path
        = Some (default true e.(include_first_callback),
                default true e.(include_last_callback))).
Proof.
  intros mapping. unfold mapping.
  assert (Hno : forall l : list TargetPath,
             Forall (λ e, ~ contains e.(name) path) l ->
             Forall (λ e, str_in e.(name) path = false) l).
  { intros l. apply List.Forall_impl. intros e He.
    destruct (str_in (name e) path) eqn:Hs; [|reflexivity].
    exfalso. apply He, str_in_spec, Hs. }
  rewrite get_include_first_last_callback_lookup.
  repeat apply conj.
  - intros Hin. rewrite bool_decide_eq_true_2 by assumption. now eexists.
  - destruct (bool_decide (path ∈ arch_paths)) eqn:Hb.
    + intros _. now apply bool_decide_eq_true in Hb.
    + intros [? ?]. discriminate.
  - intros Hin Hall. rewrite bool_decide_eq_true_2 by assumption.
    now rewrite resolve_no_match by auto.
  - intros pre e post Hin -> He Hpost.
    rewrite bool_decide_eq_true_2 by assumption.
    rewrite resolve_last_match; [reflexivity| |auto].
    now apply str_in_spec.
Qed.

Lemma get_include_first_last_callback_resolution_witness :
  let entries := [mkTargetPath "Path" (Some false) (Some false);
                  mkTargetPath "PathA" (Some false) None;
                  mkTargetPath "PathB" None (Some false)] in
  get_include_first_last_callback entries ["PathA_0"; "Other"] !! "Other"
  = Some (true, true)
  /\ get_include_first_last_callback entries ["PathA_0"; "Other"] !! "PathA_0"
     = Some (false, true).
Proof.
  intros entries.
  assert (Hnot : forall t, str_in t "Other" = false -> ~ contains t "Other").
  { intros t Hf Hc. apply str_in_spec in Hc. congruence. }
  assert (HnotA : ~ contains "PathB" "PathA_0").
  { intros Hc. apply str_in_spec in Hc. discriminate. }
  destruct (get_include_first_last_callback_resolution
              entries ["PathA_0"; "Other"] "Other") as (_ & Hdefault & _).
  destruct (get_include_first_last_callback_resolution
              entries ["PathA_0"; "Other"] "PathA_0") as (_ & _ & Hlast).
  split.
  - apply Hdefault; [set_solver|].
    repeat constructor; apply Hnot; reflexivity.
  - apply (Hlast [mkTargetPath "Path" (Some false) (Some false)]
             (mkTargetPath "PathA" (Some false) None)
             [mkTargetPath "PathB" None (Some false)]).
    + set_solver.
    + reflexivity.
    + apply str_in_spec. reflexivity.
    + repeat constructor. exact HnotA.
Defined.

(** ** Traces *)

Lemma trace_bind {A B : Type} (m : M A) (k : A -> M B) :
  trace (m ≫= k)
  = match outcome m with
    | inl _ => trace m
    | inr a => trace m ++ trace (k a)
    end.
Proof.
  destruct m as [t [e|a]]; [reflexivity|].
  unfold mbind, M_bind, trace, outcome. simpl. now destruct (k a).
Qed.

Lemma outcome_bind {A B : Type} (m : M A) (k : A -> M B) :
  outcome (m ≫= k)
  = match outcome m with
    | inl e => inl e
    | inr a => outcome (k a)
    end.
Proof.
  destruct m as [t [e|a]]; [reflexivity|].
  unfold mbind, M_bind, trace, outcome. simpl. now destruct (k a).
Qed.

Lemma Forall_trace_bind {A B : Type} (P : Event -> Prop) (m : M A)
    (k : A -> M B) :
  Forall P (trace m) -> (forall a, Forall P (trace (k a))) ->
  Forall P (trace (m ≫= k)).
Proof.
  intros Hm Hk. rewrite trace_bind.
  destruct (outcome m); [assumption|]. apply Forall_app. auto.
Qed.

Lemma Forall_trace_for_collect {A B : Type} (P : Event -> Prop) (xs : list A)
    (body : A -> M B) :
  (forall x, Forall P (trace (body x))) ->
  Forall P (trace (for_collect xs body)).
Proof.
  intros Hbody. induction xs as [|x xs IH]; simpl; [constructor|].
  apply Forall_trace_bind; [auto|]. intros y.
  apply Forall_trace_bind; [auto|]. intros ys. constructor.
Qed.

Section AnalyzePath.

Variables (env : Env) (args : Args) (dest_dir path xaxis_type : string).
Variable mapping : gmap string (bool * bool).
Variables cf cl : bool.
Hypothesis configured : mapping !! path = Some (cf, cl).

Local Abbreviation first_records := (env.(path_to_records) path cf cl).

(** From "message flow" on: the events of [analyze_path] after the
    extraction, for the records it settled on. *)
Lemma analyze_path_shape :
  first_records.(columns) <> [] ->
  exists rest,
    trace (analyze_path env args dest_dir path mapping xaxis_type)
    = Log INFO ("Processing: " +:+ path)
      :: ToRecords path cf cl
      :: boundary_warnings first_records
      ++ (if has_rows first_records then rest
          else ToRecords path false false :: rest)
    /\ Forall (λ e, is_to_records e = false) rest
    /\ exists stats,
        outcome (analyze_path env args dest_dir path mapping xaxis_type)
        = inr stats.
Proof.
  intros Hcols. unfold analyze_path, dict_get. rewrite configured.
  unfold to_records. run.
  rewrite (check_the_first_last_callback_is_valid_eq first_records).
  destruct (columns first_records) as [|c cs]; [congruence|].
  unfold boundary_warnings, has_rows.
  destruct (length (rows first_records) =? 0)%nat; run.
  all: branch_on_duration.
  all: destruct (message_flow args); run.
  all: branch_on_duration.
  all: unfold response_time_case, stacked_bar, export_graph; run.
  all: branch_on_stacked_bar.
  all: eexists; split; [reflexivity|]; split;
         [repeat constructor|eexists; reflexivity].
Qed.

End AnalyzePath.

Lemma filter_none {A : Type} (f : A -> bool) (l : list A) :
  Forall (λ x, f x = false) l -> List.filter f l = [].
Proof.
  induction 1 as [|x l Hx _ IH]; simpl; [reflexivity|]. now rewrite Hx.
Qed.

Lemma boundary_warnings_no_extraction (df : DataFrame) :
  Forall (λ e, is_to_records e = false) (boundary_warnings df).
Proof.
  unfold boundary_warnings.
  destruct (length (rows df) =? 0)%nat; repeat constructor.
Qed.

(** C6. With [(fv, lv)] the verdict of the boundary check on the first
    extraction: when both are valid the path is extracted once, with the
    configured flags; otherwise it is extracted exactly once more, right
    after the warnings of the check and before anything else is done, with
    the flag of each invalid boundary off and the flag of a valid boundary
    as configured. Nothing later extracts again. *)
Theorem analyze_path_retries_once
    (env : Env) (args : Args) (dest_dir path xaxis_type : string)
    (mapping : gmap string (bool * bool)) (cf cl fv lv : bool) :
  mapping !! path = Some (cf, cl) ->
  outcome (check_the_first_last_callback_is_valid
             (env.(path_to_records) path cf cl)) = inr (fv, lv) ->
  let run := analyze_path env args dest_dir path mapping xaxis_type in
  let retry :=
    ToRecords path (if fv then cf else false) (if lv then cl else false) in
  (exists rest,
     trace run
     = Log INFO ("Processing: " +:+ path)
       :: ToRecords path cf cl
       :: trace (check_the_first_last_callback_is_valid
                   (env.(path_to_records) path cf cl))
       ++ (if fv && lv then rest else retry :: rest)
     /\ Forall (λ e, is_to_records e = false) rest)
  /\ List.filter is_to_records (trace run)
     = if fv && lv then [ToRecords path cf cl]
       else [ToRecords path cf cl; retry].
Proof.
  intros Hcfg Hcheck run retry.
  rewrite check_the_first_last_callback_is_valid_eq in Hcheck |- *.
  destruct (columns (path_to_records env path cf cl)) as [|c cs] eqn:Hcols;
    [discriminate|].
  injection Hcheck as <- <-.
  destruct (analyze_path_shape env args dest_dir path xaxis_type mapping
              cf cl Hcfg) as (rest & Htrace & Hrest & _).
  { rewrite Hcols. discriminate. }
  fold run in Htrace.
  assert (Hshape :
    trace run
    = Log INFO ("Processing: " +:+ path)
      :: ToRecords path cf cl
      :: boundary_warnings (path_to_records env path cf cl)
      ++ (if has_rows (path_to_records env path cf cl)
             && has_rows (path_to_records env path cf cl)
          then rest else retry :: rest)).
  { rewrite Htrace. unfold retry.
    now destruct (has_rows (path_to_records env path cf cl)). }
  split.
  - exists rest. split; [exact Hshape|exact Hrest].
  - rewrite Hshape. cbn [List.filter is_to_records].
    rewrite List.filter_app.
    rewrite (filter_none _ _ (boundary_warnings_no_extraction _)).
    destruct (has_rows (path_to_records env path cf cl)); simpl.
    + now rewrite (filter_none _ _ Hrest).
    + now rewrite (filter_none _ _ Hrest).
Qed.

Lemma analyze_path_retries_once_witness :
  List.filter is_to_records
    (trace (analyze_path (sample_env ["p"] (λ _, true) (λ _, None))
              sample_args "out" "p" {["p" := (true, true)]} "system_time"))
  = [ToRecords "p" true true; ToRecords "p" false false].
Proof.
  apply (analyze_path_retries_once
           (sample_env ["p"] (λ _, true) (λ _, None)) sample_args "out" "p"
           "system_time" {["p" := (true, true)]} true true false false);
    reflexivity.
Defined.

(** ** The run over all paths *)

Lemma verify_loop (env : Env) (paths : list string) :
  for_each paths (verify_path env)
  = (verify_events env paths,
     if forallb env.(path_verify) paths then inr tt
     else inl (SystemExit (-1))).
Proof.
  induction paths as [|p rest IH]; [reflexivity|].
  cbn [for_each verify_events forallb]. rewrite IH.
  unfold verify_path. destruct (path_verify env p); reflexivity.
Qed.

Lemma verify_events_all (env : Env) (paths : list string) :
  forallb env.(path_verify) paths = true ->
  verify_events env paths
  = flat_map (λ p, [Verify p true;
                    Log INFO ("path.verify " +:+ p +:+ ": True")]) paths.
Proof.
  induction paths as [|p rest IH]; [reflexivity|].
  cbn [forallb verify_events flat_map]. intros [Hp Hrest]%andb_true_iff.
  rewrite Hp, IH by assumption. reflexivity.
Qed.

Lemma verify_events_quiet (env : Env) (paths : list string) :
  Forall (λ e, is_analysis_or_report e = false) (verify_events env paths).
Proof.
  induction paths as [|p rest IH]; [constructor|].
  cbn [verify_events]. do 2 (constructor; [reflexivity|]).
  destruct (path_verify env p); [assumption|constructor].
Qed.

Lemma analyze_path_events (env : Env) (args : Args)
    (dest_dir path xaxis_type : string)
    (mapping : gmap string (bool * bool)) :
  Forall (λ e, is_path_event e = true)
    (trace (analyze_path env args dest_dir path mapping xaxis_type)).
Proof.
  unfold analyze_path, dict_get.
  destruct (mapping !! path) as [[cf cl]|]; [|repeat constructor].
  unfold to_records. run.
  rewrite check_the_first_last_callback_is_valid_eq.
  destruct (columns (path_to_records env path cf cl)) as [|c cs];
    [repeat constructor|].
  unfold boundary_warnings, has_rows.
  destruct (length (rows (path_to_records env path cf cl)) =? 0)%nat; run.
  all: branch_on_duration.
  all: destruct (message_flow args); run.
  all: branch_on_duration.
  all: unfold response_time_case, stacked_bar, export_graph; run.
  all: branch_on_stacked_bar.
  all: repeat constructor.
Qed.

Lemma for_collect_outcome {A B : Type} (xs : list A) (body : A -> M B) :
  (forall x, x ∈ xs -> exists y, outcome (body x) = inr y) ->
  exists ys, outcome (for_collect xs body) = inr ys
             /\ Forall2 (λ x y, outcome (body x) = inr y) xs ys.
Proof.
  induction xs as [|x xs IH]; intros Hall.
  - exists []. split; [reflexivity|constructor].
  - destruct (Hall x) as [y Hy]; [left|].
    destruct IH as (ys & Hys & Hrel).
    { intros x' Hx'. apply Hall. now right. }
    exists (y :: ys). split; [|now constructor].
    cbn [for_collect]. rewrite outcome_bind, Hy, outcome_bind, Hys.
    reflexivity.
Qed.

(** [analyze] once every path has verified. *)
Lemma analyze_verified (env : Env) (args : Args) (dest_dir : string) :
  forallb env.(path_verify) env.(arch_paths) = true ->
  let xaxis_type := if args.(sim_time) then "sim_time" else "system_time" in
  let mapping :=
    get_include_first_last_callback
      (env.(json_load) args.(target_path_json)) env.(arch_paths) in
  let paths_run :=
    for_collect env.(arch_paths)
      (λ p, analyze_path env args dest_dir p mapping xaxis_type) in
  let setup :=
    [Log INFO "<<< Analyze Paths: Start >>>";
     MakeDestinationDir dest_dir args.(force);
     ShutilCopy args.(architecture_file_path) dest_dir] in
  analyze env args dest_dir
  = match outcome paths_run with
    | inl e =>
        (setup ++ verify_events env env.(arch_paths) ++ trace paths_run,
         inl e)
    | inr stats_list =>
        (setup ++ verify_events env env.(arch_paths) ++ trace paths_run
         ++ [SafeDump (dest_dir +:+ "/stats_path.yaml") stats_list;
             RoundYaml (dest_dir +:+ "/stats_path.yaml");
             Log INFO "<<< Analyze Paths: Finish >>>"],
         inr tt)
    end.
Proof.
  intros Hall xaxis_type mapping paths_run setup.
  unfold analyze. rewrite verify_loop, Hall.
  fold xaxis_type. fold mapping. fold paths_run.
  destruct paths_run as [t [e|stats_list]]; reflexivity.
Qed.

(** [analyze] when some path does not verify. *)
Lemma analyze_unverified (env : Env) (args : Args) (dest_dir : string) :
  forallb env.(path_verify) env.(arch_paths) = false ->
  analyze env args dest_dir
  = ([Log INFO "<<< Analyze Paths: Start >>>";
      MakeDestinationDir dest_dir args.(force);
      ShutilCopy args.(architecture_file_path) dest_dir]
     ++ verify_events env env.(arch_paths),
     inl (SystemExit (-1))).
Proof.
  intros Hsome. unfold analyze. rewrite verify_loop, Hsome. reflexivity.
Qed.

Lemma for_collect_length {A B : Type} (xs : list A) (body : A -> M B)
    (ys : list B) :
  outcome (for_collect xs body) = inr ys -> length ys = length xs.
Proof.
  revert ys. induction xs as [|x xs IH]; intros ys.
  - intros [= <-]. reflexivity.
  - cbn [for_collect]. rewrite outcome_bind.
    destruct (outcome (body x)) as [e|y]; [discriminate|].
    rewrite outcome_bind.
    destruct (outcome (for_collect xs body)) as [e|ys']; [discriminate|].
    intros [= <-]. simpl. f_equal. now apply IH.
Qed.

Lemma forallb_elem_of {A : Type} (f : A -> bool) (l : list A) :
  forallb f l = true <-> forall x, x ∈ l -> f x = true.
Proof.
  rewrite forallb_forall. split; intros H x Hx; apply H.
  - now apply list_elem_of_In.
  - now apply list_elem_of_In.
Qed.

(** C7. If some declared path does not verify, [analyze] ends in
    [sys.exit(-1)], a non-zero status, and up to there nothing was
    analysed and no report was written: the trace holds the set-up, the
    verifications and log lines only. If every declared path verifies, all
    of them are verified before the first path is analysed, then the paths
    are analysed in order, and when that loop returns the report is
    dumped once, with one record per declared path. *)
Theorem analyze_verifies_before_analysis
    (env : Env) (args : Args) (dest_dir : string) :
  let run := analyze env args dest_dir in
  let setup :=
    [Log INFO "<<< Analyze Paths: Start >>>";
     MakeDestinationDir dest_dir args.(force);
     ShutilCopy args.(architecture_file_path) dest_dir] in
  let paths_run :=
    for_collect env.(arch_paths)
      (λ p, analyze_path env args dest_dir p
              (get_include_first_last_callback
                 (env.(json_load) args.(target_path_json)) env.(arch_paths))
              (if args.(sim_time) then "sim_time" else "system_time")) in
  ((exists p, p ∈ env.(arch_paths) /\ env.(path_verify) p = false) ->
     outcome run = inl (SystemExit (-1))
     /\ (-1 <> 0)%Z
     /\ Forall (λ e, is_analysis_or_report e = false) (trace run))
  /\ ((forall p, p ∈ env.(arch_paths) -> env.(path_verify) p = true) ->
      exists report,
        trace run
        = setup
          ++ flat_map (λ p, [Verify p true;
                             Log INFO ("path.verify " +:+ p +:+ ": True")])
               env.(arch_paths)
          ++ trace paths_run ++ report
        /\ Forall (λ e, is_path_event e = true) (trace paths_run)
        /\ match outcome paths_run with
           | inr stats_list =>
               outcome run = inr tt
               /\ report
                  = [SafeDump (dest_dir +:+ "/stats_path.yaml") stats_list;
                     RoundYaml (dest_dir +:+ "/stats_path.yaml");
                     Log INFO "<<< Analyze Paths: Finish >>>"]
               /\ length stats_list = length env.(arch_paths)
           | inl e => outcome run = inl e /\ report = []
           end).
Proof.
  intros run setup paths_run. split.
  - intros (p & Hin & Hp).
    assert (Hsome : forallb env.(path_verify) env.(arch_paths) = false).
    { destruct (forallb _ _) eqn:Hall; [|reflexivity].
      rewrite forallb_elem_of in Hall. rewrite (Hall p Hin) in Hp.
      discriminate. }
    unfold run. rewrite (analyze_unverified env args dest_dir Hsome).
    split; [reflexivity|]. split; [discriminate|].
    unfold trace. cbn [fst]. apply Forall_app. split.
    + repeat constructor.
    + apply verify_events_quiet.
  - intros Hall. apply forallb_elem_of in Hall.
    unfold run. rewrite (analyze_verified env args dest_dir Hall).
    rewrite (verify_events_all env _ Hall).
    fold paths_run.
    assert (Hev : Forall (λ e, is_path_event e = true) (trace paths_run)).
    { apply Forall_trace_for_collect. intros p. apply analyze_path_events. }
    destruct (outcome paths_run) as [e|stats_list] eqn:Hout.
    + exists []. split; [now rewrite app_nil_r|]. split; [exact Hev|].
      split; reflexivity.
    + eexists. split; [reflexivity|]. split; [exact Hev|].
      split; [reflexivity|]. split; [reflexivity|].
      now apply for_collect_length in Hout.
Qed.

Lemma analyze_verifies_before_analysis_witness :
  outcome (analyze (sample_env ["p"; "q"] (λ p, String.eqb p "p")
                      (λ _, None)) sample_args "out")
  = inl (SystemExit (-1))
  /\ outcome (analyze (sample_env ["p"; "q"] (λ _, true) (λ _, None))
                sample_args "out")
     = inr tt.
Proof.
  split.
  - apply (analyze_verifies_before_analysis
             (sample_env ["p"; "q"] (λ p, String.eqb p "p") (λ _, None))
             sample_args "out").
    exists "q". split; [set_solver|reflexivity].
  - destruct (analyze_verifies_before_analysis
                (sample_env ["p"; "q"] (λ _, true) (λ _, None))
                sample_args "out") as [_ Hall].
    destruct Hall as (report & _ & _ & Hrun); [reflexivity|].
    apply Hrun.
Defined.

(** [analyze_path] on a path whose [Int64] tables have no rows, whatever
    the flags. *)
Lemma analyze_path_no_rows (env : Env) (args : Args)
    (dest_dir path xaxis_type : string)
    (mapping : gmap string (bool * bool)) (cf cl : bool) :
  mapping !! path = Some (cf, cl) ->
  (env.(path_to_records) path cf cl).(columns) <> [] ->
  (forall f l, (env.(path_to_records) path f l).(rows) = []) ->
  (forall f l c, (env.(path_to_records) path f l).(dtype) c = Int64) ->
  analyze_path env args dest_dir path mapping xaxis_type
  = ([Log INFO ("Processing: " +:+ path);
      ToRecords path cf cl;
      Log WARNING "  The first callback is invalid";
      Log WARNING "  The last callback is invalid";
      ToRecords path false false;
      Log INFO "  message flow";
      Log WARNING ("    No-traffic and No-input in the path: " +:+ path)],
     inr (Stats_init path (env.(path_node_names) path))).
Proof.
  intros Hcfg Hcols Hrows Hint. unfold analyze_path, dict_get. rewrite Hcfg.
  unfold to_records. run.
  rewrite check_the_first_last_callback_is_valid_eq.
  destruct (columns (path_to_records env path cf cl)) as [|c cs];
    [congruence|].
  unfold boundary_warnings, has_rows. rewrite Hrows. run.
  rewrite (duration_no_rows_int64 _ true (Hrows false false)
             (Hint false false)).
  reflexivity.
Qed.

(** C2. A declared path that never carried traffic, its tables of dtype
    [float64] with no row. [analyze_path] takes the [nan] window for a
    window: it exports the short message flow with [nan] strips, writes
    the CSV file and exports the time series and the histogram of each
    case, saves the stacked bars, and returns a record whose two averages
    are [nan] and whose file names are set. The run completes and dumps
    that record. With [Int64] tables the record is the one
    [Stats.__init__] made and nothing is written. *)
Theorem zero_rows_float_path_is_analyzed :
  let run :=
    analyze_path (untraced_env Float64) sample_args "out" "p"
      {["p" := (true, true)]} "system_time" in
  let stats :=
    store_filename
      (calc_stats (λ _, 0%Q) (Stats_init "p" ["/sensor"; "/filter"]) [] [])
      "p" false in
  outcome run = inr stats
  /\ best_avg stats = PyNaN /\ worst_avg stats = PyNaN
  /\ filename_hist_best stats = "p_hist_best"
  /\ In (ExportGraph (MessageFlow "p" (Some Nan) (Some Nan) 86) "out"
           "p_messageflow_short" "p") (trace run)
  /\ In (ToCsv "p" "best" "system_time" "out/p_response_time_best.csv")
       (trace run)
  /\ In (ExportGraph (Histogram "p" "worst" "system_time") "out"
           "p_hist_worst" "p") (trace run)
  /\ In (SaveStackedBar "p" "all" "system_time" "out/p_stacked_bar_all.html")
       (trace run)
  /\ outcome (analyze (untraced_env Float64) sample_args "out") = inr tt
  /\ In (SafeDump "out/stats_path.yaml" [stats])
       (trace (analyze (untraced_env Float64) sample_args "out"))
  /\ analyze_path (untraced_env Int64) sample_args "out" "p"
       {["p" := (true, true)]} "system_time"
     = ([Log INFO "Processing: p";
         ToRecords "p" true true;
         Log WARNING "  The first callback is invalid";
         Log WARNING "  The last callback is invalid";
         ToRecords "p" false false;
         Log INFO "  message flow";
         Log WARNING "    No-traffic and No-input in the path: p"],
        inr (Stats_init "p" ["/sensor"; "/filter"])).
Proof.
  cbv zeta. repeat apply conj.
  1-4, 9, 11: vm_compute; reflexivity.
  all: vm_compute; repeat (first [left; reflexivity | right]).
Qed.

(** ** A failing stacked bar *)

(** One failing bar, in the worst case: its message is logged, the bar of
    the other cases is saved, and the statistics are those of the run
    without failure. *)
Example stacked_bar_failure_worst_case :
  let fails := λ case_str : string,
    if String.eqb case_str "worst" then Some "no data" else None in
  let run :=
    analyze_path (sample_env ["p"] (λ _, true) fails) sample_args "out" "p"
      {["p" := (true, true)]} "system_time" in
  In (Log WARNING "no data") (trace run)
  /\ In (ToCsv "p" "worst" "system_time" "out/p_response_time_worst.csv")
       (trace run)
  /\ In (SaveStackedBar "p" "all" "system_time" "out/p_stacked_bar_all.html")
       (trace run)
  /\ outcome run
     = outcome (analyze_path (sample_env ["p"] (λ _, true) (λ _, None))
                  sample_args "out" "p" {["p" := (true, true)]}
                  "system_time").
Proof.
  cbv zeta. split; [|split; [|split]].
  1-3: vm_compute; repeat (first [left; reflexivity | right]).
  vm_compute. reflexivity.
Qed.

(** * Further properties *)

(** ** The duration estimate, when it is defined *)

Lemma fold_left_Zmin_spec (zs : list Z) (z : Z) :
  In (fold_left Z.min zs z) (z :: zs)
  /\ forall t, In t (z :: zs) -> (fold_left Z.min zs z <= t)%Z.
Proof.
  revert z. induction zs as [|y zs IH]; intros z; simpl.
  - split; [now left|]. intros t [<-|[]]. lia.
  - destruct (IH (Z.min z y)) as [Hin Hle]. split.
    + destruct Hin as [Hin|Hin]; [|now right; right].
      rewrite <- Hin. destruct (Z.min_spec z y) as [[_ ->]|[_ ->]]; auto.
    + intros t [<-|[<-|Ht]].
      * specialize (Hle (Z.min z y) (or_introl eq_refl)). lia.
      * specialize (Hle (Z.min z y) (or_introl eq_refl)). lia.
      * apply Hle. now right.
Qed.

Lemma fold_left_Zmax_spec (zs : list Z) (z : Z) :
  In (fold_left Z.max zs z) (z :: zs)
  /\ forall t, In t (z :: zs) -> (t <= fold_left Z.max zs z)%Z.
Proof.
  revert z. induction zs as [|y zs IH]; intros z; simpl.
  - split; [now left|]. intros t [<-|[]]. lia.
  - destruct (IH (Z.max z y)) as [Hin Hle]. split.
    + destruct Hin as [Hin|Hin]; [|now right; right].
      rewrite <- Hin. destruct (Z.max_spec z y) as [[_ ->]|[_ ->]]; auto.
    + intros t [<-|[<-|Ht]].
      * specialize (Hle (Z.max z y) (or_introl eq_refl)). lia.
      * specialize (Hle (Z.max z y) (or_introl eq_refl)). lia.
      * apply Hle. now right.
Qed.

Lemma present_In (cells : list (option Z)) (t : Z) :
  In t (present cells) <-> Some t ∈ cells.
Proof.
  unfold present. rewrite <- list_elem_of_In, list_elem_of_omap. split.
  - intros (o & Ho & Hid). simpl in Hid. now subst.
  - intros H. now exists (Some t).
Qed.

Lemma present_nil (cells : list (option Z)) :
  present cells = [] <-> no_timestamp cells.
Proof.
  split.
  - intros Hp t Ht. apply present_In in Ht. rewrite Hp in Ht. destruct Ht.
  - intros Hno. destruct (present cells) as [|z zs] eqn:Hp; [reflexivity|].
    exfalso. apply (Hno z), present_In. rewrite Hp. now left.
Qed.

(** A column has no timestamp, or a least and a greatest one. *)
Lemma column_extremes (cells : list (option Z)) :
  no_timestamp cells \/ exists lo hi, least cells lo /\ greatest cells hi.
Proof.
  destruct (present cells) as [|z zs] eqn:Hp.
  - left. now apply present_nil.
  - right. destruct (fold_left_Zmin_spec zs z) as [Hmin Hmin_le].
    destruct (fold_left_Zmax_spec zs z) as [Hmax Hmax_le].
    rewrite <- Hp in Hmin, Hmin_le, Hmax, Hmax_le.
    exists (fold_left Z.min zs z), (fold_left Z.max zs z). split; split.
    + now apply present_In.
    + intros t Ht. apply Hmin_le. now apply present_In.
    + now apply present_In.
    + intros t Ht. apply Hmax_le. now apply present_In.
Qed.

Lemma reduce_no_timestamp (op : Z -> Z -> Z) (kind : Dtype)
    (cells : list (option Z)) :
  no_timestamp cells ->
  reduce op (Series kind cells)
  = match kind with Int64 => SNA | Float64 => SFloat Nan end.
Proof.
  intros Hno. apply present_nil in Hno. unfold present in Hno.
  unfold reduce. rewrite Hno. now destruct kind.
Qed.

Lemma sel_min_least (kind : Dtype) (cells : list (option Z)) (lo : Z) :
  least cells lo ->
  sel_min (Series kind cells)
  = match kind with Int64 => SInt lo | Float64 => SFloat (of_int lo) end.
Proof.
  intros [Hlo Hall]. unfold sel_min, reduce.
  destruct (omap id cells) as [|z zs] eqn:Hp.
  { apply present_In in Hlo. unfold present in Hlo. rewrite Hp in Hlo.
    destruct Hlo. }
  destruct (fold_left_Zmin_spec zs z) as [Hin Hle].
  fold (present cells) in Hp. rewrite <- Hp in Hin, Hle.
  apply present_In in Hlo. specialize (Hle _ Hlo).
  apply present_In in Hin. specialize (Hall _ Hin).
  replace (fold_left Z.min zs z) with lo by lia. now destruct kind.
Qed.

Lemma sel_max_greatest (kind : Dtype) (cells : list (option Z)) (hi : Z) :
  greatest cells hi ->
  sel_max (Series kind cells)
  = match kind with Int64 => SInt hi | Float64 => SFloat (of_int hi) end.
Proof.
  intros [Hhi Hall]. unfold sel_max, reduce.
  destruct (omap id cells) as [|z zs] eqn:Hp.
  { apply present_In in Hhi. unfold present in Hhi. rewrite Hp in Hhi.
    destruct Hhi. }
  destruct (fold_left_Zmax_spec zs z) as [Hin Hle].
  fold (present cells) in Hp. rewrite <- Hp in Hin, Hle.
  apply present_In in Hhi. specialize (Hle _ Hhi).
  apply present_In in Hin. specialize (Hall _ Hin).
  replace (fold_left Z.max zs z) with hi by lia. now destruct kind.
Qed.

Lemma getitem_unique (df : DataFrame) (c : string) :
  occurrences c df.(columns) = 1%nat ->
  getitem df c = inr (Series (df.(dtype) c) (column_cells df c)).
Proof. intros H. unfold getitem. now rewrite H. Qed.

Lemma wrap64_small (z : Z) : (0 <= z < 2 ^ 63)%Z -> wrap64 z = z.
Proof.
  intros Hz. unfold wrap64.
  change (2 ^ 63)%Z with 9223372036854775808%Z in *.
  change (2 ^ 64)%Z with 18446744073709551616%Z.
  rewrite Z.mod_small; lia.
Qed.

(** The two expressions of the [try] block, on unique labels. *)
Lemma duration_by_input_eq (df : DataFrame) (c : string) :
  head df.(columns) = Some c ->
  occurrences c df.(columns) = 1%nat ->
  get_messageflow_durationtime df true
  = let series := Series (df.(dtype) c) (column_cells df c) in
    let v := times_1e_9 (py_sub (sel_max series) (sel_min series)) in
    if is_int_or_float v then to_float v else None.
Proof.
  intros Hhead Hocc.
  unfold get_messageflow_durationtime, duration_expr, first_label.
  rewrite Hhead. cbn [try_bind]. rewrite (getitem_unique df c Hocc).
  reflexivity.
Qed.

Lemma duration_by_output_eq (df : DataFrame) (c_in c_out : string) :
  head df.(columns) = Some c_in ->
  last df.(columns) = Some c_out ->
  occurrences c_in df.(columns) = 1%nat ->
  occurrences c_out df.(columns) = 1%nat ->
  get_messageflow_durationtime df false
  = let v :=
      times_1e_9
        (py_sub
           (sel_max (Series (df.(dtype) c_out) (column_cells df c_out)))
           (sel_min (Series (df.(dtype) c_in) (column_cells df c_in)))) in
    if is_int_or_float v then to_float v else None.
Proof.
  intros Hhead Hlast Hin Hout.
  unfold get_messageflow_durationtime, duration_expr, first_label,
    last_label.
  rewrite Hhead, Hlast. cbn [try_bind].
  rewrite (getitem_unique df c_in Hin). cbn [try_bind].
  rewrite (getitem_unique df c_out Hout). reflexivity.
Qed.

(** X1. The window bounded by the last input. The result is [None] when
    the table has no column, when the label of the first column is
    repeated, and when that column is [Int64] and holds no timestamp; it
    is [nan] when the column is [float64] or [object] and holds no
    timestamp. Otherwise it is the span from the least to the greatest
    timestamp of the column times 1e-9, the [int64] difference wrapped
    around to 64 bits; when the span is below 2^63 ns the result is not
    negative. *)
Theorem duration_by_input_spec (records : DataFrame) :
  (records.(columns) = [] ->
   get_messageflow_durationtime records true = None)
  /\ forall c,
       head records.(columns) = Some c ->
       ((1 < occurrences c records.(columns))%nat ->
        get_messageflow_durationtime records true = None)
       /\ (occurrences c records.(columns) = 1%nat ->
           (no_timestamp (column_cells records c) ->
            get_messageflow_durationtime records true
            = match records.(dtype) c with
              | Int64 => None
              | Float64 => Some Nan
              end)
           /\ forall lo hi,
                least (column_cells records c) lo ->
                greatest (column_cells records c) hi ->
                get_messageflow_durationtime records true
                = Some (Fin (match records.(dtype) c with
                             | Int64 => inject_Z (wrap64 (hi - lo))
                             | Float64 => inject_Z hi - inject_Z lo
                             end * (1 # 1000000000)))
                /\ ((hi - lo < 2 ^ 63)%Z ->
                    exists d,
                      get_messageflow_durationtime records true
                      = Some (Fin d) /\ (0 <= d)%Q)).
Proof.
  split; [apply duration_no_columns|].
  intros c Hhead. split; [now apply duration_repeated_label|].
  intros Hocc. rewrite (duration_by_input_eq records c Hhead Hocc).
  cbv zeta. split.
  - intros Hno. unfold sel_min, sel_max.
    rewrite !(reduce_no_timestamp _ _ _ Hno).
    now destruct (dtype records c).
  - intros lo hi Hlo Hhi.
    rewrite (sel_min_least _ _ _ Hlo), (sel_max_greatest _ _ _ Hhi).
    assert (Hle : (lo <= hi)%Z) by (destruct Hlo as [Hin _], Hhi as [_ Hall];
                                    now apply Hall).
    destruct (dtype records c); cbn.
    + split; [reflexivity|]. intros Hspan. eexists. split; [reflexivity|].
      rewrite wrap64_small by lia.
      apply Qmult_le_0_compat; [|discriminate].
      change 0%Q with (inject_Z 0). rewrite <- Zle_Qle. lia.
    + split; [reflexivity|]. intros _. eexists. split; [reflexivity|].
      apply Qmult_le_0_compat; [|discriminate].
      rewrite Zle_Qle in Hle. lra.
Qed.

Lemma duration_by_input_spec_witness :
  get_messageflow_durationtime
    (mkDataFrame ["start"; "end"]
       [{["start" := 5%Z; "end" := 9%Z]}; {["start" := 7%Z]}]) true
  = Some (Fin (inject_Z (wrap64 (7 - 5)) * (1 # 1000000000)))
  /\ get_messageflow_durationtime
       (Frame ["start"; "end"] [] (λ _, Float64)) true
     = Some Nan.
Proof.
  split.
  - destruct (duration_by_input_spec
                (mkDataFrame ["start"; "end"]
                   [{["start" := 5%Z; "end" := 9%Z]}; {["start" := 7%Z]}]))
      as [_ H].
    destruct (H "start" eq_refl) as [_ Hunique].
    destruct (Hunique eq_refl) as [_ Hvalue].
    apply (Hvalue 5%Z 7%Z).
    + split; [vm_compute; apply list_elem_of_here|].
      intros t Ht. vm_compute in Ht.
      apply elem_of_cons in Ht as [[= ->]|Ht]; [lia|].
      apply list_elem_of_singleton in Ht as [= ->]. lia.
    + split; [vm_compute; apply list_elem_of_further, list_elem_of_here|].
      intros t Ht. vm_compute in Ht.
      apply elem_of_cons in Ht as [[= ->]|Ht]; [lia|].
      apply list_elem_of_singleton in Ht as [= ->]. lia.
  - destruct (duration_by_input_spec
                (Frame ["start"; "end"] [] (λ _, Float64))) as [_ H].
    destruct (H "start" eq_refl) as [_ Hunique].
    destruct (Hunique eq_refl) as [Hnone _].
    apply Hnone. intros t Ht. inversion Ht.
Defined.

(** X2. The window bounded by the last output, on a table whose first
    and last label are unique. The result is [None] when one of the two
    columns is [Int64] and holds no timestamp; failing that, it is [nan]
    when one of them holds no timestamp; otherwise it is the time from
    the least timestamp of the first column to the greatest of the last
    times 1e-9, the difference wrapped around to 64 bits when both
    columns are [Int64]. *)
Theorem duration_by_output_spec (records : DataFrame) (c_in c_out : string) :
  head records.(columns) = Some c_in ->
  last records.(columns) = Some c_out ->
  occurrences c_in records.(columns) = 1%nat ->
  occurrences c_out records.(columns) = 1%nat ->
  let cells_in := column_cells records c_in in
  let cells_out := column_cells records c_out in
  ((no_timestamp cells_in /\ records.(dtype) c_in = Int64)
   \/ (no_timestamp cells_out /\ records.(dtype) c_out = Int64) ->
   get_messageflow_durationtime records false = None)
  /\ ((no_timestamp cells_in -> records.(dtype) c_in = Float64) ->
      (no_timestamp cells_out -> records.(dtype) c_out = Float64) ->
      no_timestamp cells_in \/ no_timestamp cells_out ->
      get_messageflow_durationtime records false = Some Nan)
  /\ forall lo hi,
       least cells_in lo -> greatest cells_out hi ->
       get_messageflow_durationtime records false
       = Some (Fin (match records.(dtype) c_in, records.(dtype) c_out with
                    | Int64, Int64 => inject_Z (wrap64 (hi - lo))
                    | _, _ => inject_Z hi - inject_Z lo
                    end * (1 # 1000000000))).
Proof.
  intros Hhead Hlast Hin Hout cells_in cells_out.
  rewrite (duration_by_output_eq records c_in c_out Hhead Hlast Hin Hout).
  cbv zeta. fold cells_in. fold cells_out.
  destruct (column_extremes cells_in) as [Hno_in|(lo' & _ & Hlo' & _)];
    destruct (column_extremes cells_out) as [Hno_out|(_ & hi' & _ & Hhi')].
  - unfold sel_min, sel_max.
    rewrite (reduce_no_timestamp _ _ _ Hno_in),
      (reduce_no_timestamp _ _ _ Hno_out).
    repeat apply conj.
    + intros [[_ Hk]|[_ Hk]]; rewrite Hk.
      * now destruct (dtype records c_out).
      * now destruct (dtype records c_in).
    + intros Hf_in Hf_out _. now rewrite (Hf_in Hno_in), (Hf_out Hno_out).
    + intros lo hi [Hlo _]. now destruct (Hno_in lo).
  - unfold sel_min. rewrite (reduce_no_timestamp _ _ _ Hno_in).
    rewrite (sel_max_greatest _ _ _ Hhi').
    repeat apply conj.
    + intros [[_ Hk]|[Hno _]].
      * rewrite Hk. now destruct (dtype records c_out).
      * destruct Hhi' as [Hhi' _]. now destruct (Hno hi').
    + intros Hf_in _ _. rewrite (Hf_in Hno_in).
      now destruct (dtype records c_out).
    + intros lo hi [Hlo _]. now destruct (Hno_in lo).
  - unfold sel_max. rewrite (reduce_no_timestamp _ _ _ Hno_out).
    rewrite (sel_min_least _ _ _ Hlo').
    repeat apply conj.
    + intros [[Hno _]|[_ Hk]].
      * destruct Hlo' as [Hlo' _]. now destruct (Hno lo').
      * rewrite Hk. now destruct (dtype records c_in).
    + intros _ Hf_out _. rewrite (Hf_out Hno_out).
      now destruct (dtype records c_in).
    + intros lo hi _ [Hhi _]. now destruct (Hno_out hi).
  - repeat apply conj.
    + intros [[Hno _]|[Hno _]].
      * destruct Hlo' as [Hlo' _]. now destruct (Hno lo').
      * destruct Hhi' as [Hhi' _]. now destruct (Hno hi').
    + intros _ _ [Hno|Hno].
      * destruct Hlo' as [Hlo' _]. now destruct (Hno lo').
      * destruct Hhi' as [Hhi' _]. now destruct (Hno hi').
    + intros lo hi Hlo Hhi.
      rewrite (sel_min_least _ _ _ Hlo), (sel_max_greatest _ _ _ Hhi).
      now destruct (dtype records c_in), (dtype records c_out).
Qed.

Lemma duration_by_output_spec_witness :
  get_messageflow_durationtime
    (mkDataFrame ["start"; "end"] [{["start" := 5%Z]}]) false = None
  /\ get_messageflow_durationtime
       (Frame ["start"; "end"] [] (λ _, Float64)) false = Some Nan.
Proof.
  split.
  - apply (duration_by_output_spec
             (mkDataFrame ["start"; "end"] [{["start" := 5%Z]}])
             "start" "end"); try reflexivity.
    right. split; [|reflexivity].
    intros t Ht. vm_compute in Ht. apply list_elem_of_singleton in Ht.
    discriminate.
  - apply (duration_by_output_spec
             (Frame ["start"; "end"] [] (λ _, Float64)) "start" "end");
      try reflexivity.
    left. intros t Ht. inversion Ht.
Defined.

(** What passes the [isinstance] test came from a float difference or
    an [int64] difference. *)
Lemma duration_value_inv (a b : Scalar) (d : pyfloat) :
  (if is_int_or_float (times_1e_9 (py_sub a b))
   then to_float (times_1e_9 (py_sub a b)) else None) = Some d ->
  (exists x, b = SInt x) \/ (exists x, b = SFloat x).
Proof. destruct a, b; simpl; try discriminate; eauto. Qed.

Lemma duration_value_fin_inv (a b : Scalar) (d : Q) :
  (if is_int_or_float (times_1e_9 (py_sub a b))
   then to_float (times_1e_9 (py_sub a b)) else None) = Some (Fin d) ->
  (exists x, b = SInt x) \/ (exists x, b = SFloat (Fin x)).
Proof.
  destruct a as [x|[x|]| |], b as [y|[y|]| |]; simpl; try discriminate;
    eauto.
Qed.

Lemma duration_output_then_input (records : DataFrame) (duration : pyfloat) :
  get_messageflow_durationtime records false = Some duration ->
  (exists by_input,
     get_messageflow_durationtime records true = Some by_input)
  /\ forall d, duration = Fin d ->
       exists by_input : Q,
         get_messageflow_durationtime records true = Some (Fin by_input).
Proof.
  unfold get_messageflow_durationtime, duration_expr.
  destruct (first_label records) as [e|c_in]; cbn [try_bind];
    [discriminate|].
  destruct (getitem records c_in) as [e|s_in]; cbn [try_bind];
    [discriminate|].
  destruct (last_label records) as [e|c_out]; cbn [try_bind];
    [discriminate|].
  destruct (getitem records c_out) as [e|s_out]; cbn [try_bind];
    [discriminate|].
  intros H. split.
  - apply duration_value_inv in H as [[x Hx]|[x Hx]];
      destruct s_in as [kind cells|n m]; try discriminate;
      unfold sel_min, sel_max, reduce in *;
      destruct (omap id cells), kind; try discriminate; cbn; eauto.
  - intros d ->.
    apply duration_value_fin_inv in H as [[x Hx]|[x Hx]];
      destruct s_in as [kind cells|n m]; try discriminate;
      unfold sel_min, sel_max, reduce in *;
      destruct (omap id cells), kind; try discriminate; cbn; eauto.
Qed.

(** X3. The window bounded by the last output is the stricter one: where
    it is defined, the window bounded by the last input is defined too,
    and where it is a number, not [nan], so is the other. *)
Theorem duration_by_output_needs_input
    (records : DataFrame) (duration : pyfloat) :
  get_messageflow_durationtime records false = Some duration ->
  (exists by_input,
     get_messageflow_durationtime records true = Some by_input)
  /\ forall d, duration = Fin d ->
       exists by_input : Q,
         get_messageflow_durationtime records true = Some (Fin by_input).
Proof. apply duration_output_then_input. Qed.

Lemma duration_by_output_needs_input_witness :
  exists by_input : Q,
    get_messageflow_durationtime
      (mkDataFrame ["start"; "end"]
         [{["start" := 5%Z; "end" := 9%Z]}; {["start" := 7%Z]}]) true
    = Some (Fin by_input).
Proof.
  assert (Hout : get_messageflow_durationtime
                   (mkDataFrame ["start"; "end"]
                      [{["start" := 5%Z; "end" := 9%Z]};
                       {["start" := 7%Z]}]) false
                 = Some (Fin (4 # 1000000000)))
    by (vm_compute; reflexivity).
  destruct (duration_by_output_needs_input _ _ Hout) as [_ Hfin].
  apply (Hfin (4 # 1000000000) eq_refl).
Defined.

(** X4. When the first and the last column are the same column, the two
    windows agree. *)
Theorem duration_single_boundary (records : DataFrame) :
  head records.(columns) = last records.(columns) ->
  get_messageflow_durationtime records false
  = get_messageflow_durationtime records true.
Proof.
  intros Hsame.
  unfold get_messageflow_durationtime, duration_expr, first_label,
    last_label. rewrite <- Hsame.
  destruct (head (columns records)) as [c|]; cbn [try_bind]; [|reflexivity].
  destruct (getitem records c) as [e|s]; reflexivity.
Qed.

Lemma duration_single_boundary_witness :
  get_messageflow_durationtime
    (mkDataFrame ["callback"] [{["callback" := 5%Z]}; {["callback" := 8%Z]}])
    false
  = get_messageflow_durationtime
      (mkDataFrame ["callback"]
         [{["callback" := 5%Z]}; {["callback" := 8%Z]}]) true.
Proof. apply duration_single_boundary. reflexivity. Defined.

(** ** One path, in full *)

(** [analyze_path] spelled out: what it does and returns when the path is
    configured and its first table has columns. *)
Lemma analyze_path_eq (env : Env) (args : Args)
    (dest_dir path xaxis_type : string)
    (mapping : gmap string (bool * bool)) (cf cl : bool) :
  mapping !! path = Some (cf, cl) ->
  (env.(path_to_records) path cf cl).(columns) <> [] ->
  analyze_path env args dest_dir path mapping xaxis_type
  = (Log INFO ("Processing: " +:+ path)
     :: ToRecords path cf cl
     :: boundary_warnings (env.(path_to_records) path cf cl)
     ++ (if has_rows (env.(path_to_records) path cf cl) then []
         else [ToRecords path false false])
     ++ analysis_events env args dest_dir path xaxis_type
          (settled_records env path cf cl),
     inr (reported_stats env args path xaxis_type
            (settled_records env path cf cl))).
Proof.
  intros Hcfg Hcols. unfold analyze_path, dict_get. rewrite Hcfg.
  unfold to_records. run.
  rewrite check_the_first_last_callback_is_valid_eq.
  destruct (columns (path_to_records env path cf cl)) as [|c cs];
    [congruence|].
  assert (Hsettled :
    settled_records env path cf cl
    = if (length (rows (path_to_records env path cf cl)) =? 0)%nat
      then path_to_records env path false false
      else path_to_records env path cf cl).
  { unfold settled_records, has_rows.
    now destruct (length (rows (path_to_records env path cf cl)) =? 0)%nat. }
  rewrite Hsettled. clear Hsettled.
  unfold boundary_warnings, has_rows, analysis_events, reported_stats,
    case_events.
  destruct (length (rows (path_to_records env path cf cl)) =? 0)%nat; run.
  all: branch_on_duration.
  all: destruct (message_flow args); run.
  all: branch_on_duration.
  all: unfold response_time_case, stacked_bar, export_graph; run.
  all: branch_on_stacked_bar.
  all: reflexivity.
Qed.

(** ** The boundary check *)

(** X5. Whenever the check returns, its two verdicts are the same: both
    boundaries are valid when the table has a row and both are invalid when
    it has none, with one warning per boundary in that case. *)
Theorem boundary_verdicts_agree (records : DataFrame)
    (is_first_valid is_last_valid : bool) :
  outcome (check_the_first_last_callback_is_valid records)
  = inr (is_first_valid, is_last_valid) ->
  is_first_valid = is_last_valid
  /\ (is_first_valid = true <-> records.(rows) <> [])
  /\ trace (check_the_first_last_callback_is_valid records)
     = if is_first_valid then []
       else [Log WARNING "  The first callback is invalid";
             Log WARNING "  The last callback is invalid"].
Proof.
  rewrite check_the_first_last_callback_is_valid_eq.
  destruct (columns records); [discriminate|].
  unfold outcome, trace, boundary_warnings, has_rows. cbn [fst snd].
  intros [= <- <-]. split; [reflexivity|].
  destruct (rows records); simpl.
  - split; [|reflexivity]. split; [discriminate|congruence].
  - split; [|reflexivity]. split; [discriminate|reflexivity].
Qed.

Lemma boundary_verdicts_agree_witness :
  false = false
  /\ (false = true <-> (mkDataFrame ["start"; "end"] []).(rows) <> [])
  /\ trace (check_the_first_last_callback_is_valid
              (mkDataFrame ["start"; "end"] []))
     = [Log WARNING "  The first callback is invalid";
        Log WARNING "  The last callback is invalid"].
Proof.
  apply (boundary_verdicts_agree (mkDataFrame ["start"; "end"] [])
           false false).
  reflexivity.
Defined.

(** X6. The check raises exactly when the table has no column at all, and
    then it is an [IndexError], raised before any warning. *)
Theorem boundary_check_raises (records : DataFrame) (e : Exn) :
  outcome (check_the_first_last_callback_is_valid records) = inl e
  <-> records.(columns) = [] /\ e = IndexError.
Proof.
  rewrite check_the_first_last_callback_is_valid_eq.
  destruct (columns records) as [|c cs]; unfold outcome; cbn [snd].
  - split; [intros [= <-]; auto|]. intros [_ ->]. reflexivity.
  - split; [discriminate|]. intros [? _]. discriminate.
Qed.

(** ** Errors of one path *)

Lemma analyze_path_missing_key (env : Env) (args : Args)
    (dest_dir path xaxis_type : string)
    (mapping : gmap string (bool * bool)) :
  mapping !! path = None ->
  analyze_path env args dest_dir path mapping xaxis_type
  = ([Log INFO ("Processing: " +:+ path)], inl (KeyError path)).
Proof.
  intros Hnone. unfold analyze_path, dict_get. rewrite Hnone. reflexivity.
Qed.

Lemma analyze_path_no_columns (env : Env) (args : Args)
    (dest_dir path xaxis_type : string)
    (mapping : gmap string (bool * bool)) (cf cl : bool) :
  mapping !! path = Some (cf, cl) ->
  (env.(path_to_records) path cf cl).(columns) = [] ->
  analyze_path env args dest_dir path mapping xaxis_type
  = ([Log INFO ("Processing: " +:+ path); ToRecords path cf cl],
     inl IndexError).
Proof.
  intros Hcfg Hcols. unfold analyze_path, dict_get. rewrite Hcfg.
  unfold to_records. run.
  rewrite check_the_first_last_callback_is_valid_eq, Hcols. reflexivity.
Qed.

(** X7. A path missing from the mapping stops [analyze_path] with a
    [KeyError] before any extraction; a first table without columns stops it
    with an [IndexError] right after the first extraction; and these are the
    only ways it raises. *)
Theorem analyze_path_errors (env : Env) (args : Args)
    (dest_dir path xaxis_type : string)
    (mapping : gmap string (bool * bool)) :
  let run := analyze_path env args dest_dir path mapping xaxis_type in
  (mapping !! path = None ->
     run = ([Log INFO ("Processing: " +:+ path)], inl (KeyError path)))
  /\ (forall cf cl,
        mapping !! path = Some (cf, cl) ->
        (env.(path_to_records) path cf cl).(columns) = [] ->
        run = ([Log INFO ("Processing: " +:+ path); ToRecords path cf cl],
               inl IndexError))
  /\ (forall e, outcome run = inl e ->
        (e = KeyError path /\ mapping !! path = None)
        \/ (e = IndexError
            /\ exists cf cl,
                 mapping !! path = Some (cf, cl)
                 /\ (env.(path_to_records) path cf cl).(columns) = [])).
Proof.
  intros run. unfold run. repeat apply conj.
  - apply analyze_path_missing_key.
  - apply analyze_path_no_columns.
  - intros e He.
    destruct (mapping !! path) as [[cf cl]|] eqn:Hcfg.
    + right.
      destruct (columns (path_to_records env path cf cl)) as [|c cs] eqn:Hc.
      * rewrite (analyze_path_no_columns env args dest_dir path xaxis_type
                   mapping cf cl Hcfg Hc) in He.
        injection He as <-. split; [reflexivity|]. now exists cf, cl.
      * rewrite (analyze_path_eq env args dest_dir path xaxis_type mapping
                   cf cl Hcfg) in He by (rewrite Hc; discriminate).
        discriminate.
    + left. rewrite (analyze_path_missing_key env args dest_dir path
                       xaxis_type mapping Hcfg) in He.
      injection He as <-. auto.
Qed.

Lemma analyze_path_errors_witness :
  analyze_path (sample_env ["p"] (λ _, true) (λ _, None)) sample_args "out"
    "q" {["p" := (true, true)]} "system_time"
  = ([Log INFO "Processing: q"], inl (KeyError "q")).
Proof.
  apply (analyze_path_errors (sample_env ["p"] (λ _, true) (λ _, None))
           sample_args "out" "q" "system_time" {["p" := (true, true)]}).
  reflexivity.
Defined.

Lemma analyze_path_returned (env : Env) (args : Args)
    (dest_dir path xaxis_type : string)
    (mapping : gmap string (bool * bool)) (stats : Stats) :
  outcome (analyze_path env args dest_dir path mapping xaxis_type)
  = inr stats ->
  exists cf cl,
    mapping !! path = Some (cf, cl)
    /\ (env.(path_to_records) path cf cl).(columns) <> []
    /\ stats = reported_stats env args path xaxis_type
                 (settled_records env path cf cl).
Proof.
  intros Hret.
  destruct (mapping !! path) as [[cf cl]|] eqn:Hcfg.
  - exists cf, cl. split; [reflexivity|].
    destruct (columns (path_to_records env path cf cl)) as [|c cs] eqn:Hc.
    + rewrite (analyze_path_no_columns env args dest_dir path xaxis_type
                 mapping cf cl Hcfg Hc) in Hret. discriminate.
    + split; [discriminate|].
      rewrite (analyze_path_eq env args dest_dir path xaxis_type mapping
                 cf cl Hcfg) in Hret by (rewrite Hc; discriminate).
      now injection Hret.
  - rewrite (analyze_path_missing_key env args dest_dir path xaxis_type
               mapping Hcfg) in Hret. discriminate.
Qed.

(** ** What one path reports *)

Lemma reported_stats_identity (env : Env) (args : Args)
    (path xaxis_type : string) (records : DataFrame) :
  let stats := reported_stats env args path xaxis_type records in
  target_path_name stats = path
  /\ node_names stats = env.(path_node_names) path
  /\ filename_hist_total stats = "".
Proof.
  unfold reported_stats.
  destruct (get_messageflow_durationtime records true); [|repeat split].
  destruct (get_messageflow_durationtime records false); [|repeat split].
  cbn [store_filename target_path_name node_names filename_hist_total].
  destruct (calc_stats_frame env.(np_std)
              (Stats_init path (env.(path_node_names) path))
              (env.(response_time) path "best" xaxis_type)
              (env.(response_time) path "worst" xaxis_type))
    as (Hname & Hnodes & Hfiles).
  rewrite Hname, Hnodes. repeat split.
  rewrite List.Forall_forall in Hfiles.
  apply (Hfiles filename_hist_total). simpl. tauto.
Qed.

(** X8. Every record [analyze_path] returns carries the name of the path it
    was asked for and the node names the architecture gives for it, and its
    [filename_hist_total] is empty: no branch ever sets that field. *)
Theorem analyze_path_record_identity (env : Env) (args : Args)
    (dest_dir path xaxis_type : string)
    (mapping : gmap string (bool * bool)) (stats : Stats) :
  outcome (analyze_path env args dest_dir path mapping xaxis_type)
  = inr stats ->
  target_path_name stats = path
  /\ node_names stats = env.(path_node_names) path
  /\ filename_hist_total stats = "".
Proof.
  intros Hret. apply analyze_path_returned in Hret as (cf & cl & _ & _ & ->).
  apply reported_stats_identity.
Qed.

Lemma analyze_path_record_identity_witness :
  target_path_name (Stats_init "silent" ["/sensor"; "/filter"]) = "silent"
  /\ node_names (Stats_init "silent" ["/sensor"; "/filter"])
     = ["/sensor"; "/filter"]
  /\ filename_hist_total (Stats_init "silent" ["/sensor"; "/filter"]) = "".
Proof.
  apply (analyze_path_record_identity
           (sample_env ["silent"] (λ _, true) (λ _, None)) sample_args "out"
           "silent" "system_time" {["silent" := (true, true)]}).
  reflexivity.
Defined.

(** X9. The statistics of a returned record are computed exactly when the
    window bounded by the last output is defined on the settled records:
    without it all fourteen fields are still ['---']; with it they are the
    fields [calc_stats] computes on a fresh record from the best-case and
    worst-case response times, and both averages are numbers. *)
Theorem analyze_path_statistics (env : Env) (args : Args)
    (dest_dir path xaxis_type : string)
    (mapping : gmap string (bool * bool)) (cf cl : bool) (stats : Stats) :
  mapping !! path = Some (cf, cl) ->
  outcome (analyze_path env args dest_dir path mapping xaxis_type)
  = inr stats ->
  let records := settled_records env path cf cl in
  let computed :=
    calc_stats env.(np_std) (Stats_init path (env.(path_node_names) path))
      (env.(response_time) path "best" xaxis_type)
      (env.(response_time) path "worst" xaxis_type) in
  (get_messageflow_durationtime records false = None ->
     Forall (λ field, field stats = PyStr "---") statistics_fields)
  /\ (forall duration,
        get_messageflow_durationtime records false = Some duration ->
        Forall (λ field, field stats = field computed) statistics_fields
        /\ is_number (best_avg stats) = true
        /\ is_number (worst_avg stats) = true).
Proof.
  intros Hcfg Hret records computed.
  apply analyze_path_returned in Hret as (cf' & cl' & Hcfg' & _ & ->).
  rewrite Hcfg in Hcfg'. injection Hcfg' as <- <-. fold records.
  unfold reported_stats. split.
  - intros Hnone. rewrite Hnone.
    destruct (get_messageflow_durationtime records true);
      repeat constructor.
  - intros duration Hsome. rewrite Hsome.
    destruct (duration_output_then_input records duration Hsome)
      as [[by_input ->] _].
    fold computed. split; [repeat constructor|].
    cbn [store_filename best_avg worst_avg]. unfold computed.
    rewrite calc_stats_best_avg, calc_stats_worst_avg.
    split; apply average_is_number.
Qed.

(** A path without traffic, and a path whose second table has traffic. *)
Lemma analyze_path_statistics_witness :
  let env := sample_env ["silent"; "p"] (λ _, true) (λ _, None) in
  let computed :=
    calc_stats env.(np_std) (Stats_init "p" ["/sensor"; "/filter"])
      [3%Q; 1%Q; 2%Q] [3%Q; 1%Q; 2%Q] in
  Forall (λ field, field (Stats_init "silent" ["/sensor"; "/filter"])
                   = PyStr "---") statistics_fields
  /\ Forall (λ field, field (store_filename computed "p" false)
                      = field computed) statistics_fields
  /\ is_number (best_avg (store_filename computed "p" false)) = true
  /\ is_number (worst_avg (store_filename computed "p" false)) = true.
Proof.
  intros env computed. split.
  - apply (analyze_path_statistics env sample_args "out" "silent"
             "system_time" {["silent" := (true, true)]} true true);
      reflexivity.
  - assert (Hret : outcome (analyze_path env sample_args "out" "p"
                              {["p" := (true, true)]} "system_time")
                   = inr (store_filename computed "p" false))
      by (vm_compute; reflexivity).
    destruct (analyze_path_statistics env sample_args "out" "p"
                "system_time" {["p" := (true, true)]} true true
                (store_filename computed "p" false)) as [_ Hsome];
      [reflexivity|exact Hret|].
    apply (Hsome (Fin (4 # 1000000000))). vm_compute. reflexivity.
Defined.

(** X10. File names are recorded exactly when the window bounded by the last
    input is defined on the settled records: without it the nine file-name
    fields are empty; with it the short message flow and the best and worst
    histogram, time series and stacked bar are named after the path, and the
    long message flow only when it was asked for. *)
Theorem analyze_path_filenames (env : Env) (args : Args)
    (dest_dir path xaxis_type : string)
    (mapping : gmap string (bool * bool)) (cf cl : bool) (stats : Stats) :
  mapping !! path = Some (cf, cl) ->
  outcome (analyze_path env args dest_dir path mapping xaxis_type)
  = inr stats ->
  let records := settled_records env path cf cl in
  (get_messageflow_durationtime records true = None ->
     Forall (λ field, field stats = "") filename_fields)
  /\ (forall duration,
        get_messageflow_durationtime records true = Some duration ->
        filename_messageflow stats
        = (if args.(message_flow) then path +:+ "_messageflow" else "")
        /\ filename_messageflow_short stats = path +:+ "_messageflow_short"
        /\ filename_hist_best stats = path +:+ "_hist_best"
        /\ filename_timeseries_best stats = path +:+ "_timeseries_best"
        /\ filename_stacked_bar_best stats = path +:+ "_stacked_bar_best"
        /\ filename_hist_worst stats = path +:+ "_hist_worst"
        /\ filename_timeseries_worst stats = path +:+ "_timeseries_worst"
        /\ filename_stacked_bar_worst stats
           = path +:+ "_stacked_bar_worst").
Proof.
  intros Hcfg Hret records.
  apply analyze_path_returned in Hret as (cf' & cl' & Hcfg' & _ & ->).
  rewrite Hcfg in Hcfg'. injection Hcfg' as <- <-. fold records.
  unfold reported_stats. split.
  - intros ->. repeat constructor.
  - intros duration ->.
    cbn [store_filename filename_messageflow filename_messageflow_short
         filename_hist_best filename_timeseries_best
         filename_stacked_bar_best filename_hist_worst
         filename_timeseries_worst filename_stacked_bar_worst].
    repeat split.
    destruct (message_flow args); [reflexivity|].
    destruct (get_messageflow_durationtime records false); [|reflexivity].
    destruct (calc_stats_frame env.(np_std)
                (Stats_init path (env.(path_node_names) path))
                (env.(response_time) path "best" xaxis_type)
                (env.(response_time) path "worst" xaxis_type))
      as (_ & _ & Hfiles).
    rewrite List.Forall_forall in Hfiles.
    apply (Hfiles filename_messageflow). simpl. tauto.
Qed.

(** A path without traffic, and a path whose second table has traffic. *)
Lemma analyze_path_filenames_witness :
  let env := sample_env ["silent"; "p"] (λ _, true) (λ _, None) in
  let stats :=
    store_filename
      (calc_stats env.(np_std) (Stats_init "p" ["/sensor"; "/filter"])
         [3%Q; 1%Q; 2%Q] [3%Q; 1%Q; 2%Q]) "p" false in
  Forall (λ field, field (Stats_init "silent" ["/sensor"; "/filter"]) = "")
    filename_fields
  /\ filename_messageflow stats = ""
  /\ filename_messageflow_short stats = "p_messageflow_short"
  /\ filename_hist_best stats = "p_hist_best"
  /\ filename_timeseries_best stats = "p_timeseries_best"
  /\ filename_stacked_bar_best stats = "p_stacked_bar_best"
  /\ filename_hist_worst stats = "p_hist_worst"
  /\ filename_timeseries_worst stats = "p_timeseries_worst"
  /\ filename_stacked_bar_worst stats = "p_stacked_bar_worst".
Proof.
  intros env stats. split.
  - apply (analyze_path_filenames env sample_args "out" "silent"
             "system_time" {["silent" := (true, true)]} true true);
      reflexivity.
  - assert (Hret : outcome (analyze_path env sample_args "out" "p"
                              {["p" := (true, true)]} "system_time")
                   = inr stats)
      by (vm_compute; reflexivity).
    destruct (analyze_path_filenames env sample_args "out" "p"
                "system_time" {["p" := (true, true)]} true true stats)
      as [_ Hsome]; [reflexivity|exact Hret|].
    apply (Hsome (Fin (2 # 1000000000))). vm_compute. reflexivity.
Defined.

Lemma analysis_events_in_trace (env : Env) (args : Args)
    (dest_dir path xaxis_type : string)
    (mapping : gmap string (bool * bool)) (cf cl : bool) (e : Event) :
  mapping !! path = Some (cf, cl) ->
  (env.(path_to_records) path cf cl).(columns) <> [] ->
  In e (analysis_events env args dest_dir path xaxis_type
          (settled_records env path cf cl)) ->
  In e (trace (analyze_path env args dest_dir path mapping xaxis_type)).
Proof.
  intros Hcfg Hcols Hin.
  rewrite (analyze_path_eq env args dest_dir path xaxis_type mapping cf cl
             Hcfg Hcols).
  unfold trace. cbn [fst]. do 2 right.
  apply in_or_app. right. apply in_or_app. now right.
Qed.

(** What is logged and extracted before "message flow" is no artifact. *)
Lemma analyze_path_trace_artifacts (env : Env) (args : Args)
    (dest_dir path xaxis_type : string)
    (mapping : gmap string (bool * bool)) (cf cl : bool) :
  mapping !! path = Some (cf, cl) ->
  (env.(path_to_records) path cf cl).(columns) <> [] ->
  List.filter is_response_time_artifact
    (trace (analyze_path env args dest_dir path mapping xaxis_type))
  = List.filter is_response_time_artifact
      (analysis_events env args dest_dir path xaxis_type
         (settled_records env path cf cl)).
Proof.
  intros Hcfg Hcols.
  rewrite (analyze_path_eq env args dest_dir path xaxis_type mapping cf cl
             Hcfg Hcols).
  unfold trace. cbn [fst List.filter is_response_time_artifact].
  rewrite !List.filter_app. unfold boundary_warnings.
  destruct (length (rows (path_to_records env path cf cl)) =? 0)%nat;
    destruct (has_rows (path_to_records env path cf cl)); reflexivity.
Qed.

(** X11. With input but no output traffic on the settled records, the
    returned record names the histogram, time series and stacked bar of the
    best and the worst case although none of them, and no CSV file, was
    written. *)
Theorem analyze_path_names_without_artifacts (env : Env) (args : Args)
    (dest_dir path xaxis_type : string)
    (mapping : gmap string (bool * bool)) (cf cl : bool)
    (duration : pyfloat) :
  mapping !! path = Some (cf, cl) ->
  (env.(path_to_records) path cf cl).(columns) <> [] ->
  get_messageflow_durationtime (settled_records env path cf cl) true
  = Some duration ->
  get_messageflow_durationtime (settled_records env path cf cl) false
  = None ->
  let run := analyze_path env args dest_dir path mapping xaxis_type in
  (exists stats,
     outcome run = inr stats
     /\ filename_hist_best stats = path +:+ "_hist_best"
     /\ filename_timeseries_worst stats = path +:+ "_timeseries_worst"
     /\ filename_stacked_bar_best stats = path +:+ "_stacked_bar_best"
     /\ Forall (λ field, field stats = PyStr "---") statistics_fields)
  /\ List.filter is_response_time_artifact (trace run) = [].
Proof.
  intros Hcfg Hcols Hin Hout run. unfold run. split.
  - rewrite (analyze_path_eq env args dest_dir path xaxis_type mapping cf cl
               Hcfg Hcols).
    eexists. split; [reflexivity|].
    unfold reported_stats. rewrite Hin, Hout.
    repeat split; repeat constructor.
  - rewrite (analyze_path_trace_artifacts env args dest_dir path xaxis_type
               mapping cf cl Hcfg Hcols).
    unfold analysis_events. rewrite Hin, Hout.
    destruct (message_flow args); reflexivity.
Qed.

(** A table with input timestamps only: the column of the last callback
    is all [<NA>]. *)
Lemma analyze_path_names_without_artifacts_witness :
  let env :=
    with_stacked_bar_error
      (mkEnv ["p"] (λ _, true) (λ _, []) (λ _, [])
         (λ _ _ _, mkDataFrame ["start"; "end"]
                     [{["start" := 5%Z]}; {["start" := 7%Z]}])
         (λ _ _ _, []) (λ _ _ _, None) (λ _, []) (λ _, 0%Q))
      (λ _ _ _, None) in
  List.filter is_response_time_artifact
    (trace (analyze_path env sample_args "out" "p" {["p" := (true, true)]}
              "system_time"))
  = [].
Proof.
  intros env.
  apply (analyze_path_names_without_artifacts env sample_args "out" "p"
           "system_time" {["p" := (true, true)]} true true
           (Fin (2 # 1000000000))).
  - reflexivity.
  - discriminate.
  - reflexivity.
  - reflexivity.
Defined.

Lemma append_assoc (a b c : string) : (a +:+ b) +:+ c = a +:+ b +:+ c.
Proof.
  induction a as [|x a IH]; [reflexivity|].
  change (String x ((a +:+ b) +:+ c) = String x (a +:+ b +:+ c)).
  f_equal. exact IH.
Qed.

Lemma append_inj (a b c : string) : a +:+ b = a +:+ c -> b = c.
Proof.
  induction a as [|x a IH]; [trivial|]. intros H.
  change (String x (a +:+ b) = String x (a +:+ c)) in H.
  injection H. exact IH.
Qed.

Lemma append_nonempty (a : string) (x : ascii) (b : string) :
  "" <> a +:+ String x b.
Proof. destruct a; discriminate. Qed.

(** X12. With output traffic on the settled records, the graphs exported for
    the best and the worst case carry the very names the returned record
    holds, as does the short message flow, and a stacked bar that did not
    fail is saved under its recorded name with [.html] added. The graphs of
    the case "all" are exported too, under names no field records. *)
Theorem analyze_path_artifacts_match_names (env : Env) (args : Args)
    (dest_dir path xaxis_type : string)
    (mapping : gmap string (bool * bool)) (cf cl : bool)
    (duration : pyfloat) :
  mapping !! path = Some (cf, cl) ->
  (env.(path_to_records) path cf cl).(columns) <> [] ->
  get_messageflow_durationtime (settled_records env path cf cl) false
  = Some duration ->
  let run := analyze_path env args dest_dir path mapping xaxis_type in
  exists stats,
    outcome run = inr stats
    /\ (exists fig,
          In (ExportGraph fig dest_dir (filename_messageflow_short stats) path)
            (trace run))
    /\ In (ExportGraph (Histogram path "best" xaxis_type) dest_dir
             (filename_hist_best stats) path) (trace run)
    /\ In (ExportGraph (Timeseries path "best" xaxis_type) dest_dir
             (filename_timeseries_best stats) path) (trace run)
    /\ In (ExportGraph (Histogram path "worst" xaxis_type) dest_dir
             (filename_hist_worst stats) path) (trace run)
    /\ In (ExportGraph (Timeseries path "worst" xaxis_type) dest_dir
             (filename_timeseries_worst stats) path) (trace run)
    /\ (env.(stacked_bar_error) path "best" xaxis_type = None ->
        In (SaveStackedBar path "best" xaxis_type
              (dest_dir +:+ "/" +:+ filename_stacked_bar_best stats
               +:+ ".html")) (trace run))
    /\ (env.(stacked_bar_error) path "worst" xaxis_type = None ->
        In (SaveStackedBar path "worst" xaxis_type
              (dest_dir +:+ "/" +:+ filename_stacked_bar_worst stats
               +:+ ".html")) (trace run))
    /\ In (ExportGraph (Histogram path "all" xaxis_type) dest_dir
             (path +:+ "_hist_all") path) (trace run)
    /\ In (ExportGraph (Timeseries path "all" xaxis_type) dest_dir
             (path +:+ "_timeseries_all") path) (trace run)
    /\ Forall (λ field, field stats <> path +:+ "_hist_all"
                        /\ field stats <> path +:+ "_timeseries_all")
         filename_fields.
Proof.
  intros Hcfg Hcols Hout run.
  destruct (duration_output_then_input _ _ Hout) as [[by_input Hin] _].
  exists (reported_stats env args path xaxis_type
            (settled_records env path cf cl)).
  split.
  { unfold run. now rewrite (analyze_path_eq env args dest_dir path
                               xaxis_type mapping cf cl Hcfg Hcols). }
  assert (Hnames :
    reported_stats env args path xaxis_type (settled_records env path cf cl)
    = store_filename
        (calc_stats env.(np_std)
           (Stats_init path (env.(path_node_names) path))
           (env.(response_time) path "best" xaxis_type)
           (env.(response_time) path "worst" xaxis_type))
        path args.(message_flow)).
  { unfold reported_stats. now rewrite Hin, Hout. }
  rewrite Hnames.
  cbn [store_filename filename_messageflow_short filename_hist_best
       filename_timeseries_best filename_stacked_bar_best
       filename_hist_worst filename_timeseries_worst
       filename_stacked_bar_worst].
  assert (Hev : forall e,
    In e (analysis_events env args dest_dir path xaxis_type
            (settled_records env path cf cl)) -> In e (trace run)).
  { intros e. now apply analysis_events_in_trace. }
  assert (Hcase : forall case_str e,
    In case_str ["best"; "worst"; "all"] ->
    In e (case_events env dest_dir path xaxis_type case_str) ->
    In e (trace run)).
  { intros case_str e Hc He. apply Hev.
    unfold analysis_events. rewrite Hin, Hout. do 2 right.
    apply in_or_app. right. right. apply in_or_app. left.
    apply in_flat_map. now exists case_str. }
  repeat apply conj.
  - eexists. apply Hev. unfold analysis_events. rewrite Hin.
    right. left. reflexivity.
  - apply (Hcase "best"); [simpl; tauto|].
    unfold case_events. right. right. left. reflexivity.
  - apply (Hcase "best"); [simpl; tauto|].
    unfold case_events. right. left. reflexivity.
  - apply (Hcase "worst"); [simpl; tauto|].
    unfold case_events. right. right. left. reflexivity.
  - apply (Hcase "worst"); [simpl; tauto|].
    unfold case_events. right. left. reflexivity.
  - intros Hok. apply (Hcase "best"); [simpl; tauto|].
    unfold case_events. rewrite Hok, append_assoc.
    do 3 right. left. reflexivity.
  - intros Hok. apply (Hcase "worst"); [simpl; tauto|].
    unfold case_events. rewrite Hok, append_assoc.
    do 3 right. left. reflexivity.
  - apply (Hcase "all"); [simpl; tauto|].
    unfold case_events. right. right. left. reflexivity.
  - apply (Hcase "all"); [simpl; tauto|].
    unfold case_events. right. left. reflexivity.
  - destruct (calc_stats_frame env.(np_std)
                (Stats_init path (env.(path_node_names) path))
                (env.(response_time) path "best" xaxis_type)
                (env.(response_time) path "worst" xaxis_type))
      as (_ & _ & Hfiles).
    rewrite List.Forall_forall in Hfiles.
    pose proof (Hfiles filename_messageflow ltac:(simpl; tauto)) as Hlong.
    pose proof (Hfiles filename_hist_total ltac:(simpl; tauto)) as Htotal.
    cbn [Stats_init filename_messageflow filename_hist_total] in Hlong, Htotal.
    repeat apply List.Forall_cons; [..|apply List.Forall_nil].
    all: cbn [store_filename filename_messageflow filename_hist_total].
    all: try rewrite Hlong; try rewrite Htotal.
    all: try destruct (message_flow args).
    all: split; intros H;
      first [ now apply append_nonempty in H
            | apply append_inj in H; discriminate H ].
Qed.

Lemma analyze_path_artifacts_match_names_witness :
  exists stats,
    outcome (analyze_path (sample_env ["p"] (λ _, true) (λ _, None))
               sample_args "out" "p" {["p" := (true, true)]} "system_time")
    = inr stats
    /\ In (ExportGraph (Histogram "p" "best" "system_time") "out"
             (filename_hist_best stats) "p")
         (trace (analyze_path (sample_env ["p"] (λ _, true) (λ _, None))
                   sample_args "out" "p" {["p" := (true, true)]}
                   "system_time")).
Proof.
  destruct (analyze_path_artifacts_match_names
              (sample_env ["p"] (λ _, true) (λ _, None)) sample_args "out"
              "p" "system_time" {["p" := (true, true)]} true true
              (Fin (4 # 1000000000)))
    as (stats & Hret & _ & Hhist & _).
  - reflexivity.
  - discriminate.
  - reflexivity.
  - exists stats. split; [exact Hret|exact Hhist].
Defined.

(** X13. The short message flow is drawn whenever the window bounded by the
    last input is defined: it strips the first half of that window and, of
    the second half, all but the first 3.1 seconds. Of a window that is
    [nan] both strips are [nan]. Of a window of [d] seconds the left strip
    is [d / 2] and the right strip is not negative; when [d] is not
    negative, which a wrapped difference need not be, so is the left strip,
    the two strips fit in the window, and what is left is at most 3.1
    seconds long. *)
Theorem analyze_path_short_message_flow (env : Env) (args : Args)
    (dest_dir path xaxis_type : string)
    (mapping : gmap string (bool * bool)) (cf cl : bool)
    (duration : pyfloat) :
  mapping !! path = Some (cf, cl) ->
  (env.(path_to_records) path cf cl).(columns) <> [] ->
  get_messageflow_durationtime (settled_records env path cf cl) true
  = Some duration ->
  let lstrip := fhalf duration in
  let rstrip := fmax0 (fsub (fhalf duration) (Fin (31 # 10))) in
  In (ExportGraph
        (MessageFlow path (Some lstrip) (Some rstrip)
           (18 * length (env.(path_child_names) path) + 50))
        dest_dir (path +:+ "_messageflow_short") path)
    (trace (analyze_path env args dest_dir path mapping xaxis_type))
  /\ (duration = Nan -> lstrip = Nan /\ rstrip = Nan)
  /\ forall d,
       duration = Fin d ->
       exists lstrip_s rstrip_s,
         lstrip = Fin lstrip_s /\ rstrip = Fin rstrip_s
         /\ (lstrip_s == d / 2 /\ 0 <= rstrip_s
             /\ (0 <= d ->
                 0 <= lstrip_s
                 /\ lstrip_s + rstrip_s <= d
                 /\ d - (lstrip_s + rstrip_s) <= 31 # 10))%Q.
Proof.
  intros Hcfg Hcols Hin lstrip rstrip. split; [|split].
  - apply (analysis_events_in_trace env args dest_dir path xaxis_type
             mapping cf cl _ Hcfg Hcols).
    unfold analysis_events. rewrite Hin. right. left. reflexivity.
  - intros ->. split; reflexivity.
  - intros d ->. unfold lstrip, rstrip. cbn [fhalf fsub fmax0].
    eexists _, _. split; [reflexivity|]. split; [reflexivity|].
    assert (Hhalf : (d == 2 * (d / 2))%Q) by field.
    set (half := (d / 2)%Q) in *.
    pose proof (Q.le_max_r (half - (31 # 10)) 0) as Hr0.
    pose proof (Q.le_max_l (half - (31 # 10)) 0) as Hr1.
    split; [reflexivity|]. split; [exact Hr0|]. intros Hd.
    assert (Hr2 : (Qmax (half - (31 # 10)) 0 <= half)%Q).
    { apply Q.max_lub; lra. }
    set (rest := Qmax (half - (31 # 10)) 0) in *.
    repeat split; lra.
Qed.

Lemma analyze_path_short_message_flow_witness :
  In (ExportGraph
        (MessageFlow "p" (Some (fhalf (Fin (2 # 1000000000))))
           (Some (fmax0 (fsub (fhalf (Fin (2 # 1000000000)))
                           (Fin (31 # 10))))) 86)
        "out" "p_messageflow_short" "p")
    (trace (analyze_path (sample_env ["p"] (λ _, true) (λ _, None))
              sample_args "out" "p" {["p" := (true, true)]}
              "system_time"))
  /\ exists lstrip_s rstrip_s,
       fhalf (Fin (2 # 1000000000)) = Fin lstrip_s
       /\ fmax0 (fsub (fhalf (Fin (2 # 1000000000))) (Fin (31 # 10)))
          = Fin rstrip_s
       /\ (0 <= lstrip_s
           /\ lstrip_s + rstrip_s <= 2 # 1000000000
           /\ (2 # 1000000000) - (lstrip_s + rstrip_s) <= 31 # 10)%Q.
Proof.
  destruct (analyze_path_short_message_flow
              (sample_env ["p"] (λ _, true) (λ _, None)) sample_args "out"
              "p" "system_time" {["p" := (true, true)]} true true
              (Fin (2 # 1000000000))) as (Hdrawn & _ & Hfin).
  - reflexivity.
  - discriminate.
  - reflexivity.
  - split; [exact Hdrawn|].
    destruct (Hfin _ eq_refl)
      as (lstrip_s & rstrip_s & Hl & Hr & _ & _ & Hfit).
    exists lstrip_s, rstrip_s.
    split; [exact Hl|]. split; [exact Hr|]. apply Hfit. discriminate.
Defined.

(** ** The run, further *)

Lemma for_collect_results {A B : Type} (xs : list A) (body : A -> M B)
    (ys : list B) :
  outcome (for_collect xs body) = inr ys ->
  Forall2 (λ x y, outcome (body x) = inr y) xs ys.
Proof.
  revert ys. induction xs as [|x xs IH]; intros ys.
  - intros [= <-]. constructor.
  - cbn [for_collect]. rewrite outcome_bind.
    destruct (outcome (body x)) as [e|y] eqn:Hy; [discriminate|].
    rewrite outcome_bind.
    destruct (outcome (for_collect xs body)) as [e|ys'] eqn:Hys;
      [discriminate|].
    intros [= <-]. constructor; [exact Hy|]. now apply IH.
Qed.

Lemma for_collect_raises {A B : Type} (xs : list A) (body : A -> M B)
    (e : Exn) :
  outcome (for_collect xs body) = inl e ->
  exists x, x ∈ xs /\ outcome (body x) = inl e.
Proof.
  induction xs as [|x xs IH]; [discriminate|].
  cbn [for_collect]. rewrite outcome_bind.
  destruct (outcome (body x)) as [e'|y] eqn:Hy.
  - intros [= <-]. exists x. split; [left|exact Hy].
  - rewrite outcome_bind.
    destruct (outcome (for_collect xs body)) as [e'|ys] eqn:Hys;
      [|discriminate].
    intros [= <-]. destruct (IH eq_refl) as (x' & Hin & Hx').
    exists x'. split; [now right|exact Hx'].
Qed.

Lemma verify_events_prefix (env : Env) (pre post : list string) (p : string) :
  (forall q, q ∈ pre -> env.(path_verify) q = true) ->
  env.(path_verify) p = false ->
  verify_events env (pre ++ p :: post)
  = flat_map (λ q, [Verify q true;
                    Log INFO ("path.verify " +:+ q +:+ ": True")]) pre
    ++ [Verify p false; Log INFO ("path.verify " +:+ p +:+ ": False")]
  /\ forallb env.(path_verify) (pre ++ p :: post) = false.
Proof.
  intros Hpre Hp. induction pre as [|q pre IH].
  - cbn [app verify_events flat_map forallb]. rewrite Hp. split; reflexivity.
  - cbn [app verify_events flat_map forallb].
    rewrite (Hpre q) by left.
    destruct IH as [IH1 IH2]; [intros q' Hq'; apply Hpre; now right|].
    rewrite IH1, IH2. split; reflexivity.
Qed.

(** X14. Verification stops at the first declared path that does not verify:
    the paths before it are verified and logged, the paths after it are not
    looked at, and the run exits with status -1. By then the destination
    directory was already prepared, under the force flag, and the
    architecture file copied into it. *)
Theorem analyze_stops_at_first_unverified
    (env : Env) (args : Args) (dest_dir : string)
    (pre post : list string) (p : string) :
  env.(arch_paths) = pre ++ p :: post ->
  (forall q, q ∈ pre -> env.(path_verify) q = true) ->
  env.(path_verify) p = false ->
  analyze env args dest_dir
  = ([Log INFO "<<< Analyze Paths: Start >>>";
      MakeDestinationDir dest_dir args.(force);
      ShutilCopy args.(architecture_file_path) dest_dir]
     ++ flat_map (λ q, [Verify q true;
                        Log INFO ("path.verify " +:+ q +:+ ": True")]) pre
     ++ [Verify p false; Log INFO ("path.verify " +:+ p +:+ ": False")],
     inl (SystemExit (-1))).
Proof.
  intros Hpaths Hpre Hp.
  destruct (verify_events_prefix env pre post p Hpre Hp) as [Hev Hall].
  rewrite <- Hpaths in Hev, Hall.
  rewrite (analyze_unverified env args dest_dir Hall), Hev. reflexivity.
Qed.

Lemma analyze_stops_at_first_unverified_witness :
  analyze (sample_env ["a"; "b"; "c"] (λ q, String.eqb q "a") (λ _, None))
    sample_args "out"
  = ([Log INFO "<<< Analyze Paths: Start >>>";
      MakeDestinationDir "out" false;
      ShutilCopy "architecture_path.yaml" "out";
      Verify "a" true; Log INFO "path.verify a: True";
      Verify "b" false; Log INFO "path.verify b: False"],
     inl (SystemExit (-1))).
Proof.
  apply (analyze_stops_at_first_unverified
           (sample_env ["a"; "b"; "c"] (λ q, String.eqb q "a") (λ _, None))
           sample_args "out" ["a"] ["c"] "b").
  - reflexivity.
  - intros q Hq. apply list_elem_of_singleton in Hq as ->. reflexivity.
  - reflexivity.
Defined.

Lemma analyze_returned (env : Env) (args : Args) (dest_dir : string) :
  outcome (analyze env args dest_dir) = inr tt ->
  forallb env.(path_verify) env.(arch_paths) = true.
Proof.
  intros Hret. destruct (forallb _ _) eqn:Hall; [reflexivity|].
  rewrite (analyze_unverified env args dest_dir Hall) in Hret. discriminate.
Qed.

Lemma collected_records_identity (env : Env) (args : Args)
    (dest_dir xaxis_type : string) (mapping : gmap string (bool * bool))
    (paths : list string) (stats_list : list Stats) :
  Forall2 (λ p stats,
             outcome (analyze_path env args dest_dir p mapping xaxis_type)
             = inr stats) paths stats_list ->
  map target_path_name stats_list = paths
  /\ map node_names stats_list = map env.(path_node_names) paths.
Proof.
  induction 1 as [|p stats paths rest Hp _ IH]; [split; reflexivity|].
  apply analyze_path_returned in Hp as (cf & cl & _ & _ & ->).
  destruct (reported_stats_identity env args p xaxis_type
              (settled_records env p cf cl)) as (Hname & Hnodes & _).
  destruct IH as [IH1 IH2]. cbn [map]. rewrite Hname, Hnodes, IH1, IH2.
  split; reflexivity.
Qed.

(** X15. When the run completes, the list dumped to [stats_path.yaml] has
    one record per declared path, in the order of the declaration: the names
    of its records are the declared names. *)
Theorem analyze_reports_in_declared_order
    (env : Env) (args : Args) (dest_dir : string) :
  outcome (analyze env args dest_dir) = inr tt ->
  exists stats_list,
    In (SafeDump (dest_dir +:+ "/stats_path.yaml") stats_list)
      (trace (analyze env args dest_dir))
    /\ map target_path_name stats_list = env.(arch_paths)
    /\ map node_names stats_list
       = map env.(path_node_names) env.(arch_paths).
Proof.
  intros Hret. pose proof (analyze_returned env args dest_dir Hret) as Hall.
  rewrite (analyze_verified env args dest_dir Hall) in Hret |- *.
  destruct (outcome (for_collect _ _)) as [e|stats_list] eqn:Hout;
    [discriminate|].
  exists stats_list. split.
  - unfold trace. cbn [fst]. apply in_or_app. right.
    apply in_or_app. right. apply in_or_app. right. left. reflexivity.
  - apply for_collect_results in Hout.
    now apply collected_records_identity in Hout.
Qed.

Lemma analyze_reports_in_declared_order_witness :
  exists stats_list,
    In (SafeDump "out/stats_path.yaml" stats_list)
      (trace (analyze (sample_env ["silent"; "p"] (λ _, true) (λ _, None))
                sample_args "out"))
    /\ map target_path_name stats_list = ["silent"; "p"]
    /\ map node_names stats_list
       = [["/sensor"; "/filter"]; ["/sensor"; "/filter"]].
Proof.
  apply (analyze_reports_in_declared_order
           (sample_env ["silent"; "p"] (λ _, true) (λ _, None))
           sample_args "out").
  reflexivity.
Defined.

(** X16. If every declared path verifies but the first table of one of them
    has no columns, the run ends in an [IndexError] and writes no report:
    the records of the paths analysed before are lost. *)
Theorem analyze_aborts_without_report
    (env : Env) (args : Args) (dest_dir : string) (p : string) :
  (forall q, q ∈ env.(arch_paths) -> env.(path_verify) q = true) ->
  p ∈ env.(arch_paths) ->
  (forall cf cl, (env.(path_to_records) p cf cl).(columns) = []) ->
  outcome (analyze env args dest_dir) = inl IndexError
  /\ Forall (λ e, match e with SafeDump _ _ | RoundYaml _ => False
                  | _ => True end)
       (trace (analyze env args dest_dir)).
Proof.
  intros Hverify Hin Hcols. apply forallb_elem_of in Hverify.
  rewrite (analyze_verified env args dest_dir Hverify).
  set (mapping := get_include_first_last_callback _ _).
  set (xaxis_type := if sim_time args then _ else _).
  set (paths_run := for_collect _ _).
  assert (Hp : outcome (analyze_path env args dest_dir p mapping xaxis_type)
               = inl IndexError).
  { destruct (get_include_first_last_callback_lookup_declared
                (env.(json_load) args.(target_path_json))
                env.(arch_paths) p Hin) as [[cf cl] Hcfg].
    fold mapping in Hcfg.
    now rewrite (analyze_path_no_columns env args dest_dir p xaxis_type
                   mapping cf cl Hcfg (Hcols cf cl)). }
  destruct (outcome paths_run) as [e|stats_list] eqn:Hout.
  - apply for_collect_raises in Hout as (q & Hq & Hqe).
    assert (He : e = IndexError).
    { destruct (mapping !! q) as [[cf cl]|] eqn:Hcfg.
      - destruct (columns (path_to_records env q cf cl)) as [|c cs] eqn:Hc.
        + rewrite (analyze_path_no_columns env args dest_dir q xaxis_type
                     mapping cf cl Hcfg Hc) in Hqe. now injection Hqe.
        + rewrite (analyze_path_eq env args dest_dir q xaxis_type mapping
                     cf cl Hcfg) in Hqe by (rewrite Hc; discriminate).
          discriminate.
      - destruct (get_include_first_last_callback_lookup_declared
                    (env.(json_load) args.(target_path_json))
                    env.(arch_paths) q Hq) as [v Hv].
        fold mapping in Hv. congruence. }
    subst e. split; [reflexivity|].
    unfold trace at 1. cbn [fst]. apply Forall_app. split;
      [repeat constructor|].
    apply Forall_app. split.
    + eapply List.Forall_impl; [|apply verify_events_quiet].
      intros [] Hev; simpl in *; try exact I; discriminate.
    + eapply List.Forall_impl;
        [|apply Forall_trace_for_collect; intros q';
          apply analyze_path_events].
      intros [] Hev; simpl in *; try exact I; discriminate.
  - exfalso. apply for_collect_results in Hout.
    apply list_elem_of_lookup in Hin as [i Hi].
    destruct (Forall2_lookup_l _ _ _ _ _ Hout Hi) as (s & _ & Hs).
    cbv beta in Hs. congruence.
Qed.

Lemma analyze_aborts_without_report_witness :
  outcome (analyze
             (mkEnv ["p"] (λ _, true) (λ _, []) (λ _, [])
                (λ _ _ _, mkDataFrame [] []) (λ _ _ _, [])
                (λ _ _ _, None) (λ _, []) (λ _, 0%Q))
             sample_args "out")
  = inl IndexError.
Proof.
  apply (analyze_aborts_without_report
           (mkEnv ["p"] (λ _, true) (λ _, []) (λ _, [])
              (λ _ _ _, mkDataFrame [] []) (λ _ _ _, [])
              (λ _ _ _, None) (λ _, []) (λ _, 0%Q))
           sample_args "out" "p").
  - reflexivity.
  - set_solver.
  - reflexivity.
Defined.

Lemma analyze_path_writes_under (env : Env) (args : Args)
    (dest_dir path xaxis_type : string)
    (mapping : gmap string (bool * bool)) :
  Forall (writes_under dest_dir)
    (trace (analyze_path env args dest_dir path mapping xaxis_type)).
Proof.
  unfold analyze_path, dict_get.
  destruct (mapping !! path) as [[cf cl]|]; [|all_under].
  unfold to_records. run.
  rewrite check_the_first_last_callback_is_valid_eq.
  destruct (columns (path_to_records env path cf cl)) as [|c cs];
    [all_under|].
  unfold boundary_warnings, has_rows.
  destruct (length (rows (path_to_records env path cf cl)) =? 0)%nat; run.
  all: branch_on_duration.
  all: destruct (message_flow args); run.
  all: branch_on_duration.
  all: unfold response_time_case, stacked_bar, export_graph; run.
  all: branch_on_stacked_bar.
  all: all_under.
Qed.

Lemma verify_events_write_nothing (env : Env) (dest_dir : string)
    (paths : list string) :
  Forall (writes_under dest_dir) (verify_events env paths).
Proof.
  induction paths as [|p rest IH]; [constructor|].
  cbn [verify_events]. do 2 (apply List.Forall_cons; [exact I|]).
  destruct (path_verify env p); [exact IH|constructor].
Qed.

(** X17. Whatever the paths, the configuration and the outcome, the run
    writes under the destination directory only: that directory is the one
    it prepares, copies the architecture file into and hands to every graph
    export, and the name of every CSV file, stacked bar and report is the
    directory, a slash and a file name. *)
Theorem analyze_writes_under_dest_dir
    (env : Env) (args : Args) (dest_dir : string) :
  Forall (writes_under dest_dir) (trace (analyze env args dest_dir)).
Proof.
  destruct (forallb env.(path_verify) env.(arch_paths)) eqn:Hall.
  - rewrite (analyze_verified env args dest_dir Hall).
    set (paths_run := for_collect _ _).
    assert (Hpaths : Forall (writes_under dest_dir) (trace paths_run)).
    { apply Forall_trace_for_collect. intros p.
      apply analyze_path_writes_under. }
    destruct (outcome paths_run) as [e|stats_list]; unfold trace at 1;
      cbn [fst].
    + apply Forall_app. split; [all_under|].
      apply Forall_app. split; [apply verify_events_write_nothing|].
      exact Hpaths.
    + apply Forall_app. split; [all_under|].
      apply Forall_app. split; [apply verify_events_write_nothing|].
      apply Forall_app. split; [exact Hpaths|all_under].
  - rewrite (analyze_unverified env args dest_dir Hall).
    unfold trace. cbn [fst]. apply Forall_app. split; [all_under|].
    apply verify_events_write_nothing.
Qed.

(** ** The configuration, further *)

Lemma resolve_app (pre post : list TargetPath) (k : string)
    (start : bool * bool) :
  resolve (pre ++ post) k start = resolve post k (resolve pre k start).
Proof. unfold resolve. apply foldl_app. Qed.

Lemma not_contains_str_in (t k : string) :
  ~ contains t k -> str_in t k = false.
Proof.
  intros Hno. destruct (str_in t k) eqn:Hs; [|reflexivity].
  exfalso. apply Hno, str_in_spec, Hs.
Qed.

(** X18. An entry whose name occurs in no declared path name has no effect:
    the mapping is the same with the entry left out, wherever in the file it
    stands and whatever flags it carries. *)
Theorem unmatched_entry_is_ignored
    (pre post : list TargetPath) (e : TargetPath) (arch_paths : list string) :
  (forall p, p ∈ arch_paths -> ~ contains e.(name) p) ->
  get_include_first_last_callback (pre ++ e :: post) arch_paths
  = get_include_first_last_callback (pre ++ post) arch_paths.
Proof.
  intros Hno. apply map_eq. intros k.
  rewrite !get_include_first_last_callback_lookup.
  destruct (bool_decide (k ∈ arch_paths)) eqn:Hk; [|reflexivity].
  apply bool_decide_eq_true in Hk. f_equal.
  change (e :: post) with ([e] ++ post). rewrite !resolve_app. f_equal.
  unfold resolve. cbn [foldl].
  now rewrite (not_contains_str_in _ _ (Hno k Hk)).
Qed.

Lemma unmatched_entry_is_ignored_witness :
  get_include_first_last_callback
    ([mkTargetPath "PathA" (Some false) None]
     ++ mkTargetPath "PathZ" (Some false) (Some false) :: [])
    ["PathA_0"; "Other"]
  = get_include_first_last_callback
      ([mkTargetPath "PathA" (Some false) None] ++ [])
      ["PathA_0"; "Other"].
Proof.
  apply unmatched_entry_is_ignored. intros p Hp Hc.
  apply str_in_spec in Hc.
  apply elem_of_cons in Hp as [->|Hp]; [discriminate|].
  apply list_elem_of_singleton in Hp as ->. discriminate.
Defined.

(** X19. Two neighbouring entries can be swapped without changing the
    mapping when no declared path name contains both of their names: the
    order of the file matters only between entries that match a common path. *)
Theorem independent_entries_commute
    (pre post : list TargetPath) (e1 e2 : TargetPath)
    (arch_paths : list string) :
  (forall p, p ∈ arch_paths ->
             ~ (contains e1.(name) p /\ contains e2.(name) p)) ->
  get_include_first_last_callback (pre ++ e1 :: e2 :: post) arch_paths
  = get_include_first_last_callback (pre ++ e2 :: e1 :: post) arch_paths.
Proof.
  intros Hno. apply map_eq. intros k.
  rewrite !get_include_first_last_callback_lookup.
  destruct (bool_decide (k ∈ arch_paths)) eqn:Hk; [|reflexivity].
  apply bool_decide_eq_true in Hk. f_equal.
  change (e1 :: e2 :: post) with ([e1; e2] ++ post).
  change (e2 :: e1 :: post) with ([e2; e1] ++ post).
  rewrite !resolve_app. f_equal. unfold resolve. cbn [foldl].
  destruct (str_in (name e1) k) eqn:H1, (str_in (name e2) k) eqn:H2;
    try reflexivity.
  exfalso. apply (Hno k Hk). split; now apply str_in_spec.
Qed.

Lemma independent_entries_commute_witness :
  get_include_first_last_callback
    ([] ++ mkTargetPath "PathA" (Some false) None
        :: mkTargetPath "PathB" None (Some false) :: [])
    ["PathA_0"; "PathB_0"]
  = get_include_first_last_callback
      ([] ++ mkTargetPath "PathB" None (Some false)
          :: mkTargetPath "PathA" (Some false) None :: [])
      ["PathA_0"; "PathB_0"].
Proof.
  apply independent_entries_commute. intros p Hp [Ha Hb].
  apply str_in_spec in Ha. apply str_in_spec in Hb.
  apply elem_of_cons in Hp as [->|Hp]; [discriminate|].
  apply list_elem_of_singleton in Hp as ->. discriminate.
Defined.

Lemma str_in_empty (k : string) : str_in "" k = true.
Proof. destruct k; reflexivity. Qed.

(** X20. An entry with the empty string for a name matches every path:
    standing last in the file, it sets the pair of every declared path. *)
Theorem empty_name_matches_every_path
    (entries : list TargetPath) (e : TargetPath) (arch_paths : list string)
    (p : string) :
  e.(name) = "" ->
  p ∈ arch_paths ->
  get_include_first_last_callback (entries ++ [e]) arch_paths !! p
  = Some (default true e.(include_first_callback),
          default true e.(include_last_callback)).
Proof.
  intros Hname Hp. rewrite get_include_first_last_callback_lookup.
  rewrite bool_decide_eq_true_2 by assumption. f_equal.
  rewrite (resolve_last_match entries [] e p (true, true));
    [reflexivity| |constructor].
  rewrite Hname. apply str_in_empty.
Qed.

Lemma empty_name_matches_every_path_witness :
  get_include_first_last_callback
    ([mkTargetPath "PathA" None None] ++ [mkTargetPath "" (Some false) None])
    ["PathA_0"; "Other"] !! "Other"
  = Some (false, true).
Proof.
  apply (empty_name_matches_every_path [mkTargetPath "PathA" None None]
           (mkTargetPath "" (Some false) None) ["PathA_0"; "Other"] "Other").
  - reflexivity.
  - set_solver.
Defined.

(** ** The statistics, further *)




Lemma round_half_even_Z (n : Z) : Np.round_half_even (inject_Z n) = n.
Proof.
  unfold Np.round_half_even. rewrite Qfloor_Z.
  destruct (Qcompare_spec (inject_Z n - inject_Z n) (1 # 2)) as [H|H|H].
  - exfalso. lra.
  - reflexivity.
  - exfalso. lra.
Qed.

Lemma round3_round3 (x : Q) : Np.round3 (Np.round3 x) = Np.round3 x.
Proof.
  unfold Np.round3. set (n := Np.round_half_even (x * 1000)).
  do 2 f_equal. rewrite <- (round_half_even_Z n) at 2.
  apply round_half_even_comp. field.
Qed.

(** X22. Every value [calc_stats] assigns has at most three decimals:
    rounding it again gives it back. For more than one sample the stored
    minimum and maximum differ from the least and the greatest sample by at
    most 0.0005. *)
Theorem calc_stats_stores_rounded
    (np_std : list Q -> Q) (self : Stats) (df_best df_worst : list Q) :
  let after := calc_stats np_std self df_best df_worst in
  Forall (λ field, field after = field self
                   \/ py_round3 (field after) = field after)
    statistics_fields
  /\ ((1 < length df_best)%nat ->
      exists vmin vmax,
        best_min after = PyFloat vmin /\ best_max after = PyFloat vmax
        /\ (vmin - Np.min df_best <= 1 # 2000
            /\ Np.min df_best - vmin <= 1 # 2000
            /\ vmax - Np.max df_best <= 1 # 2000
            /\ Np.max df_best - vmax <= 1 # 2000)%Q).
Proof.
  intros after. unfold after.
  assert (Havg : forall l, py_round3 (py_round3 (Np.average l))
                           = py_round3 (Np.average l)).
  { intros [|x l]; [reflexivity|]. simpl. now rewrite round3_round3. }
  assert (Hr : forall x, py_round3 (rounded x) = rounded x).
  { intros x. unfold rounded. simpl. now rewrite round3_round3. }
  split.
  - unfold statistics_fields.
    apply List.Forall_cons.
    { right. rewrite calc_stats_best_avg. apply Havg. }
    apply Forall_app. split; [|apply List.Forall_cons].
    + destruct (le_lt_dec (length df_best) 1) as [Hs|Hl].
      * eapply List.Forall_impl;
          [|apply (calc_stats_best_short np_std self df_best df_worst Hs)].
        intros field Hf. now left.
      * destruct (calc_stats_best_long np_std self df_best df_worst Hl)
          as (H1 & H2 & H3 & H4 & H5 & H6).
        repeat (apply List.Forall_cons;
                [right; rewrite ?H1, ?H2, ?H3, ?H4, ?H5, ?H6; apply Hr|]).
        apply List.Forall_nil.
    + right. rewrite calc_stats_worst_avg. apply Havg.
    + destruct (le_lt_dec (length df_worst) 1) as [Hs|Hl].
      * eapply List.Forall_impl;
          [|apply (calc_stats_worst_short np_std self df_best df_worst Hs)].
        intros field Hf. now left.
      * destruct (calc_stats_worst_long np_std self df_best df_worst Hl)
          as (H1 & H2 & H3 & H4 & H5 & H6).
        repeat (apply List.Forall_cons;
                [right; rewrite ?H1, ?H2, ?H3, ?H4, ?H5, ?H6; apply Hr|]).
        apply List.Forall_nil.
  - intros Hl.
    destruct (calc_stats_best_long np_std self df_best df_worst Hl)
      as (_ & Hmin & Hmax & _).
    exists (Np.round3 (Np.min df_best)), (Np.round3 (Np.max df_best)).
    split; [exact Hmin|]. split; [exact Hmax|].
    destruct (round3_near (Np.min df_best)) as [A B].
    destruct (round3_near (Np.max df_best)) as [C D].
    repeat split; assumption.
Qed.

Lemma calc_stats_stores_rounded_witness :
  exists vmin vmax,
    best_min (calc_stats (λ _, 0%Q) (Stats_init "p" [])
                [(12345 # 10000)%Q; (5 # 3)%Q] []) = PyFloat vmin
    /\ best_max (calc_stats (λ _, 0%Q) (Stats_init "p" [])
                   [(12345 # 10000)%Q; (5 # 3)%Q] []) = PyFloat vmax
    /\ (vmin - Np.min [(12345 # 10000)%Q; (5 # 3)%Q] <= 1 # 2000
        /\ Np.min [(12345 # 10000)%Q; (5 # 3)%Q] - vmin <= 1 # 2000
        /\ vmax - Np.max [(12345 # 10000)%Q; (5 # 3)%Q] <= 1 # 2000
        /\ Np.max [(12345 # 10000)%Q; (5 # 3)%Q] - vmax <= 1 # 2000)%Q.
Proof.
  apply (calc_stats_stores_rounded (λ _, 0%Q) (Stats_init "p" [])
           [(12345 # 10000)%Q; (5 # 3)%Q] []).
  simpl. lia.
Defined.

(** ** The order of the samples *)















(** ** A failing stacked bar, in full *)

(** A failing bar changes neither what [analyze_path] returns nor, the
    bar and its warnings apart, what it does. *)
Lemma stacked_bar_quiet_run
    (env : Env) (args : Args) (dest_dir path xaxis_type : string)
    (mapping : gmap string (bool * bool)) :
  let quiet := with_stacked_bar_error env (λ _ _ _, None) in
  outcome (analyze_path env args dest_dir path mapping xaxis_type)
  = outcome (analyze_path quiet args dest_dir path mapping xaxis_type)
  /\ bar_replaced
       (trace (analyze_path env args dest_dir path mapping xaxis_type))
       (trace (analyze_path quiet args dest_dir path mapping xaxis_type)).
Proof.
  intros quiet.
  unfold quiet, with_stacked_bar_error, analyze_path, dict_get.
  destruct (mapping !! path) as [[cf cl]|];
    [|split; [reflexivity|relate_traces]].
  unfold to_records. run.
  rewrite !check_the_first_last_callback_is_valid_eq.
  destruct (columns (path_to_records env path cf cl)) as [|c cs];
    [split; [reflexivity|relate_traces]|].
  unfold boundary_warnings, has_rows.
  destruct (length (rows (path_to_records env path cf cl)) =? 0)%nat; run.
  all: branch_on_duration.
  all: destruct (message_flow args); run.
  all: branch_on_duration.
  all: unfold response_time_case, stacked_bar, export_graph; run.
  all: branch_on_stacked_bar.
  all: split; [reflexivity|relate_traces].
Qed.

(** C9. On a path with output traffic, whatever stacked bars fail to
    render: [analyze_path] returns the statistics [calc_stats] computes
    from the best-case and worst-case response times, with the file names
    stored, as the run in which no bar fails does; the loop over the three
    cases runs to its end, writing for each case its CSV, its time series
    and its histogram, and for a failing case two warnings in place of the
    saved bar; these are the only CSV files, response-time plots and bars
    of the trace, which ends with the two log lines about the record; and
    the trace is that of the run in which no bar fails with the bars that
    failed replaced by their warnings, everything else in place. *)
Theorem stacked_bar_failure_is_isolated
    (env : Env) (args : Args) (dest_dir path xaxis_type : string)
    (mapping : gmap string (bool * bool)) (cf cl : bool)
    (duration : pyfloat) :
  mapping !! path = Some (cf, cl) ->
  (env.(path_to_records) path cf cl).(columns) <> [] ->
  get_messageflow_durationtime (settled_records env path cf cl) false
  = Some duration ->
  let run := analyze_path env args dest_dir path mapping xaxis_type in
  let quiet := with_stacked_bar_error env (λ _ _ _, None) in
  let stats :=
    store_filename
      (calc_stats env.(np_std) (Stats_init path (env.(path_node_names) path))
         (env.(response_time) path "best" xaxis_type)
         (env.(response_time) path "worst" xaxis_type))
      path args.(message_flow) in
  outcome run = inr stats
  /\ (exists before,
        Forall (λ e, is_response_time_artifact e = false) before
        /\ trace run
           = before
             ++ flat_map
                  (λ case_str,
                     [ToCsv path case_str xaxis_type
                        (dest_dir +:+ "/" +:+ path +:+ "_response_time_"
                         +:+ case_str +:+ ".csv");
                      ExportGraph (Timeseries path case_str xaxis_type)
                        dest_dir (path +:+ "_timeseries_" +:+ case_str) path;
                      ExportGraph (Histogram path case_str xaxis_type)
                        dest_dir (path +:+ "_hist_" +:+ case_str) path]
                     ++ match env.(stacked_bar_error) path case_str
                                xaxis_type with
                        | None =>
                            [SaveStackedBar path case_str xaxis_type
                               (dest_dir +:+ "/" +:+ path +:+ "_stacked_bar_"
                                +:+ case_str +:+ ".html")]
                        | Some str_e =>
                            [Log WARNING
                               ("    Failed to create stacked bar graph: "
                                +:+ path +:+ ", " +:+ case_str);
                             Log WARNING str_e]
                        end)
                  ["best"; "worst"; "all"]
             ++ [Log INFO ("---" +:+ path +:+ "---"); LogVars DEBUG stats])
  /\ outcome (analyze_path quiet args dest_dir path mapping xaxis_type)
     = inr stats
  /\ bar_replaced (trace run)
       (trace (analyze_path quiet args dest_dir path mapping xaxis_type)).
Proof.
  intros Hcfg Hcols Hout run quiet stats.
  destruct (duration_output_then_input _ _ Hout) as [[by_input Hin] _].
  assert (Hstats :
    reported_stats env args path xaxis_type (settled_records env path cf cl)
    = stats).
  { unfold reported_stats. now rewrite Hin, Hout. }
  assert (Hrun : outcome run = inr stats).
  { unfold run. rewrite (analyze_path_eq env args dest_dir path xaxis_type
                           mapping cf cl Hcfg Hcols).
    unfold outcome. cbn [snd]. now rewrite Hstats. }
  destruct (stacked_bar_quiet_run env args dest_dir path xaxis_type mapping)
    as [Hsame Hrel].
  split; [exact Hrun|]. split; [|split; [|exact Hrel]].
  - unfold run. rewrite (analyze_path_eq env args dest_dir path xaxis_type
                           mapping cf cl Hcfg Hcols).
    unfold trace. cbn [fst]. unfold analysis_events.
    rewrite Hin, Hout, Hstats.
    exists (Log INFO ("Processing: " +:+ path)
            :: ToRecords path cf cl
            :: boundary_warnings (path_to_records env path cf cl)
            ++ (if has_rows (path_to_records env path cf cl) then []
                else [ToRecords path false false])
            ++ Log INFO "  message flow"
            :: ExportGraph
                 (MessageFlow path (Some (fhalf by_input))
                    (Some (fmax0 (fsub (fhalf by_input) (Fin (31 # 10)))))
                    (18 * length (path_child_names env path) + 50))
                 dest_dir (path +:+ "_messageflow_short") path
            :: (if message_flow args then
                  [ExportGraph
                     (MessageFlow path None None
                        (18 * length (path_child_names env path) + 50))
                     dest_dir (path +:+ "_messageflow") path]
                else [])
            ++ [Log INFO "  response time"]).
    split.
    + unfold boundary_warnings, has_rows.
      destruct (length (rows (path_to_records env path cf cl)) =? 0)%nat,
        (message_flow args); repeat constructor.
    + cbv zeta. rewrite <- !app_comm_cons. do 2 f_equal.
      rewrite <- !app_assoc. do 2 f_equal.
      rewrite <- !app_comm_cons. do 2 f_equal.
      rewrite <- !app_assoc. reflexivity.
  - rewrite <- Hrun. symmetry. exact Hsame.
Qed.

(** The bar of the worst case fails. *)
Lemma stacked_bar_failure_is_isolated_witness :
  let env :=
    sample_env ["p"] (λ _, true)
      (λ case_str, if String.eqb case_str "worst" then Some "no data"
                   else None) in
  let run :=
    analyze_path env sample_args "out" "p" {["p" := (true, true)]}
      "system_time" in
  let stats :=
    store_filename
      (calc_stats (λ _, 0%Q) (Stats_init "p" ["/sensor"; "/filter"])
         [3%Q; 1%Q; 2%Q] [3%Q; 1%Q; 2%Q]) "p" false in
  outcome run = inr stats
  /\ outcome (analyze_path (with_stacked_bar_error env (λ _ _ _, None))
               sample_args "out" "p" {["p" := (true, true)]} "system_time")
     = inr stats
  /\ exists before,
       trace run
       = before
         ++ [ToCsv "p" "best" "system_time" "out/p_response_time_best.csv";
             ExportGraph (Timeseries "p" "best" "system_time") "out"
               "p_timeseries_best" "p";
             ExportGraph (Histogram "p" "best" "system_time") "out"
               "p_hist_best" "p";
             SaveStackedBar "p" "best" "system_time"
               "out/p_stacked_bar_best.html";
             ToCsv "p" "worst" "system_time"
               "out/p_response_time_worst.csv";
             ExportGraph (Timeseries "p" "worst" "system_time") "out"
               "p_timeseries_worst" "p";
             ExportGraph (Histogram "p" "worst" "system_time") "out"
               "p_hist_worst" "p";
             Log WARNING "    Failed to create stacked bar graph: p, worst";
             Log WARNING "no data";
             ToCsv "p" "all" "system_time" "out/p_response_time_all.csv";
             ExportGraph (Timeseries "p" "all" "system_time") "out"
               "p_timeseries_all" "p";
             ExportGraph (Histogram "p" "all" "system_time") "out"
               "p_hist_all" "p";
             SaveStackedBar "p" "all" "system_time"
               "out/p_stacked_bar_all.html";
             Log INFO "---p---";
             LogVars DEBUG stats].
Proof.
  intros env run stats.
  destruct (stacked_bar_failure_is_isolated env sample_args "out" "p"
              "system_time" {["p" := (true, true)]} true true
              (Fin (4 # 1000000000)))
    as (Hrun & (before & _ & Htrace) & Hquiet & _).
  - reflexivity.
  - discriminate.
  - reflexivity.
  - split; [exact Hrun|]. split; [exact Hquiet|].
    exists before. exact Htrace.
Defined.
